(** * Peak-Performance: member status, filters, payments, monthly statistics

    A shallow embedding of the route handlers of the gym-membership API
    ([backend/src/routes/members.ts], the payments router, the dashboard
    router) and of the client-side member filters
    ([frontend/src/pages/MemberManagement.tsx] and the Index page), followed
    by the properties of the specification that concern them.

    Conventions of the embedding:
    - a JavaScript [Date] is its time value, a [Z] of milliseconds since the
      epoch; [new Date()] is the argument [now] of a handler;
    - a table of the store is the list of its rows, in insertion order;
      [findUnique] returns the first row with the key, [update] rewrites
      that row, [create] adds a row at the end;
    - a request body or query string is a record of optional fields, [None]
      standing for [undefined];
    - a handler is a function from the store to the store and either the
      response data or the error thrown (handed to [next]);
    - strings are byte strings; case mapping and white space are those of
      ASCII;
    - the store's bookkeeping columns [createdAt] and [updatedAt] are left
      out, and amounts are integers (the smallest currency unit). *)

From Stdlib Require Import String Ascii List ZArith Bool Lia Arith.
Import ListNotations.
Open Scope string_scope.
Open Scope Z_scope.

(** ** JavaScript strings and numbers *)

Module Js.

Definition isUpper (c : ascii) : bool :=
  let n := nat_of_ascii c in (65 <=? n)%nat && (n <=? 90)%nat.



Definition lowerChar (c : ascii) : ascii :=
  if isUpper c then ascii_of_nat (nat_of_ascii c + 32) else c.

(** [s.toLowerCase()] *)
Fixpoint toLowerCase (s : string) : string :=
  match s with
  | EmptyString => EmptyString
  | String c r => String (lowerChar c) (toLowerCase r)
  end.

(** [s.startsWith(sub)] *)
Fixpoint startsWith (s sub : string) : bool :=
  match sub, s with
  | EmptyString, _ => true
  | String _ _, EmptyString => false
  | String a sub', String b s' => Ascii.eqb a b && startsWith s' sub'
  end.

(** [s.includes(sub)] *)
Fixpoint includes (s sub : string) : bool :=
  startsWith s sub ||
  match s with
  | EmptyString => false
  | String _ r => includes r sub
  end.

Definition isSpace (c : ascii) : bool :=
  let n := nat_of_ascii c in
  ((9 <=? n)%nat && (n <=? 13)%nat) || (n =? 32)%nat.

Fixpoint trimStart (s : string) : string :=
  match s with
  | EmptyString => EmptyString
  | String c r => if isSpace c then trimStart r else s
  end.

Fixpoint trimEnd (s : string) : string :=
  match s with
  | EmptyString => EmptyString
  | String c r =>
      match trimEnd r with
      | EmptyString => if isSpace c then EmptyString else String c EmptyString
      | r' => String c r'
      end
  end.

(** [s.trim()] *)
Definition trim (s : string) : string := trimEnd (trimStart s).

(** Truthiness of a value that is a string or [undefined]. *)
Definition truthy (v : option string) : bool :=
  match v with
  | Some s => negb (String.eqb s EmptyString)
  | None => false
  end.

(** [a || b] on such values. *)
Definition or_else (a b : option string) : option string :=
  if truthy a then a else b.

(** A JavaScript number that came out of [Number(...)]: an integer or
    [NaN]. *)
Inductive Number : Type :=
| Num (z : Z)
| NaN.

(** [Number(v)] for a value that is an integer or [undefined]. *)
Definition toNumber (v : option Z) : Number :=
  match v with
  | Some z => Num z
  | None => NaN
  end.

Definition add (a b : Number) : Number :=
  match a, b with
  | Num x, Num y => Num (x + y)
  | _, _ => NaN
  end.

(** [a === b] on numbers: [NaN] equals nothing. *)
Definition strictEq (a b : Number) : bool :=
  match a, b with
  | Num x, Num y => x =? y
  | _, _ => false
  end.

(** [xs.reduce((s, x) => s + x, 0)] *)
Definition sum (xs : list Number) : Number :=
  fold_left add xs (Num 0).

End Js.

(** ** The validators of express-validator used by the routes *)

Module Validator.

(** [isIn(values)]: the string is one of the listed values. *)
Definition isIn (values : list string) (s : string) : bool :=
  existsb (String.eqb s) values.

Definition digit (c : ascii) : option Z :=
  let n := nat_of_ascii c in
  if (48 <=? n)%nat && (n <=? 57)%nat then Some (Z.of_nat (n - 48)) else None.

Fixpoint digits (s : string) (acc : Z) : option Z :=
  match s with
  | EmptyString => Some acc
  | String c r =>
      match digit c with
      | Some d => digits r (10 * acc + d)
      | None => None
      end
  end.

(** [0] or a digit string without a leading zero. *)
Definition unsignedInt (s : string) : option Z :=
  match s with
  | EmptyString => None
  | String "0"%char EmptyString => Some 0
  | String "0"%char _ => None
  | _ => digits s 0
  end.

(** The integer a string denotes under the pattern of [isInt]: an
    optional sign, then [0] or digits without a leading zero. *)
Definition intValue (s : string) : option Z :=
  match s with
  | String "-"%char r => option_map Z.opp (unsignedInt r)
  | String "+"%char r => unsignedInt r
  | _ => unsignedInt s
  end.

(** [isInt({ min, max })] on a string. *)
Definition isInt (min : Z) (max : option Z) (s : string) : bool :=
  match intValue s with
  | Some z =>
      (min <=? z) && match max with Some m => z <=? m | None => true end
  | None => false
  end.

(** [isInt({ min, max })] on a JSON integer. *)
Definition inRange (min max : Z) (z : Z) : bool := (min <=? z) && (z <=? max).

(** [isLength({ min })] *)
Definition isLength (min : nat) (s : string) : bool :=
  (min <=? String.length s)%nat.

(** The error list of one validation chain: empty when the test passes,
    the chain's message otherwise ([Invalid value] without
    [withMessage]). *)
Definition check (ok : bool) (msg : string) : list string :=
  if ok then [] else [msg].

(** A chain on a required field: [undefined] is validated as the empty
    string. *)
Definition required (v : option string) (ok : string -> bool) (msg : string)
  : list string :=
  check (ok (match v with Some s => s | None => EmptyString end)) msg.

(** A chain that starts with [optional()]: skipped on [undefined]. *)
Definition optional {A : Type} (v : option A) (ok : A -> bool) (msg : string)
  : list string :=
  match v with
  | Some a => check (ok a) msg
  | None => []
  end.

Definition invalidValue : string := "Invalid value".

End Validator.

(** ** Errors and handlers *)

(** The error classes of [middleware/errorHandler.ts] that the routes
    throw. *)
Inductive HttpError : Type :=
| BadRequestError (message : string)
| NotFoundError (message : string)
| ConflictError (message : string).

Definition statusCode (e : HttpError) : Z :=
  match e with
  | BadRequestError _ => 400
  | NotFoundError _ => 404
  | ConflictError _ => 409
  end.

Inductive Result (A : Type) : Type :=
| Ok (a : A)
| Threw (e : HttpError).

Arguments Ok {A} a.
Arguments Threw {A} e.

(** ** The rows of the store *)

Module Member.
Record t : Type := mk {
  id : string;
  name : string;
  age : Z;
  gender : string;
  email : string;
  phone : string;
  membershipType : string;
  expiryDate : Z;
  status : string;
  profilePicture : option string;
  joinDate : Z
}.
End Member.

(** [amount] is the amount in hundredths.  The code adds amounts as numbers
    that need not be whole: sums of amounts are read below through
    comparisons and through the rows they range over, not as exact
    values. *)
Module Payment.
Record t : Type := mk {
  id : string;
  memberId : string;
  amount : Z;
  paymentType : string;
  status : string;
  dueDate : Z;
  paidAt : option Z;
  notes : option string
}.
End Payment.

Module CheckIn.
Record t : Type := mk {
  id : string;
  memberId : string;
  checkInAt : Z
}.
End CheckIn.

Record Db : Type := mkDb {
  members : list Member.t;
  payments : list Payment.t;
  checkIns : list CheckIn.t
}.

(** A route handler: the store goes in, the store and the outcome come
    out. *)
Definition Handler (A : Type) : Type := Db -> Db * Result A.

Definition ret {A : Type} (a : A) : Handler A := fun db => (db, Ok a).

Definition throw {A : Type} (e : HttpError) : Handler A :=
  fun db => (db, Threw e).

Definition bind {A B : Type} (c : Handler A) (k : A -> Handler B) : Handler B :=
  fun db =>
    match c db with
    | (db', Ok a) => k a db'
    | (db', Threw e) => (db', Threw e)
    end.

Definition gets {A : Type} (f : Db -> A) : Handler A :=
  fun db => (db, Ok (f db)).

Definition modify (f : Db -> Db) : Handler unit :=
  fun db => (f db, Ok tt).

Declare Scope handler_scope.
Delimit Scope handler_scope with handler.
Notation "x <- c ;; k" := (bind c (fun x => k))
  (at level 61, c at next level, right associativity) : handler_scope.
Notation "c ;; k" := (bind c (fun _ => k))
  (at level 61, right associativity) : handler_scope.

(** [const firstError = errors.array()[0];
     throw new BadRequestError(firstError?.msg || 'Validation error')] *)
Definition firstErrorMessage (errors : list string) : string :=
  match errors with
  | msg :: _ => if String.eqb msg EmptyString then "Validation error" else msg
  | [] => "Validation error"
  end.

Definition throwIfInvalid (errors : list string) : Handler unit :=
  match errors with
  | [] => ret tt
  | _ :: _ => throw (BadRequestError (firstErrorMessage errors))
  end.

Definition thirtyDays : Z := 30 * 24 * 60 * 60 * 1000.

(** [update({ where: { id }, ... })] on the rows of a table: the row with
    the key is rewritten by [f]. *)
Fixpoint updateUnique {A : Type} (key : A -> string) (id : string) (f : A -> A)
    (rows : list A) : list A :=
  match rows with
  | [] => []
  | r :: rest =>
      if String.eqb (key r) id then f r :: rest
      else r :: updateUnique key id f rest
  end.

(** The value of a field that validation has shown to be present. *)
Definition field {A : Type} (default : A) (v : option A) : A :=
  match v with
  | Some a => a
  | None => default
  end.

(** ** [backend/src/routes/members.ts] *)

Module MembersRoute.

(** [req.body] of POST and PUT.  [expiryDate] and [joinDate] hold the time
    value of the ISO-8601 string sent; a missing or malformed [expiryDate]
    is [None]. *)
Record Body : Type := mkBody {
  name : option string;
  age : option Z;
  gender : option string;
  email : option string;
  phone : option string;
  membershipType : option string;
  expiryDate : option Z;
  status : option string;
  profilePicture : option string;
  joinDate : option Z
}.

(** [req.query] of GET /members. *)
Record Query : Type := mkQuery {
  page : option string;
  limit : option string;
  search : option string;
  q_status : option string;
  q_membershipType : option string;
  sortBy : option string;
  sortOrder : option string
}.

(** The [where] object handed to Prisma. *)
Record Where : Type := mkWhere {
  w_OR : option string;
  w_status : option string;
  w_membershipType : option string
}.

Record Pagination : Type := mkPagination {
  p_page : Z;
  p_limit : Z;
  p_total : Z;
  p_pages : Z
}.

Record Listing : Type := mkListing {
  l_members : list Member.t;
  l_pagination : Pagination
}.

Definition genders : list string := ["MALE"; "FEMALE"; "OTHER"].

Definition membershipTypes : list string :=
  ["ONE_MONTH"; "THREE_MONTH"; "SIX_MONTH"; "ONE_YEAR"].

Definition statuses : list string :=
  ["ACTIVE"; "INACTIVE"; "EXPIRING_SOON"; "ARCHIVED"].

(** The list given to [isIn] by the [membershipType] chain of
    GET /members. *)
Definition queryMembershipTypes : list string :=
  ["ONE_MONTH"; "THREE_MONTH"; " SIX_MONTH"; "ONE_YEAR"].

Definition sortKeys : list string :=
  ["name"; "joinDate"; "expiryDate"; "status"].

Definition sortOrders : list string := ["asc"; "desc"].

(** [{ contains: needle, mode: 'insensitive' }] *)
Definition containsInsensitive (value needle : string) : bool :=
  Js.includes (Js.toLowerCase value) (Js.toLowerCase needle).

(** The rows a [where] object selects. *)
Definition matchesWhere (w : Where) (m : Member.t) : bool :=
  match w_OR w with
  | Some s =>
      containsInsensitive (Member.name m) s
      || containsInsensitive (Member.email m) s
      || containsInsensitive (Member.phone m) s
  | None => true
  end
  && match w_status w with
     | Some s => String.eqb (Member.status m) s
     | None => true
     end
  && match w_membershipType w with
     | Some t => String.eqb (Member.membershipType m) t
     | None => true
     end.

(** [if (search) where.OR = ...; if (status) where.status = status;
     if (membershipType) where.membershipType = membershipType] *)
Definition buildWhere (search status membershipType : option string) : Where :=
  {| w_OR := if Js.truthy search then search else None;
     w_status := if Js.truthy status then status else None;
     w_membershipType :=
       if Js.truthy membershipType then membershipType else None |}.

Definition findUnique (id : string) (db : Db) : option Member.t :=
  find (fun m => String.eqb (Member.id m) id) (members db).

Definition findUniqueByEmail (email : string) (db : Db) : option Member.t :=
  find (fun m => String.eqb (Member.email m) email) (members db).

Definition create (m : Member.t) (db : Db) : Db :=
  {| members := members db ++ [m];
     payments := payments db;
     checkIns := checkIns db |}.

(** [prisma.member.update({ where: { id }, data })]: the fields present
    in [data] are written, the others kept. *)
Definition applyUpdate (data : Body) (m : Member.t) : Member.t :=
  {| Member.id := Member.id m;
     Member.name := field (Member.name m) (name data);
     Member.age := field (Member.age m) (age data);
     Member.gender := field (Member.gender m) (gender data);
     Member.email := field (Member.email m) (email data);
     Member.phone := field (Member.phone m) (phone data);
     Member.membershipType :=
       field (Member.membershipType m) (membershipType data);
     Member.expiryDate := field (Member.expiryDate m) (expiryDate data);
     Member.status := field (Member.status m) (status data);
     Member.profilePicture :=
       match profilePicture data with
       | Some p => Some p
       | None => Member.profilePicture m
       end;
     Member.joinDate := field (Member.joinDate m) (joinDate data) |}.

Definition update (id : string) (data : Body) (db : Db) : Db :=
  {| members := updateUnique Member.id id (applyUpdate data) (members db);
     payments := payments db;
     checkIns := checkIns db |}.

(** [data: { status: 'ARCHIVED' }] *)
Definition archiveData : Body :=
  {| name := None; age := None; gender := None; email := None;
     phone := None; membershipType := None; expiryDate := None;
     status := Some "ARCHIVED"; profilePicture := None; joinDate := None |}.

Definition setStatus (s : string) (b : Body) : Body :=
  {| name := name b; age := age b; gender := gender b; email := email b;
     phone := phone b; membershipType := membershipType b;
     expiryDate := expiryDate b; status := Some s;
     profilePicture := profilePicture b; joinDate := joinDate b |}.

Section Routes.

(** validator.js and the ordering of the store are collaborators of the
    routes. *)
Variable isEmail : string -> bool.
Variable normalizeEmail : string -> string.
Variable orderBy : string -> string -> list Member.t -> list Member.t.

Definition validateMember (b : Body) : list string :=
  Validator.required (name b)
    (fun s => Validator.isLength 2 (Js.trim s))
    "Name must be at least 2 characters"
  ++ match age b with
     | Some a => Validator.check (Validator.inRange 16 100 a)
                   "Age must be between 16 and 100"
     | None => ["Age must be between 16 and 100"]
     end
  ++ Validator.required (gender b) (Validator.isIn genders) "Invalid gender"
  ++ Validator.required (email b) isEmail Validator.invalidValue
  ++ Validator.required (phone b)
       (fun s => Validator.isLength 10 (Js.trim s))
       "Phone number must be at least 10 characters"
  ++ Validator.required (membershipType b) (Validator.isIn membershipTypes)
       "Invalid membership type"
  ++ match expiryDate b with
     | Some _ => []
     | None => ["Invalid expiry date"]
     end.

Definition validateMemberUpdate (b : Body) : list string :=
  Validator.optional (name b)
    (fun s => Validator.isLength 2 (Js.trim s))
    "Name must be at least 2 characters"
  ++ Validator.optional (age b) (Validator.inRange 16 100)
       "Age must be between 16 and 100"
  ++ Validator.optional (gender b) (Validator.isIn genders) "Invalid gender"
  ++ Validator.optional (email b) isEmail Validator.invalidValue
  ++ Validator.optional (phone b)
       (fun s => Validator.isLength 10 (Js.trim s))
       "Phone number must be at least 10 characters"
  ++ Validator.optional (membershipType b) (Validator.isIn membershipTypes)
       "Invalid membership type"
  ++ Validator.optional (status b) (Validator.isIn statuses) "Invalid status".

(** The body after the sanitizers [trim()] and [normalizeEmail()]. *)
Definition sanitize (b : Body) : Body :=
  {| name := option_map Js.trim (name b);
     age := age b;
     gender := gender b;
     email := option_map normalizeEmail (email b);
     phone := option_map Js.trim (phone b);
     membershipType := membershipType b;
     expiryDate := expiryDate b;
     status := status b;
     profilePicture := profilePicture b;
     joinDate := joinDate b |}.

Definition validateQuery (q : Query) : list string :=
  Validator.optional (page q) (Validator.isInt 1 None)
    "Page must be a positive integer"
  ++ Validator.optional (limit q) (Validator.isInt 1 (Some 100))
       "Limit must be between 1 and 100"
  ++ Validator.optional (q_status q) (Validator.isIn statuses)
       Validator.invalidValue
  ++ Validator.optional (q_membershipType q)
       (Validator.isIn queryMembershipTypes) Validator.invalidValue
  ++ Validator.optional (sortBy q) (Validator.isIn sortKeys)
       Validator.invalidValue
  ++ Validator.optional (sortOrder q) (Validator.isIn sortOrders)
       Validator.invalidValue.

(** [Number(page)] for a validated value with its default. *)
Definition numberOr (default : Z) (v : option string) : Z :=
  match v with
  | Some s => field default (Validator.intValue s)
  | None => default
  end.

(** GET /members *)
Definition getMembers (q : Query) : Handler Listing :=
  (throwIfInvalid (validateQuery q) ;;
   let page := numberOr 1 (page q) in
   let limit := numberOr 10 (limit q) in
   let search := option_map Js.trim (search q) in
   let sortBy := field "name" (sortBy q) in
   let sortOrder := field "asc" (sortOrder q) in
   let skip := (page - 1) * limit in
   let whereClause := buildWhere search (q_status q) (q_membershipType q) in
   selected <-
     gets (fun db => filter (matchesWhere whereClause) (members db)) ;;
   let total := Z.of_nat (length selected) in
   let members :=
     firstn (Z.to_nat limit)
       (skipn (Z.to_nat skip) (orderBy sortBy sortOrder selected)) in
   ret {| l_members := members;
          l_pagination :=
            {| p_page := page; p_limit := limit; p_total := total;
               p_pages := (total + limit - 1) / limit |} |})%handler.

(** GET /members/:id (the related rows included in the answer are left
    out) *)
Definition getMember (id : string) : Handler Member.t :=
  (if String.eqb id EmptyString
   then throw (BadRequestError "Member ID is required")
   else
     member <- gets (findUnique id) ;;
     match member with
     | None => throw (NotFoundError "Member not found")
     | Some member => ret member
     end)%handler.

(** POST /members.  [newId] is the identifier the store gives the new
    row. *)
Definition postMember (b : Body) (now : Z) (newId : string)
  : Handler Member.t :=
  (throwIfInvalid (validateMember b) ;;
   let memberData := sanitize b in
   existingMember <-
     gets (findUniqueByEmail (field EmptyString (email memberData))) ;;
   match existingMember with
   | Some _ => throw (ConflictError "Member with this email already exists")
   | None =>
       let expiryDate := field 0 (expiryDate memberData) in
       let thirtyDaysFromNow := now + thirtyDays in
       let status :=
         if expiryDate <=? now then "INACTIVE"
         else if expiryDate <=? thirtyDaysFromNow then "EXPIRING_SOON"
         else "ACTIVE" in
       let member :=
         {| Member.id := newId;
            Member.name := field EmptyString (name memberData);
            Member.age := field 0 (age memberData);
            Member.gender := field EmptyString (gender memberData);
            Member.email := field EmptyString (email memberData);
            Member.phone := field EmptyString (phone memberData);
            Member.membershipType :=
              field EmptyString (membershipType memberData);
            Member.expiryDate := expiryDate;
            Member.status := status;
            Member.profilePicture := profilePicture memberData;
            Member.joinDate := field now (joinDate memberData) |} in
       modify (create member) ;;
       ret member
   end)%handler.

(** PUT /members/:id *)
Definition putMember (id : string) (b : Body) (now : Z) : Handler Member.t :=
  (throwIfInvalid (validateMemberUpdate b) ;;
   let updateData := sanitize b in
   if String.eqb id EmptyString
   then throw (BadRequestError "Member ID is required")
   else
     existingMember <- gets (findUnique id) ;;
     match existingMember with
     | None => throw (NotFoundError "Member not found")
     | Some existingMember =>
         (if Js.truthy (email updateData)
             && negb (String.eqb (field EmptyString (email updateData))
                        (Member.email existingMember))
          then
            emailExists <-
              gets (findUniqueByEmail (field EmptyString (email updateData))) ;;
            match emailExists with
            | Some _ =>
                throw (ConflictError "Member with this email already exists")
            | None => ret tt
            end
          else ret tt) ;;
         let updateData :=
           match expiryDate updateData with
           | Some expiryDate =>
               let thirtyDaysFromNow := now + thirtyDays in
               if expiryDate <=? now then setStatus "INACTIVE" updateData
               else if expiryDate <=? thirtyDaysFromNow
                    then setStatus "EXPIRING_SOON" updateData
                    else setStatus "ACTIVE" updateData
           | None => updateData
           end in
         modify (update id updateData) ;;
         ret (applyUpdate updateData existingMember)
     end)%handler.

(** DELETE /members/:id *)
Definition deleteMember (id : string) : Handler string :=
  (if String.eqb id EmptyString
   then throw (BadRequestError "Member ID is required")
   else
     member <- gets (findUnique id) ;;
     match member with
     | None => throw (NotFoundError "Member not found")
     | Some _ =>
         modify (update id archiveData) ;;
         ret "Member archived successfully"
     end)%handler.

End Routes.

End MembersRoute.

(** ** The payments router *)

Module PaymentsRoute.

(** [req.body] of POST, PUT and PATCH: the columns a client may send.  No
    chain validates [paidAt], so the body may carry it as JSON [null]:
    [None] is the field left out, [Some None] is [null], [Some (Some t)] a
    date. *)
Record Body : Type := mkBody {
  memberId : option string;
  amount : option Z;
  paymentType : option string;
  status : option string;
  dueDate : option Z;
  paidAt : option (option Z);
  notes : option string
}.

Definition paymentTypes : list string :=
  ["MEMBERSHIP"; "PERSONAL_TRAINING"; "CLASS"; "OTHER"].

Definition statuses : list string :=
  ["PENDING"; "PAID"; "OVERDUE"; "CANCELLED"].

(** [body('memberId').notEmpty()] *)
Definition notEmpty (s : string) : bool := negb (String.eqb s EmptyString).

(** [isFloat({ min: 0.01 })], one hundredth being the unit of amounts. *)
Definition atLeastOneCent (a : Z) : bool := 1 <=? a.

Definition validatePayment (b : Body) : list string :=
  Validator.required (memberId b) notEmpty "Member ID is required"
  ++ match amount b with
     | Some a =>
         Validator.check (atLeastOneCent a) "Amount must be greater than 0"
     | None => ["Amount must be greater than 0"]
     end
  ++ Validator.required (paymentType b) (Validator.isIn paymentTypes)
       "Invalid payment type"
  ++ match dueDate b with
     | Some _ => []
     | None => ["Invalid due date"]
     end.

Definition validatePaymentUpdate (b : Body) : list string :=
  Validator.optional (amount b) atLeastOneCent "Amount must be greater than 0"
  ++ Validator.optional (paymentType b) (Validator.isIn paymentTypes)
       "Invalid payment type"
  ++ Validator.optional (status b) (Validator.isIn statuses) "Invalid status".

(** The body after the sanitizer [trim()] of [notes]. *)
Definition sanitizeUpdate (b : Body) : Body :=
  {| memberId := memberId b; amount := amount b;
     paymentType := paymentType b; status := status b;
     dueDate := dueDate b; paidAt := paidAt b;
     notes := option_map Js.trim (notes b) |}.

Definition setStatus (s : string) (b : Body) : Body :=
  {| memberId := memberId b; amount := amount b;
     paymentType := paymentType b; status := Some s;
     dueDate := dueDate b; paidAt := paidAt b; notes := notes b |}.

Definition setPaidAt (t : Z) (b : Body) : Body :=
  {| memberId := memberId b; amount := amount b;
     paymentType := paymentType b; status := status b;
     dueDate := dueDate b; paidAt := Some (Some t); notes := notes b |}.

Definition findUnique (id : string) (db : Db) : option Payment.t :=
  find (fun p => String.eqb (Payment.id p) id) (payments db).

Definition create (p : Payment.t) (db : Db) : Db :=
  {| members := members db;
     payments := payments db ++ [p];
     checkIns := checkIns db |}.

Definition keep {A : Type} (old new : option A) : option A :=
  match new with
  | Some a => Some a
  | None => old
  end.

(** [update({ data })]: a column the data leaves out stays, one it carries
    is written, [paidAt: null] included. *)
Definition applyUpdate (data : Body) (p : Payment.t) : Payment.t :=
  {| Payment.id := Payment.id p;
     Payment.memberId := field (Payment.memberId p) (memberId data);
     Payment.amount := field (Payment.amount p) (amount data);
     Payment.paymentType := field (Payment.paymentType p) (paymentType data);
     Payment.status := field (Payment.status p) (status data);
     Payment.dueDate := field (Payment.dueDate p) (dueDate data);
     Payment.paidAt := field (Payment.paidAt p) (paidAt data);
     Payment.notes := keep (Payment.notes p) (notes data) |}.

Definition update (id : string) (data : Body) (db : Db) : Db :=
  {| members := members db;
     payments := updateUnique Payment.id id (applyUpdate data) (payments db);
     checkIns := checkIns db |}.

Definition delete (id : string) (db : Db) : Db :=
  {| members := members db;
     payments :=
       filter (fun p => negb (String.eqb (Payment.id p) id)) (payments db);
     checkIns := checkIns db |}.

Definition isSome {A : Type} (v : option A) : bool :=
  match v with
  | Some _ => true
  | None => false
  end.

Definition statusIs (s : string) (v : option string) : bool :=
  match v with
  | Some x => String.eqb x s
  | None => false
  end.

(** POST /payments *)
Definition postPayment (b : Body) (now : Z) (newId : string)
  : Handler Payment.t :=
  (throwIfInvalid (validatePayment b) ;;
   let paymentData := b in
   member <-
     gets (MembersRoute.findUnique
             (field EmptyString (memberId paymentData))) ;;
   match member with
   | None => throw (NotFoundError "Member not found")
   | Some _ =>
       let dueDate := field 0 (dueDate paymentData) in
       let status := if dueDate <? now then "OVERDUE" else "PENDING" in
       let payment :=
         {| Payment.id := newId;
            Payment.memberId := field EmptyString (memberId paymentData);
            Payment.amount := field 0 (amount paymentData);
            Payment.paymentType := field EmptyString (paymentType paymentData);
            Payment.status := status;
            Payment.dueDate := dueDate;
            Payment.paidAt := field None (paidAt paymentData);
            Payment.notes := notes paymentData |} in
       modify (create payment) ;;
       ret payment
   end)%handler.

(** PUT /payments/:id *)
Definition putPayment (id : string) (b : Body) (now : Z) : Handler Payment.t :=
  (throwIfInvalid (validatePaymentUpdate b) ;;
   let updateData := sanitizeUpdate b in
   if String.eqb id EmptyString
   then throw (BadRequestError "Payment ID is required")
   else
     existingPayment <- gets (findUnique id) ;;
     match existingPayment with
     | None => throw (NotFoundError "Payment not found")
     | Some existingPayment =>
         let updateData :=
           match dueDate updateData with
           | Some dueDate =>
               if (dueDate <? now) && negb (statusIs "PAID" (status updateData))
               then setStatus "OVERDUE" updateData
               else updateData
           | None => updateData
           end in
         let updateData :=
           if statusIs "PAID" (status updateData)
              && negb (isSome (Payment.paidAt existingPayment))
           then setPaidAt now updateData
           else updateData in
         modify (update id updateData) ;;
         ret (applyUpdate updateData existingPayment)
     end)%handler.

(** DELETE /payments/:id *)
Definition deletePayment (id : string) : Handler string :=
  (if String.eqb id EmptyString
   then throw (BadRequestError "Payment ID is required")
   else
     payment <- gets (findUnique id) ;;
     match payment with
     | None => throw (NotFoundError "Payment not found")
     | Some payment =>
         if negb (String.eqb (Payment.status payment) "PENDING")
         then throw (BadRequestError "Only pending payments can be deleted")
         else
           modify (delete id) ;;
           ret "Payment deleted successfully"
     end)%handler.

(** PATCH /payments/:id/mark-paid *)
Definition markPaid (id : string) (b : Body) (now : Z) : Handler Payment.t :=
  (let notes := notes b in
   if String.eqb id EmptyString
   then throw (BadRequestError "Payment ID is required")
   else
     payment <- gets (findUnique id) ;;
     match payment with
     | None => throw (NotFoundError "Payment not found")
     | Some payment =>
         if String.eqb (Payment.status payment) "PAID"
         then throw (BadRequestError "Payment is already marked as paid")
         else
           let data :=
             {| memberId := None; amount := None; paymentType := None;
                status := Some "PAID";
                dueDate := None;
                paidAt := Some (Some now);
                notes := Js.or_else notes (Payment.notes payment) |} in
           modify (update id data) ;;
           ret (applyUpdate data payment)
     end)%handler.

End PaymentsRoute.

(** ** The dashboard router: GET /dashboard/monthly-stats *)

Module DashboardRoute.

(** A row of a raw query: its columns by name. *)
Definition Row : Type := list (string * Z).

Fixpoint column (name : string) (row : Row) : option Z :=
  match row with
  | [] => None
  | (k, v) :: rest => if String.eqb k name then Some v else column name rest
  end.

(** PostgreSQL folds an unquoted alias to lower case. *)
Definition sqlAlias (name : string) : string := Js.toLowerCase name.

Fixpoint insertMonth (m : Z) (months : list Z) : list Z :=
  match months with
  | [] => [m]
  | x :: rest =>
      if m <? x then m :: months
      else if m =? x then months
      else x :: insertMonth m rest
  end.

(** The distinct values in increasing order ([GROUP BY ... ORDER BY]). *)
Definition distinctSorted (months : list Z) : list Z :=
  fold_right insertMonth [] months.

Definition countRows {A : Type} (rows : list A) : Z := Z.of_nat (length rows).

Definition sumAmount (rows : list Payment.t) : Z :=
  fold_right (fun p acc => Payment.amount p + acc) 0 rows.

(** An element of the answer. *)
Module Bucket.
Record t : Type := mk {
  month : string;
  monthNumber : Z;
  newMembers : Js.Number;
  revenue : Js.Number;
  checkIns : Js.Number;
  year : Z
}.
End Bucket.

Definition monthNames : list string :=
  ["Jan"; "Feb"; "Mar"; "Apr"; "May"; "Jun";
   "Jul"; "Aug"; "Sep"; "Oct"; "Nov"; "Dec"].

(** [xs.map((x, index) => f(x, index))] *)
Fixpoint mapIndexed {A B : Type} (f : A -> Z -> B) (index : Z) (xs : list A)
  : list B :=
  match xs with
  | [] => []
  | x :: rest => f x index :: mapIndexed f (index + 1) rest
  end.

Section MonthlyStats.

(** [EXTRACT(YEAR FROM d)] and [EXTRACT(MONTH FROM d)] of the store. *)
Variable extractYear : Z -> Z.
Variable extractMonth : Z -> Z.

(** [SELECT EXTRACT(MONTH FROM date) as month, aggregate as alias
     FROM rows GROUP BY EXTRACT(MONTH FROM date) ORDER BY month] *)
Definition groupByMonth {A : Type} (date : A -> Z) (alias : string)
    (aggregate : list A -> Z) (rows : list A) : list Row :=
  map (fun m =>
         [("month", m);
          (sqlAlias alias,
           aggregate (filter (fun r => extractMonth (date r) =? m) rows))])
      (distinctSorted (map (fun r => extractMonth (date r)) rows)).

Definition joinedIn (year : Z) (m : Member.t) : bool :=
  extractYear (Member.joinDate m) =? year.

Definition monthlyStatsQuery (year : Z) (db : Db) : list Row :=
  groupByMonth Member.joinDate "newMembers" countRows
    (filter (joinedIn year) (members db)).

Definition paidIn (year : Z) (p : Payment.t) : bool :=
  match Payment.paidAt p with
  | Some t => (extractYear t =? year) && String.eqb (Payment.status p) "PAID"
  | None => false
  end.

Definition monthlyRevenueQuery (year : Z) (db : Db) : list Row :=
  groupByMonth (fun p => field 0 (Payment.paidAt p)) "revenue" sumAmount
    (filter (paidIn year) (payments db)).

Definition checkedInIn (year : Z) (c : CheckIn.t) : bool :=
  extractYear (CheckIn.checkInAt c) =? year.

Definition monthlyCheckInsQuery (year : Z) (db : Db) : list Row :=
  groupByMonth CheckIn.checkInAt "checkIns" countRows
    (filter (checkedInIn year) (checkIns db)).

(** [rows.find(s => Number(s.month) === monthNumber)] *)
Definition findMonth (monthNumber : Z) (rows : list Row) : option Row :=
  find (fun s => Js.strictEq (Js.toNumber (column "month" s))
                   (Js.Num monthNumber)) rows.

Definition formattedStats (year : Z)
    (monthlyStats monthlyRevenue monthlyCheckIns : list Row)
  : list Bucket.t :=
  mapIndexed
    (fun month index =>
       let monthNumber := index + 1 in
       let monthData := findMonth monthNumber monthlyStats in
       let newMembers :=
         match monthData with
         | Some monthData => Js.toNumber (column "newmembers" monthData)
         | None => Js.Num 0
         end in
       let revenueData := findMonth monthNumber monthlyRevenue in
       let revenue :=
         match revenueData with
         | Some revenueData => Js.toNumber (column "revenue" revenueData)
         | None => Js.Num 0
         end in
       let checkInData := findMonth monthNumber monthlyCheckIns in
       let checkIns :=
         match checkInData with
         | Some checkInData => Js.toNumber (column "checkIns" checkInData)
         | None => Js.Num 0
         end in
       {| Bucket.month := month;
          Bucket.monthNumber := monthNumber;
          Bucket.newMembers := newMembers;
          Bucket.revenue := revenue;
          Bucket.checkIns := checkIns;
          Bucket.year := year |})
    0 monthNames.

Definition validateYear (year : option string) : list string :=
  Validator.optional year (Validator.isInt 2020 (Some 2030)) "Invalid year".

(** [parseInt(req.query.year as string) || new Date().getFullYear()] *)
Definition requestedYear (year : option string) (currentYear : Z) : Z :=
  match year with
  | Some s =>
      match Validator.intValue s with
      | Some y => if y =? 0 then currentYear else y
      | None => currentYear
      end
  | None => currentYear
  end.

Definition getMonthlyStats (year : option string) (currentYear : Z)
  : Handler (list Bucket.t) :=
  (throwIfInvalid (validateYear year) ;;
   let year := requestedYear year currentYear in
   monthlyStats <- gets (monthlyStatsQuery year) ;;
   monthlyRevenue <- gets (monthlyRevenueQuery year) ;;
   monthlyCheckIns <- gets (monthlyCheckInsQuery year) ;;
   ret (formattedStats year monthlyStats monthlyRevenue monthlyCheckIns)
  )%handler.

End MonthlyStats.

End DashboardRoute.

(** ** The client-side filters of [frontend/src/pages] *)

Module MemberManagement.

(** The test of [members.filter] in [filteredMembers]. *)
Definition matches (searchTerm statusFilter membershipFilter : string)
    (member : Member.t) : bool :=
  let matchesSearch :=
    Js.includes (Js.toLowerCase (Member.name member))
      (Js.toLowerCase searchTerm)
    || Js.includes (Js.toLowerCase (Member.email member))
         (Js.toLowerCase searchTerm)
    || Js.includes (Member.phone member) searchTerm in
  let matchesStatus :=
    if String.eqb statusFilter "all"
    then negb (String.eqb (Member.status member) "ARCHIVED")
    else if String.eqb statusFilter "active"
    then String.eqb (Member.status member) "ACTIVE"
    else if String.eqb statusFilter "inactive"
    then String.eqb (Member.status member) "INACTIVE"
    else if String.eqb statusFilter "expiring"
    then String.eqb (Member.status member) "EXPIRING_SOON"
    else if String.eqb statusFilter "archived"
    then String.eqb (Member.status member) "ARCHIVED"
    else true in
  let matchesMembership :=
    String.eqb membershipFilter "all"
    || String.eqb (Member.membershipType member) membershipFilter in
  matchesSearch && matchesStatus && matchesMembership.

Definition filteredMembers (members : list Member.t)
    (searchTerm statusFilter membershipFilter : string) : list Member.t :=
  filter (matches searchTerm statusFilter membershipFilter) members.

End MemberManagement.

Module Index.

Definition matches (searchTerm statusFilter membershipFilter : string)
    (member : Member.t) : bool :=
  let matchesSearch :=
    Js.includes (Js.toLowerCase (Member.name member))
      (Js.toLowerCase searchTerm)
    || Js.includes (Js.toLowerCase (Member.email member))
         (Js.toLowerCase searchTerm)
    || Js.includes (Member.phone member) searchTerm in
  let matchesStatus :=
    String.eqb statusFilter "all"
    || String.eqb (Member.status member) statusFilter in
  let matchesMembership :=
    String.eqb membershipFilter "all"
    || String.eqb (Member.membershipType member) membershipFilter in
  matchesSearch && matchesStatus && matchesMembership.

Definition filteredMembers (members : list Member.t)
    (searchTerm statusFilter membershipFilter : string) : list Member.t :=
  filter (matches searchTerm statusFilter membershipFilter) members.

End Index.

(** ** The words of the specification *)

Module Spec.

Definition days (n : Z) : Z := n * (24 * 60 * 60 * 1000).

(** Status derivation rule: the status [s] that goes with expiry date [d]
    at reference time [t]. *)
Definition derivedStatus (d t : Z) (s : string) : Prop :=
  (d <= t -> s = "INACTIVE")
  /\ (t < d <= t + days 30 -> s = "EXPIRING_SOON")
  /\ (t + days 30 < d -> s = "ACTIVE").

(** The e-mail check of PUT /members/:id lets the request through: the
    body has no e-mail, or that of the member, or one nobody has. *)
Definition emailAvailable (normalizeEmail : string -> string)
    (b : MembersRoute.Body) (existing : Member.t) (db : Db) : Prop :=
  match MembersRoute.email (MembersRoute.sanitize normalizeEmail b) with
  | Some e =>
      e = EmptyString \/ e = Member.email existing
      \/ MembersRoute.findUniqueByEmail e db = None
  | None => True
  end.

(** [sub] occurs in [s]. *)
Definition substring (sub s : string) : Prop :=
  exists before after : string,
    s = String.append before (String.append sub after).

(** [sub] occurs in [s] when case is ignored. *)
Definition substringInsensitive (sub s : string) : Prop :=
  substring (Js.toLowerCase sub) (Js.toLowerCase s).

(** Filter predicate composer, as the specification words it. *)
Definition filterPredicate (search statusSelector typeSelector : string)
    (m : Member.t) : Prop :=
  (search = EmptyString
   \/ substringInsensitive search (Member.name m)
   \/ substringInsensitive search (Member.email m)
   \/ substringInsensitive search (Member.phone m))
  /\ ((statusSelector = "all" /\ Member.status m <> "ARCHIVED")
      \/ (statusSelector <> "all" /\ Member.status m = statusSelector))
  /\ (typeSelector = "all" \/ Member.membershipType m = typeSelector).

(** The predicate the MemberManagement page computes. *)
Definition filterPredicateOfPage (search statusSelector typeSelector : string)
    (m : Member.t) : Prop :=
  (substringInsensitive search (Member.name m)
   \/ substringInsensitive search (Member.email m)
   \/ substring search (Member.phone m))
  /\ ((statusSelector = "all" /\ Member.status m <> "ARCHIVED")
      \/ (statusSelector = "active" /\ Member.status m = "ACTIVE")
      \/ (statusSelector = "inactive" /\ Member.status m = "INACTIVE")
      \/ (statusSelector = "expiring" /\ Member.status m = "EXPIRING_SOON")
      \/ (statusSelector = "archived" /\ Member.status m = "ARCHIVED")
      \/ ~ In statusSelector
             ["all"; "active"; "inactive"; "expiring"; "archived"])
  /\ (typeSelector = "all" \/ Member.membershipType m = typeSelector).

(** The query of a GET /members request that carries a search string, a
    status and a membership type beside its paging and sorting parameters. *)
Definition membersQuery (page limit : option string) (search : string)
    (status membershipType sortBy sortOrder : option string)
  : MembersRoute.Query :=
  {| MembersRoute.page := page; MembersRoute.limit := limit;
     MembersRoute.search := Some search; MembersRoute.q_status := status;
     MembersRoute.q_membershipType := membershipType;
     MembersRoute.sortBy := sortBy; MembersRoute.sortOrder := sortOrder |}.









(** The rows of a monthly query that fall in month [k]. *)
Definition inMonth {A : Type} (extractMonth : Z -> Z) (date : A -> Z) (k : Z)
    (rows : list A) : list A :=
  filter (fun r => extractMonth (date r) =? k) rows.

Definition monthNumbers : list Z := [1; 2; 3; 4; 5; 6; 7; 8; 9; 10; 11; 12].

(** The answer of GET /dashboard/monthly-stats for [year]. *)
Definition monthlyStats (extractYear extractMonth : Z -> Z) (year : Z)
    (db : Db) : list DashboardRoute.Bucket.t :=
  DashboardRoute.formattedStats year
    (DashboardRoute.monthlyStatsQuery extractYear extractMonth year db)
    (DashboardRoute.monthlyRevenueQuery extractYear extractMonth year db)
    (DashboardRoute.monthlyCheckInsQuery extractYear extractMonth year db).

(** The month number of a bucket with its three measures. *)
Definition measures (b : DashboardRoute.Bucket.t)
  : Z * Js.Number * Js.Number * Js.Number :=
  (DashboardRoute.Bucket.monthNumber b, DashboardRoute.Bucket.newMembers b,
   DashboardRoute.Bucket.revenue b, DashboardRoute.Bucket.checkIns b).

Definition zeroBucket (year : Z) (name : string) (k : Z)
  : DashboardRoute.Bucket.t :=
  {| DashboardRoute.Bucket.month := name;
     DashboardRoute.Bucket.monthNumber := k;
     DashboardRoute.Bucket.newMembers := Js.Num 0;
     DashboardRoute.Bucket.revenue := Js.Num 0;
     DashboardRoute.Bucket.checkIns := Js.Num 0;
     DashboardRoute.Bucket.year := year |}.

End Spec.

(** ** Sample data *)

Module Sample.

(** Stand-ins for validator.js: an address has an [@], and normalisation
    lowers the case. *)
Definition isEmail (s : string) : bool := Js.includes s "@".

Definition normalizeEmail (s : string) : string := Js.toLowerCase s.

Definition orderBy (key order : string) (rows : list Member.t)
  : list Member.t := rows.

(** 2024-01-01T00:00:00Z *)
Definition now : Z := 1704067200000.

Definition registration (email : string) (expiryDate : Z)
  : MembersRoute.Body :=
  {| MembersRoute.name := Some "Asha Rai"; MembersRoute.age := Some 30;
     MembersRoute.gender := Some "FEMALE"; MembersRoute.email := Some email;
     MembersRoute.phone := Some "9800000000";
     MembersRoute.membershipType := Some "SIX_MONTH";
     MembersRoute.expiryDate := Some expiryDate;
     MembersRoute.status := None;
     MembersRoute.profilePicture := None; MembersRoute.joinDate := None |}.

Definition renewal (expiryDate : Z) : MembersRoute.Body :=
  {| MembersRoute.name := None; MembersRoute.age := None;
     MembersRoute.gender := None; MembersRoute.email := None;
     MembersRoute.phone := None; MembersRoute.membershipType := None;
     MembersRoute.expiryDate := Some expiryDate;
     MembersRoute.status := None;
     MembersRoute.profilePicture := None; MembersRoute.joinDate := None |}.

Definition member (id status phone : string) : Member.t :=
  {| Member.id := id; Member.name := "Bikash Thapa"; Member.age := 41;
     Member.gender := "MALE"; Member.email := "bikash@example.com";
     Member.phone := phone; Member.membershipType := "ONE_YEAR";
     Member.expiryDate := now - Spec.days 5; Member.status := status;
     Member.profilePicture := None; Member.joinDate := now - Spec.days 400 |}.

Definition archived : Member.t := member "m1" "ARCHIVED" "9811111111".

Definition emptyDb : Db := {| members := []; payments := []; checkIns := [] |}.

Definition archivedDb : Db :=
  {| members := [archived]; payments := []; checkIns := [] |}.

Definition paidPayment : Payment.t :=
  {| Payment.id := "p1"; Payment.memberId := "m1"; Payment.amount := 150000;
     Payment.paymentType := "MEMBERSHIP"; Payment.status := "PAID";
     Payment.dueDate := now - Spec.days 3;
     Payment.paidAt := Some (now - Spec.days 4); Payment.notes := None |}.

Definition pendingPayment : Payment.t :=
  {| Payment.id := "p2"; Payment.memberId := "m1"; Payment.amount := 50000;
     Payment.paymentType := "CLASS"; Payment.status := "PENDING";
     Payment.dueDate := now + Spec.days 7;
     Payment.paidAt := None; Payment.notes := None |}.

Definition paymentsDb : Db :=
  {| members := [archived]; payments := [paidPayment; pendingPayment];
     checkIns := [] |}.

Definition noPaymentFields : PaymentsRoute.Body :=
  {| PaymentsRoute.memberId := None; PaymentsRoute.amount := None;
     PaymentsRoute.paymentType := None; PaymentsRoute.status := None;
     PaymentsRoute.dueDate := None; PaymentsRoute.paidAt := None;
     PaymentsRoute.notes := None |}.

Definition statusChange (s : string) : PaymentsRoute.Body :=
  {| PaymentsRoute.memberId := None; PaymentsRoute.amount := None;
     PaymentsRoute.paymentType := None; PaymentsRoute.status := Some s;
     PaymentsRoute.dueDate := None; PaymentsRoute.paidAt := None;
     PaymentsRoute.notes := None |}.

Definition invoice : PaymentsRoute.Body :=
  {| PaymentsRoute.memberId := Some "m1"; PaymentsRoute.amount := Some 75000;
     PaymentsRoute.paymentType := Some "PERSONAL_TRAINING";
     PaymentsRoute.status := None;
     PaymentsRoute.dueDate := Some (now + Spec.days 14);
     PaymentsRoute.paidAt := None; PaymentsRoute.notes := Some "June" |}.

(** Stand-ins for [EXTRACT]: a date counted in months since year 0. *)
Definition extractYear (d : Z) : Z := d / 12.

Definition extractMonth (d : Z) : Z := d mod 12 + 1.

Definition joined (id : string) (year month : Z) : Member.t :=
  {| Member.id := id; Member.name := "Chandra Oli"; Member.age := 25;
     Member.gender := "OTHER"; Member.email := "chandra@example.com";
     Member.phone := "9833333333"; Member.membershipType := "ONE_MONTH";
     Member.expiryDate := 0; Member.status := "ACTIVE";
     Member.profilePicture := None;
     Member.joinDate := year * 12 + (month - 1) |}.

Definition joinsDb : Db :=
  {| members := [joined "a" 2024 3; joined "b" 2024 3; joined "c" 2024 11;
                 joined "d" 2023 3];
     payments := []; checkIns := [] |}.

End Sample.

(** ** [GET /members/:id/stats] and the workouts router *)

Module Workout.
Record t : Type := mk {
  id : string;
  memberId : string;
  workoutType : string;
  duration : Z;
  calories : option Z;
  workoutAt : Z;
  notes : option string
}.
End Workout.

(** The workouts routes read the members and write the workouts: the table
    of workouts goes in and comes out beside the outcome. *)

Module MemberStatsRoute.

Record Stats : Type := mkStats {
  checkInCount : Z;
  paymentCount : Z;
  totalPaid : Z;
  workoutCount : Z;
  totalWorkoutDuration : Z;
  totalCalories : Z
}.

(** [xs.reduce((sum, x) => sum + f(x), 0)] *)
Definition reduceSum {A : Type} (f : A -> Z) (xs : list A) : Z :=
  fold_left (fun sum x => sum + f x) xs 0.

(** GET /members/:id/stats *)
Definition getStats (id : string) (db : Db) (workouts : list Workout.t)
  : Result Stats :=
  if String.eqb id EmptyString
  then Threw (BadRequestError "Member ID is required")
  else
    match MembersRoute.findUnique id db with
    | None => Threw (NotFoundError "Member not found")
    | Some _ =>
        let checkInCount :=
          Z.of_nat
            (length (filter (fun c => String.eqb (CheckIn.memberId c) id)
                       (checkIns db))) in
        let payments :=
          filter (fun p => String.eqb (Payment.memberId p) id) (payments db) in
        let totalPaid :=
          reduceSum Payment.amount
            (filter (fun p => String.eqb (Payment.status p) "PAID") payments) in
        let workouts :=
          filter (fun w => String.eqb (Workout.memberId w) id) workouts in
        let totalWorkoutDuration := reduceSum Workout.duration workouts in
        let totalCalories :=
          reduceSum (fun w => field 0 (Workout.calories w)) workouts in
        Ok {| checkInCount := checkInCount;
              paymentCount := Z.of_nat (length payments);
              totalPaid := totalPaid;
              workoutCount := Z.of_nat (length workouts);
              totalWorkoutDuration := totalWorkoutDuration;
              totalCalories := totalCalories |}
    end.

End MemberStatsRoute.

Module WorkoutsRoute.

(** [req.body] of POST and PUT; [workoutAt] holds the time value of the
    ISO-8601 string sent. *)
Record Body : Type := mkBody {
  memberId : option string;
  workoutType : option string;
  duration : option Z;
  calories : option Z;
  workoutAt : option Z;
  notes : option string
}.

(** [req.query] of GET /workouts and of the member history; the two dates
    hold the time values of the strings sent. *)
Record Query : Type := mkQuery {
  page : option string;
  limit : option string;
  q_memberId : option string;
  q_workoutType : option string;
  startDate : option Z;
  endDate : option Z;
  sortBy : option string;
  sortOrder : option string
}.

Record Where : Type := mkWhere {
  w_memberId : option string;
  w_workoutType : option string;
  w_workoutAt : option (option Z * option Z)
}.

Record Listing : Type := mkListing {
  l_workouts : list Workout.t;
  l_pagination : MembersRoute.Pagination
}.

Record Totals : Type := mkTotals {
  totalWorkouts : Z;
  totalDuration : Z;
  totalCalories : Z
}.

Record History : Type := mkHistory {
  h_workouts : list Workout.t;
  h_pagination : MembersRoute.Pagination;
  h_stats : Totals
}.

Definition workoutTypes : list string :=
  ["CARDIO"; "STRENGTH"; "FLEXIBILITY"; "SPORTS"; "OTHER"].

Definition sortKeys : list string :=
  ["workoutAt"; "duration"; "calories"; "createdAt"].

Definition notEmpty (s : string) : bool := negb (String.eqb s EmptyString).

Definition validateWorkout (b : Body) : list string :=
  Validator.required (memberId b) notEmpty "Member ID is required"
  ++ Validator.required (workoutType b) (Validator.isIn workoutTypes)
       "Invalid workout type"
  ++ match duration b with
     | Some d => Validator.check (1 <=? d) "Duration must be at least 1 minute"
     | None => ["Duration must be at least 1 minute"]
     end
  ++ Validator.optional (calories b) (fun c => 0 <=? c)
       "Calories must be non-negative".

Definition validateWorkoutUpdate (b : Body) : list string :=
  Validator.optional (workoutType b) (Validator.isIn workoutTypes)
    "Invalid workout type"
  ++ Validator.optional (duration b) (fun d => 1 <=? d)
       "Duration must be at least 1 minute"
  ++ Validator.optional (calories b) (fun c => 0 <=? c)
       "Calories must be non-negative".

Definition validateQuery (q : Query) : list string :=
  Validator.optional (page q) (Validator.isInt 1 None)
    "Page must be a positive integer"
  ++ Validator.optional (limit q) (Validator.isInt 1 (Some 100))
       "Limit must be between 1 and 100"
  ++ Validator.optional (q_workoutType q) (Validator.isIn workoutTypes)
       Validator.invalidValue
  ++ Validator.optional (sortBy q) (Validator.isIn sortKeys)
       Validator.invalidValue
  ++ Validator.optional (sortOrder q) (Validator.isIn MembersRoute.sortOrders)
       Validator.invalidValue.

Definition validateHistoryQuery (q : Query) : list string :=
  Validator.optional (page q) (Validator.isInt 1 None)
    "Page must be a positive integer"
  ++ Validator.optional (limit q) (Validator.isInt 1 (Some 100))
       "Limit must be between 1 and 100".

Definition findUnique (id : string) (workouts : list Workout.t)
  : option Workout.t :=
  find (fun w => String.eqb (Workout.id w) id) workouts.

Definition keep {A : Type} (old new : option A) : option A :=
  match new with
  | Some a => Some a
  | None => old
  end.

Definition applyUpdate (data : Body) (w : Workout.t) : Workout.t :=
  {| Workout.id := Workout.id w;
     Workout.memberId := field (Workout.memberId w) (memberId data);
     Workout.workoutType := field (Workout.workoutType w) (workoutType data);
     Workout.duration := field (Workout.duration w) (duration data);
     Workout.calories := keep (Workout.calories w) (calories data);
     Workout.workoutAt := field (Workout.workoutAt w) (workoutAt data);
     Workout.notes := keep (Workout.notes w) (notes data) |}.

(** [prisma.workout.delete({ where: { id } })] *)
Definition delete (id : string) (workouts : list Workout.t) : list Workout.t :=
  filter (fun w => negb (String.eqb (Workout.id w) id)) workouts.

(** The body after the sanitizer [trim()] of [notes]. *)
Definition sanitizeUpdate (b : Body) : Body :=
  {| memberId := memberId b; workoutType := workoutType b;
     duration := duration b; calories := calories b;
     workoutAt := workoutAt b; notes := option_map Js.trim (notes b) |}.

Definition isSome {A : Type} (v : option A) : bool :=
  match v with
  | Some _ => true
  | None => false
  end.

(** [if (startDate || endDate) { where.workoutAt = {}; ... }] *)
Definition dateRange (startDate endDate : option Z)
  : option (option Z * option Z) :=
  if isSome startDate || isSome endDate then Some (startDate, endDate)
  else None.

Definition buildWhere (memberId workoutType : option string)
    (startDate endDate : option Z) : Where :=
  {| w_memberId := if Js.truthy memberId then memberId else None;
     w_workoutType := if Js.truthy workoutType then workoutType else None;
     w_workoutAt := dateRange startDate endDate |}.

Definition matchesWhere (w : Where) (x : Workout.t) : bool :=
  match w_memberId w with
  | Some m => String.eqb (Workout.memberId x) m
  | None => true
  end
  && match w_workoutType w with
     | Some t => String.eqb (Workout.workoutType x) t
     | None => true
     end
  && match w_workoutAt w with
     | Some (gte, lte) =>
         match gte with Some g => g <=? Workout.workoutAt x | None => true end
         && match lte with Some l => Workout.workoutAt x <=? l | None => true end
     | None => true
     end.

(** [_sum] of an aggregate, with the [|| 0] of the answer: the sum of the
    values that are not null. *)
Definition sumOrZero (values : list (option Z)) : Z :=
  fold_right (fun v acc => field 0 v + acc) 0 values.

Section Routes.

(** The ordering of the store. *)
Variable orderBy : string -> string -> list Workout.t -> list Workout.t.

(** GET /workouts *)
Definition getWorkouts (q : Query) (workouts : list Workout.t)
  : Result Listing :=
  match validateQuery q with
  | _ :: _ => Threw (BadRequestError (firstErrorMessage (validateQuery q)))
  | [] =>
      let page := MembersRoute.numberOr 1 (page q) in
      let limit := MembersRoute.numberOr 10 (limit q) in
      let memberId := option_map Js.trim (q_memberId q) in
      let sortBy := field "workoutAt" (sortBy q) in
      let sortOrder := field "desc" (sortOrder q) in
      let skip := (page - 1) * limit in
      let whereClause :=
        buildWhere memberId (q_workoutType q) (startDate q) (endDate q) in
      let selected := filter (matchesWhere whereClause) workouts in
      let total := Z.of_nat (length selected) in
      Ok {| l_workouts :=
              firstn (Z.to_nat limit)
                (skipn (Z.to_nat skip) (orderBy sortBy sortOrder selected));
            l_pagination :=
              {| MembersRoute.p_page := page; MembersRoute.p_limit := limit;
                 MembersRoute.p_total := total;
                 MembersRoute.p_pages := (total + limit - 1) / limit |} |}
  end.

(** GET /workouts/member/:memberId/history *)
Definition getHistory (memberId : string) (q : Query) (db : Db)
    (workouts : list Workout.t) : Result History :=
  match validateHistoryQuery q with
  | _ :: _ =>
      Threw (BadRequestError (firstErrorMessage (validateHistoryQuery q)))
  | [] =>
      let page := MembersRoute.numberOr 1 (page q) in
      let limit := MembersRoute.numberOr 10 (limit q) in
      if String.eqb memberId EmptyString
      then Threw (BadRequestError "Member ID is required")
      else
        let skip := (page - 1) * limit in
        match MembersRoute.findUnique memberId db with
        | None => Threw (NotFoundError "Member not found")
        | Some _ =>
            let whereClause :=
              {| w_memberId := Some memberId; w_workoutType := None;
                 w_workoutAt := dateRange (startDate q) (endDate q) |} in
            let selected := filter (matchesWhere whereClause) workouts in
            let total := Z.of_nat (length selected) in
            let ofMember :=
              filter (fun w => String.eqb (Workout.memberId w) memberId)
                workouts in
            Ok {| h_workouts :=
                    firstn (Z.to_nat limit)
                      (skipn (Z.to_nat skip)
                         (orderBy "workoutAt" "desc" selected));
                  h_pagination :=
                    {| MembersRoute.p_page := page;
                       MembersRoute.p_limit := limit;
                       MembersRoute.p_total := total;
                       MembersRoute.p_pages := (total + limit - 1) / limit |};
                  h_stats :=
                    {| totalWorkouts := Z.of_nat (length ofMember);
                       totalDuration :=
                         sumOrZero
                           (map (fun w => Some (Workout.duration w)) ofMember);
                       totalCalories :=
                         sumOrZero (map Workout.calories ofMember) |} |}
        end
  end.

End Routes.

(** GET /workouts/:id *)
Definition getWorkout (id : string) (workouts : list Workout.t)
  : Result Workout.t :=
  match findUnique id workouts with
  | None => Threw (NotFoundError "Workout not found")
  | Some workout => Ok workout
  end.

(** POST /workouts.  [newId] is the identifier the store gives the new
    row. *)
Definition postWorkout (b : Body) (now : Z) (newId : string) (db : Db)
    (workouts : list Workout.t) : list Workout.t * Result Workout.t :=
  match validateWorkout b with
  | _ :: _ =>
      (workouts, Threw (BadRequestError (firstErrorMessage (validateWorkout b))))
  | [] =>
      let workoutData := b in
      match MembersRoute.findUnique (field EmptyString (memberId workoutData)) db
      with
      | None => (workouts, Threw (NotFoundError "Member not found"))
      | Some _ =>
          let workoutAt :=
            match workoutAt workoutData with
            | Some t => t
            | None => now
            end in
          let workout :=
            {| Workout.id := newId;
               Workout.memberId := field EmptyString (memberId workoutData);
               Workout.workoutType :=
                 field EmptyString (workoutType workoutData);
               Workout.duration := field 0 (duration workoutData);
               Workout.calories := calories workoutData;
               Workout.workoutAt := workoutAt;
               Workout.notes := notes workoutData |} in
          ((workouts ++ [workout])%list, Ok workout)
      end
  end.

(** PUT /workouts/:id *)
Definition putWorkout (id : string) (b : Body) (workouts : list Workout.t)
  : list Workout.t * Result Workout.t :=
  match validateWorkoutUpdate b with
  | _ :: _ =>
      (workouts,
       Threw (BadRequestError (firstErrorMessage (validateWorkoutUpdate b))))
  | [] =>
      let updateData := sanitizeUpdate b in
      if String.eqb id EmptyString
      then (workouts, Threw (BadRequestError "Workout ID is required"))
      else
        match findUnique id workouts with
        | None => (workouts, Threw (NotFoundError "Workout not found"))
        | Some existingWorkout =>
            (updateUnique Workout.id id (applyUpdate updateData) workouts,
             Ok (applyUpdate updateData existingWorkout))
        end
  end.

(** DELETE /workouts/:id *)
Definition deleteWorkout (id : string) (workouts : list Workout.t)
  : list Workout.t * Result string :=
  if String.eqb id EmptyString
  then (workouts, Threw (BadRequestError "Workout ID is required"))
  else
    match findUnique id workouts with
    | None => (workouts, Threw (NotFoundError "Workout not found"))
    | Some _ => (delete id workouts, Ok "Workout deleted successfully")
    end.

End WorkoutsRoute.

(** ** Grouping, and the other routes of the payments and dashboard routers *)

Module Prisma.

(** [groupBy({ by: [key], _count: { id: true } })]: one entry for each value
    of the key that occurs, with the number of rows that carry it. *)
Definition groupCount {A : Type} (key : A -> string) (rows : list A)
  : list (string * Z) :=
  map (fun k =>
         (k, Z.of_nat (length (filter (fun r => String.eqb (key r) k) rows))))
      (nodup string_dec (map key rows)).

(** [count({ where })] *)
Definition count {A : Type} (where_ : A -> bool) (rows : list A) : Z :=
  Z.of_nat (length (filter where_ rows)).

End Prisma.

Module PaymentsViews.

Record Query : Type := mkQuery {
  page : option string;
  limit : option string;
  q_memberId : option string;
  q_status : option string;
  q_paymentType : option string;
  sortBy : option string;
  sortOrder : option string
}.

Record Where : Type := mkWhere {
  w_memberId : option string;
  w_status : option string;
  w_paymentType : option string
}.

Record Listing : Type := mkListing {
  l_payments : list Payment.t;
  l_pagination : MembersRoute.Pagination
}.

Record Overview : Type := mkOverview {
  totalPayments : Z;
  pendingPayments : Z;
  overduePayments : Z;
  totalRevenue : Z;
  monthlyRevenue : Z;
  paymentTypeDistribution : list (string * Z)
}.

Definition sortKeys : list string := ["createdAt"; "dueDate"; "amount"; "status"].

Definition validateQuery (q : Query) : list string :=
  Validator.optional (page q) (Validator.isInt 1 None)
    "Page must be a positive integer"
  ++ Validator.optional (limit q) (Validator.isInt 1 (Some 100))
       "Limit must be between 1 and 100"
  ++ Validator.optional (q_status q) (Validator.isIn PaymentsRoute.statuses)
       Validator.invalidValue
  ++ Validator.optional (q_paymentType q)
       (Validator.isIn PaymentsRoute.paymentTypes) Validator.invalidValue
  ++ Validator.optional (sortBy q) (Validator.isIn sortKeys)
       Validator.invalidValue
  ++ Validator.optional (sortOrder q) (Validator.isIn MembersRoute.sortOrders)
       Validator.invalidValue.

Definition buildWhere (memberId status paymentType : option string) : Where :=
  {| w_memberId := if Js.truthy memberId then memberId else None;
     w_status := if Js.truthy status then status else None;
     w_paymentType := if Js.truthy paymentType then paymentType else None |}.

Definition matchesWhere (w : Where) (p : Payment.t) : bool :=
  match w_memberId w with
  | Some m => String.eqb (Payment.memberId p) m
  | None => true
  end
  && match w_status w with
     | Some s => String.eqb (Payment.status p) s
     | None => true
     end
  && match w_paymentType w with
     | Some t => String.eqb (Payment.paymentType p) t
     | None => true
     end.

(** [_sum: { amount: true }] with the [|| 0] of the answer. *)
Definition sumAmount (rows : list Payment.t) : Z :=
  fold_right (fun p acc => Payment.amount p + acc) 0 rows.

Definition isPaid (p : Payment.t) : bool := String.eqb (Payment.status p) "PAID".

(** [{ status: 'PAID', paidAt: { gte: since } }] *)
Definition paidSince (since : Z) (p : Payment.t) : bool :=
  isPaid p
  && match Payment.paidAt p with
     | Some t => since <=? t
     | None => false
     end.

Section Routes.

(** The ordering of the store, and the first instant of the month of a
    date in the time zone of the server ([setDate(1)], [setHours(0, 0, 0,
    0)]). *)
Variable orderBy : string -> string -> list Payment.t -> list Payment.t.
Variable startOfMonth : Z -> Z.

(** GET /payments *)
Definition getPayments (q : Query) : Handler Listing :=
  (throwIfInvalid (validateQuery q) ;;
   let page := MembersRoute.numberOr 1 (page q) in
   let limit := MembersRoute.numberOr 10 (limit q) in
   let memberId := option_map Js.trim (q_memberId q) in
   let sortBy := field "createdAt" (sortBy q) in
   let sortOrder := field "desc" (sortOrder q) in
   let skip := (page - 1) * limit in
   let whereClause := buildWhere memberId (q_status q) (q_paymentType q) in
   selected <-
     gets (fun db => filter (matchesWhere whereClause) (payments db)) ;;
   let total := Z.of_nat (length selected) in
   ret {| l_payments :=
            firstn (Z.to_nat limit)
              (skipn (Z.to_nat skip) (orderBy sortBy sortOrder selected));
          l_pagination :=
            {| MembersRoute.p_page := page; MembersRoute.p_limit := limit;
               MembersRoute.p_total := total;
               MembersRoute.p_pages := (total + limit - 1) / limit |} |}
  )%handler.

(** GET /payments/stats/overview *)
Definition getOverview (now : Z) : Handler Overview :=
  (rows <- gets payments ;;
   let totalPayments := Prisma.count (fun _ => true) rows in
   let pendingPayments :=
     Prisma.count (fun p => String.eqb (Payment.status p) "PENDING") rows in
   let overduePayments :=
     Prisma.count (fun p => String.eqb (Payment.status p) "OVERDUE") rows in
   let totalRevenue := sumAmount (filter isPaid rows) in
   let startOfMonth := startOfMonth now in
   let monthlyRevenue := sumAmount (filter (paidSince startOfMonth) rows) in
   let paymentTypeDistribution :=
     Prisma.groupCount Payment.paymentType
       (filter (fun p => negb (String.eqb (Payment.status p) "CANCELLED"))
          rows) in
   ret {| totalPayments := totalPayments;
          pendingPayments := pendingPayments;
          overduePayments := overduePayments;
          totalRevenue := totalRevenue;
          monthlyRevenue := monthlyRevenue;
          paymentTypeDistribution := paymentTypeDistribution |})%handler.

End Routes.

(** GET /payments/:id (the member included in the answer is left out) *)
Definition getPayment (id : string) : Handler Payment.t :=
  (if String.eqb id EmptyString
   then throw (BadRequestError "Payment ID is required")
   else
     payment <- gets (PaymentsRoute.findUnique id) ;;
     match payment with
     | None => throw (NotFoundError "Payment not found")
     | Some payment => ret payment
     end)%handler.

End PaymentsViews.

Module DashboardViews.

Record Overview : Type := mkOverview {
  totalMembers : Z;
  activeMembers : Z;
  inactiveMembers : Z;
  expiringSoon : Z;
  todayCheckIns : Z;
  monthlyRevenue : Z;
  newMembersThisMonth : Z
}.

Record AgeRange : Type := mkAgeRange {
  min : Z;
  max : Z;
  label : string
}.

Definition ageRanges : list AgeRange :=
  [ {| min := 16; max := 25; label := "16-25" |};
    {| min := 26; max := 35; label := "26-35" |};
    {| min := 36; max := 45; label := "36-45" |};
    {| min := 46; max := 55; label := "46-55" |};
    {| min := 56; max := 100; label := "56+" |} ].

(** [status: { not: 'ARCHIVED' }] *)
Definition notArchived (m : Member.t) : bool :=
  negb (String.eqb (Member.status m) "ARCHIVED").

Definition hasStatus (s : string) (m : Member.t) : bool :=
  String.eqb (Member.status m) s.

(** GET /dashboard/membership-distribution *)
Definition getMembershipDistribution : Handler (list (string * Z)) :=
  gets (fun db =>
          Prisma.groupCount Member.membershipType
            (filter notArchived (members db))).

(** GET /dashboard/gender-distribution *)
Definition getGenderDistribution : Handler (list (string * Z)) :=
  gets (fun db =>
          Prisma.groupCount Member.gender (filter notArchived (members db))).

(** GET /dashboard/age-distribution *)
Definition getAgeDistribution : Handler (list (string * Z)) :=
  gets (fun db =>
          map (fun range =>
                 (label range,
                  Prisma.count
                    (fun m =>
                       (min range <=? Member.age m)
                       && (Member.age m <=? max range)
                       && notArchived m)
                    (members db)))
              ageRanges).

Section Overview.

(** The calendar of the server: the first instant of the day and of the
    month of a date, and a date moved by a number of days
    ([setHours(0, 0, 0, 0)], [setDate(1)], [setDate(getDate() + n)]). *)
Variable startOfDay : Z -> Z.
Variable startOfMonth : Z -> Z.
Variable addDays : Z -> Z -> Z.

(** GET /dashboard/overview *)
Definition getOverview (now : Z) : Handler Overview :=
  (db <- gets (fun db => db) ;;
   let totalMembers := Prisma.count (fun _ => true) (members db) in
   let activeMembers := Prisma.count (hasStatus "ACTIVE") (members db) in
   let inactiveMembers := Prisma.count (hasStatus "INACTIVE") (members db) in
   let thirtyDaysFromNow := addDays now 30 in
   let expiringSoon :=
     Prisma.count
       (fun m =>
          hasStatus "ACTIVE" m
          && (Member.expiryDate m <=? thirtyDaysFromNow)
          && (now <=? Member.expiryDate m))
       (members db) in
   let today := startOfDay now in
   let tomorrow := addDays today 1 in
   let todayCheckIns :=
     Prisma.count
       (fun c =>
          (today <=? CheckIn.checkInAt c) && (CheckIn.checkInAt c <? tomorrow))
       (checkIns db) in
   let startOfMonth := startOfMonth now in
   let monthlyRevenue :=
     PaymentsViews.sumAmount
       (filter (PaymentsViews.paidSince startOfMonth) (payments db)) in
   let newMembersThisMonth :=
     Prisma.count (fun m => startOfMonth <=? Member.joinDate m) (members db) in
   ret {| totalMembers := totalMembers;
          activeMembers := activeMembers;
          inactiveMembers := inactiveMembers;
          expiringSoon := expiringSoon;
          todayCheckIns := todayCheckIns;
          monthlyRevenue := monthlyRevenue;
          newMembersThisMonth := newMembersThisMonth |})%handler.

End Overview.

End DashboardViews.

(** ** [backend/src/middleware]: the error responder and the role check *)

Module ErrorHandler.

(** An error as the responder reads it.  [code] is the code of a Prisma
    error. *)
Record AppError : Type := mkAppError {
  name : string;
  message : string;
  statusCode : option Z;
  code : option string;
  stack : option string
}.

(** The answer: [success] is always false; [r_stack] and [r_error] are
    present in development only. *)
Record Response : Type := mkResponse {
  status : Z;
  r_message : string;
  r_stack : option string;
  r_error : option string
}.

(** [new CustomError(message, statusCode)] *)
Definition customError (message : string) (statusCode : Z)
    (stack : option string) : AppError :=
  {| name := "Error"; message := message; statusCode := Some statusCode;
     code := None; stack := stack |}.

(** The error classes the routes throw. *)
Definition ofHttpError (e : HttpError) (stack : option string) : AppError :=
  match e with
  | BadRequestError m => customError m 400 stack
  | NotFoundError m => customError m 404 stack
  | ConflictError m => customError m 409 stack
  end.

Definition codeIs (c : string) (code : option string) : bool :=
  match code with
  | Some x => String.eqb x c
  | None => false
  end.

(** [errorHandler]; [development] is [process.env.NODE_ENV ===
    'development']. *)
Definition errorHandler (development : bool) (error : AppError) : Response :=
  let statusCode := field 500 (statusCode error) in
  let message := message error in
  let '(statusCode, message) :=
    if String.eqb (name error) "PrismaClientKnownRequestError" then
      if codeIs "P2002" (code error) then (409, "Resource already exists")
      else if codeIs "P2025" (code error) then (404, "Resource not found")
      else if codeIs "P2003" (code error)
           then (400, "Invalid foreign key reference")
           else (400, "Database operation failed")
    else (statusCode, message) in
  let '(statusCode, message) :=
    if String.eqb (name error) "PrismaClientValidationError"
    then (400, "Invalid data provided")
    else (statusCode, message) in
  let '(statusCode, message) :=
    if String.eqb (name error) "JsonWebTokenError" then (401, "Invalid token")
    else (statusCode, message) in
  let '(statusCode, message) :=
    if String.eqb (name error) "TokenExpiredError" then (401, "Token expired")
    else (statusCode, message) in
  let '(statusCode, message) :=
    if String.eqb (name error) "ValidationError"
    then (400, "Validation failed")
    else (statusCode, message) in
  let '(statusCode, message) :=
    if String.eqb (name error) "MulterError" then (400, "File upload error")
    else (statusCode, message) in
  let '(statusCode, message) :=
    if negb (String.eqb (ErrorHandler.message error) EmptyString)
       && Js.includes (ErrorHandler.message error) "Too many requests"
    then (429, "Too many requests, please try again later")
    else (statusCode, message) in
  let statusCode :=
    if (statusCode <? 100) || (600 <=? statusCode) then 500 else statusCode in
  {| status := statusCode;
     r_message :=
       if String.eqb message EmptyString then "Internal server error"
       else message;
     r_stack := if development then stack error else None;
     r_error := if development then Some (name error) else None |}.

End ErrorHandler.

Module AuthMiddleware.

(** [req.user] *)
Record User : Type := mkUser {
  id : string;
  email : string;
  role : string
}.

(** What a middleware does: answer, or hand over to the next one. *)
Inductive Outcome : Type :=
| Respond (status : Z) (message : string)
| Next.

Definition requireRole (roles : list string) (user : option User) : Outcome :=
  match user with
  | None => Respond 401 "Authentication required"
  | Some u =>
      if negb (existsb (String.eqb (role u)) roles)
      then Respond 403 "Insufficient permissions"
      else Next
  end.

Definition requireAdmin : option User -> Outcome :=
  requireRole ["ADMIN"; "SUPER_ADMIN"].

Definition requireSuperAdmin : option User -> Outcome :=
  requireRole ["SUPER_ADMIN"].

End AuthMiddleware.

(** ** The client: the API service, the hooks and the member components *)

Module Api.

(** The argument of [membersAPI.getAll]: nothing, an object of parameters
    (a parameter that is [undefined] is [None]), or, as [useMembers] calls
    it, a number. *)
Inductive Params : Type :=
| NoParams
| ParamsObject (entries : list (string * option string))
| ParamsNumber (n : Z).

(** [if (params) Object.entries(params).forEach(([key, value]) =>
      { if (value !== undefined) searchParams.append(key, value) })] *)
Definition searchParams (params : Params) : list (string * string) :=
  match params with
  | NoParams => []
  | ParamsObject entries =>
      flat_map (fun entry =>
                  match snd entry with
                  | Some value => [(fst entry, value)]
                  | None => []
                  end) entries
  | ParamsNumber _ => []
  end.

Fixpoint get (key : string) (entries : list (string * string)) : option string :=
  match entries with
  | [] => None
  | (k, v) :: rest => if String.eqb k key then Some v else get key rest
  end.

(** [req.query] of the request [membersAPI.getAll] sends. *)
Definition membersQuery (params : Params) : MembersRoute.Query :=
  let entries := searchParams params in
  {| MembersRoute.page := get "page" entries;
     MembersRoute.limit := get "limit" entries;
     MembersRoute.search := get "search" entries;
     MembersRoute.q_status := get "status" entries;
     MembersRoute.q_membershipType := get "membershipType" entries;
     MembersRoute.sortBy := get "sortBy" entries;
     MembersRoute.sortOrder := get "sortOrder" entries |}.

(** The calls of [membersAPI] that change the store. *)
Inductive Call : Type :=
| Create (memberData : MembersRoute.Body)
| Update (id : string) (memberData : MembersRoute.Body)
| Delete (id : string).

Section Server.

Variable isEmail : string -> bool.
Variable normalizeEmail : string -> string.
Variable orderBy : string -> string -> list Member.t -> list Member.t.

(** The route a call reaches; the outcome says whether it succeeded. *)
Definition serve (call : Call) (now : Z) (newId : string) : Handler unit :=
  match call with
  | Create memberData =>
      (MembersRoute.postMember isEmail normalizeEmail memberData now newId ;;
       ret tt)%handler
  | Update id memberData =>
      (MembersRoute.putMember isEmail normalizeEmail id memberData now ;;
       ret tt)%handler
  | Delete id => (MembersRoute.deleteMember id ;; ret tt)%handler
  end.

(** [fetchMembers] of [useMembers]: [membersAPI.getAll(page, limit,
    filters)], whose first argument alone is read; the members of the answer
    become the state, and stay [previous] when the request fails. *)
Definition fetchMembers (page limit : Z) (previous : list Member.t) (db : Db)
  : list Member.t :=
  match MembersRoute.getMembers orderBy (membersQuery (ParamsNumber page)) db
  with
  | (_, Ok listing) => MembersRoute.l_members listing
  | (_, Threw _) => previous
  end.

End Server.

End Api.

Module MemberFilters.

(** The values of the five filter buttons. *)
Definition filterButtons : list string :=
  ["All Members"; "Active"; "Inactive"; "Expiring Soon"; "Archived"].

Definition filterMap : list (string * string) :=
  [("All Members", "all"); ("Active", "active"); ("Inactive", "inactive");
   ("Expiring Soon", "expiring"); ("Archived", "archived")].

(** [filterMap[value] || value.toLowerCase()] *)
Definition mapped (value : string) : string :=
  match Api.get value filterMap with
  | Some v => v
  | None => Js.toLowerCase value
  end.

Definition isFilterActive (statusFilter filterValue : string) : bool :=
  let mappedValue := mapped filterValue in
  let mappedStatusFilter := mapped statusFilter in
  String.eqb mappedValue mappedStatusFilter.

End MemberFilters.

Module MemberManagementPage.

(** The state of the page that the filters read. *)
Record State : Type := mkState {
  searchTerm : string;
  statusFilter : string;
  membershipFilter : string;
  urlFilter : option string
}.

Definition filterMap : list (string * string) :=
  [("All Members", "all"); ("Active", "active"); ("Inactive", "inactive");
   ("Expiring Soon", "expiring"); ("Archived", "archived");
   ("all", "all"); ("active", "active"); ("inactive", "inactive");
   ("expiring", "expiring"); ("archived", "archived")].

Definition handleStatusFilterChange (newFilter : string) (s : State) : State :=
  let mappedFilter :=
    match Api.get newFilter filterMap with
    | Some v => v
    | None => Js.toLowerCase newFilter
    end in
  {| searchTerm := EmptyString;
     statusFilter := mappedFilter;
     membershipFilter := membershipFilter s;
     urlFilter := None |}.

Record Counts : Type := mkCounts {
  total : Z;
  active : Z;
  inactive : Z;
  expiringSoon : Z;
  archived : Z
}.

(** [memberCounts]; [stats] is the answer of GET /dashboard/overview, if it
    has arrived. *)
Definition memberCounts (stats : option DashboardViews.Overview)
    (members : list Member.t) : Counts :=
  match stats with
  | None =>
      {| total := 0; active := 0; inactive := 0; expiringSoon := 0;
         archived := 0 |}
  | Some stats =>
      let archivedCount :=
        Z.of_nat
          (length (filter (fun m => String.eqb (Member.status m) "ARCHIVED")
                     members)) in
      {| total := DashboardViews.totalMembers stats;
         active := DashboardViews.activeMembers stats;
         inactive := DashboardViews.inactiveMembers stats;
         expiringSoon := DashboardViews.expiringSoon stats;
         archived := archivedCount |}
  end.

(** A body that carries a status and nothing else. *)
Definition statusOnly (s : string) : MembersRoute.Body :=
  {| MembersRoute.name := None; MembersRoute.age := None;
     MembersRoute.gender := None; MembersRoute.email := None;
     MembersRoute.phone := None; MembersRoute.membershipType := None;
     MembersRoute.expiryDate := None; MembersRoute.status := Some s;
     MembersRoute.profilePicture := None; MembersRoute.joinDate := None |}.

Definition handleDeleteMember (id : string) : Api.Call := Api.Delete id.

Definition handleArchiveMember (id : string) : Api.Call :=
  Api.Update id (statusOnly "ARCHIVED").

Definition handleActivateMember (id : string) : Api.Call :=
  Api.Update id (statusOnly "ACTIVE").

Definition handleDeactivateMember (id : string) : Api.Call :=
  Api.Update id (statusOnly "INACTIVE").

(** [handleToggle] of [MemberStatusSwitch]: the call it makes, if any. *)
Definition handleToggle (isUpdating : bool) (member : Member.t) (checked : bool)
  : option Api.Call :=
  if isUpdating then None
  else
    let newStatus := if checked then "ACTIVE" else "INACTIVE" in
    if String.eqb (Member.status member) newStatus then None
    else if checked then Some (handleActivateMember (Member.id member))
    else Some (handleDeactivateMember (Member.id member)).

(** The switch is shown for the members that are neither archived nor
    expiring. *)
Definition toggleShown (member : Member.t) : bool :=
  negb (String.eqb (Member.status member) "ARCHIVED"
        || String.eqb (Member.status member) "EXPIRING_SOON").

End MemberManagementPage.

(** ** What the routes keep true of the store *)

Module Invariant.

(** A member row that satisfies the constraints of the validators. *)
Definition validMember (m : Member.t) : Prop :=
  (2 <= String.length (Member.name m))%nat
  /\ 16 <= Member.age m <= 100
  /\ In (Member.gender m) MembersRoute.genders
  /\ (10 <= String.length (Member.phone m))%nat
  /\ In (Member.membershipType m) MembersRoute.membershipTypes
  /\ In (Member.status m) MembersRoute.statuses.

(** No two members have the same e-mail. *)
Definition uniqueEmails (db : Db) : Prop :=
  NoDup (map Member.email (members db)).

(** The data PUT /members/:id hands to [update]. *)
Definition putMemberData (normalizeEmail : string -> string)
    (b : MembersRoute.Body) (now : Z) : MembersRoute.Body :=
  let updateData := MembersRoute.sanitize normalizeEmail b in
  match MembersRoute.expiryDate updateData with
  | Some expiryDate =>
      let thirtyDaysFromNow := now + thirtyDays in
      if expiryDate <=? now then MembersRoute.setStatus "INACTIVE" updateData
      else if expiryDate <=? thirtyDaysFromNow
           then MembersRoute.setStatus "EXPIRING_SOON" updateData
           else MembersRoute.setStatus "ACTIVE" updateData
  | None => updateData
  end.

(** A workout row that satisfies the constraints of the validators. *)
Definition validWorkout (w : Workout.t) : Prop :=
  In (Workout.workoutType w) WorkoutsRoute.workoutTypes
  /\ 1 <= Workout.duration w
  /\ match Workout.calories w with
     | Some c => 0 <= c
     | None => True
     end.

End Invariant.

(** ** More sample data *)

Module Fixture.

Definition active : Member.t := Sample.member "m7" "ACTIVE" "9822222222".

Definition other : Member.t :=
  {| Member.id := "m8"; Member.name := "Dawa Sherpa"; Member.age := 52;
     Member.gender := "FEMALE"; Member.email := "dawa@example.com";
     Member.phone := "9855555555"; Member.membershipType := "THREE_MONTH";
     Member.expiryDate := Sample.now + Spec.days 20;
     Member.status := "EXPIRING_SOON";
     Member.profilePicture := None;
     Member.joinDate := Sample.now - Spec.days 70 |}.

Definition gymDb : Db :=
  {| members := [Sample.archived; active; other];
     payments := [Sample.paidPayment; Sample.pendingPayment];
     checkIns :=
       [ {| CheckIn.id := "c1"; CheckIn.memberId := "m1";
            CheckIn.checkInAt := Sample.now - Spec.days 2 |} ] |}.

Definition emailChange (email : string) : MembersRoute.Body :=
  {| MembersRoute.name := None; MembersRoute.age := None;
     MembersRoute.gender := None; MembersRoute.email := Some email;
     MembersRoute.phone := None; MembersRoute.membershipType := None;
     MembersRoute.expiryDate := None; MembersRoute.status := None;
     MembersRoute.profilePicture := None; MembersRoute.joinDate := None |}.


(** The pending payment of the samples, once settled at [Sample.now]. *)
Definition settled : Payment.t :=
  PaymentsRoute.applyUpdate
    (PaymentsRoute.setPaidAt Sample.now (Sample.statusChange "PAID"))
    Sample.pendingPayment.


Definition run : Workout.t :=
  {| Workout.id := "w1"; Workout.memberId := "m1";
     Workout.workoutType := "CARDIO"; Workout.duration := 45;
     Workout.calories := Some 400;
     Workout.workoutAt := Sample.now - Spec.days 3; Workout.notes := None |}.

Definition lift : Workout.t :=
  {| Workout.id := "w2"; Workout.memberId := "m1";
     Workout.workoutType := "STRENGTH"; Workout.duration := 60;
     Workout.calories := None;
     Workout.workoutAt := Sample.now - Spec.days 1; Workout.notes := None |}.

Definition stretch : Workout.t :=
  {| Workout.id := "w3"; Workout.memberId := "m7";
     Workout.workoutType := "FLEXIBILITY"; Workout.duration := 30;
     Workout.calories := Some 90;
     Workout.workoutAt := Sample.now - Spec.days 1; Workout.notes := None |}.

Definition workouts : list Workout.t := [run; lift; stretch].

Definition session (memberId : string) (duration : Z) : WorkoutsRoute.Body :=
  {| WorkoutsRoute.memberId := Some memberId;
     WorkoutsRoute.workoutType := Some "SPORTS";
     WorkoutsRoute.duration := Some duration;
     WorkoutsRoute.calories := Some 250;
     WorkoutsRoute.workoutAt := None;
     WorkoutsRoute.notes := Some "football" |}.

Definition noQuery : WorkoutsRoute.Query :=
  {| WorkoutsRoute.page := None; WorkoutsRoute.limit := None;
     WorkoutsRoute.q_memberId := None; WorkoutsRoute.q_workoutType := None;
     WorkoutsRoute.startDate := None; WorkoutsRoute.endDate := None;
     WorkoutsRoute.sortBy := None; WorkoutsRoute.sortOrder := None |}.

Definition lastTwoDays : WorkoutsRoute.Query :=
  {| WorkoutsRoute.page := None; WorkoutsRoute.limit := None;
     WorkoutsRoute.q_memberId := None; WorkoutsRoute.q_workoutType := None;
     WorkoutsRoute.startDate := Some (Sample.now - Spec.days 2);
     WorkoutsRoute.endDate := Some Sample.now;
     WorkoutsRoute.sortBy := None; WorkoutsRoute.sortOrder := None |}.

Definition orderWorkouts (key order : string) (rows : list Workout.t)
  : list Workout.t := rows.

Definition orderPayments (key order : string) (rows : list Payment.t)
  : list Payment.t := rows.

(** Stand-ins for the calendar of the server, in UTC with months of thirty
    days. *)
Definition startOfDay (t : Z) : Z := t / Spec.days 1 * Spec.days 1.

Definition startOfMonth (t : Z) : Z := t / Spec.days 30 * Spec.days 30.

Definition addDays (t n : Z) : Z := t + Spec.days n.

End Fixture.

(** * Properties *)

(** ** Running handlers *)

Ltac run_handler :=
  cbv beta iota delta [bind gets modify ret throw throwIfInvalid].

Lemma find_updateUnique {A : Type} (key : A -> string) (f : A -> A)
    (id : string) (rows : list A) (r : A) :
  (forall x, key (f x) = key x) ->
  find (fun x => String.eqb (key x) id) rows = Some r ->
  find (fun x => String.eqb (key x) id) (updateUnique key id f rows)
  = Some (f r).
Proof.
  intros Hkey. induction rows as [|x rows IH]; simpl; [discriminate|].
  destruct (String.eqb (key x) id) eqn:E.
  - intros [= ->]. simpl. rewrite Hkey, E. reflexivity.
  - intros H. simpl. rewrite E. auto.
Qed.

Lemma find_updateUnique_other {A : Type} (key : A -> string) (f : A -> A)
    (id id' : string) (rows : list A) :
  (forall x, key (f x) = key x) ->
  id' <> id ->
  find (fun x => String.eqb (key x) id') (updateUnique key id f rows)
  = find (fun x => String.eqb (key x) id') rows.
Proof.
  intros Hkey Hne. induction rows as [|x rows IH]; simpl; [reflexivity|].
  destruct (String.eqb (key x) id) eqn:E; simpl.
  - rewrite Hkey. apply String.eqb_eq in E.
    destruct (String.eqb (key x) id') eqn:E'; [|reflexivity].
    apply String.eqb_eq in E'. congruence.
  - destruct (String.eqb (key x) id'); [reflexivity | exact IH].
Qed.

Lemma length_updateUnique {A : Type} (key : A -> string) (f : A -> A)
    (id : string) (rows : list A) :
  length (updateUnique key id f rows) = length rows.
Proof.
  induction rows as [|x rows IH]; simpl; [reflexivity|].
  destruct (String.eqb (key x) id); simpl; congruence.
Qed.

Lemma Forall_updateUnique {A : Type} (P : A -> Prop) (key : A -> string)
    (f : A -> A) (id : string) (rows : list A) (r : A) :
  find (fun x => String.eqb (key x) id) rows = Some r ->
  P (f r) ->
  Forall P rows ->
  Forall P (updateUnique key id f rows).
Proof.
  intros Hfind Hnew Hall. induction Hall as [|x rows Hx Hall IH]; simpl in *.
  - constructor.
  - destruct (String.eqb (key x) id).
    + injection Hfind as ->. constructor; assumption.
    + constructor; auto.
Qed.

Lemma find_app_new {A : Type} (p : A -> bool) (rows : list A) (r : A) :
  find p rows = None -> p r = true -> find p (rows ++ [r]) = Some r.
Proof.
  induction rows as [|x rows IH]; simpl.
  - intros _ ->. reflexivity.
  - destruct (p x); [discriminate | auto].
Qed.

Lemma findUnique_update (id : string) (data : MembersRoute.Body) (db : Db)
    (m : Member.t) :
  MembersRoute.findUnique id db = Some m ->
  MembersRoute.findUnique id (MembersRoute.update id data db)
  = Some (MembersRoute.applyUpdate data m).
Proof.
  unfold MembersRoute.findUnique, MembersRoute.update. simpl.
  apply (find_updateUnique Member.id (MembersRoute.applyUpdate data) id).
  reflexivity.
Qed.

Lemma findUnique_update_other (id id' : string) (data : MembersRoute.Body)
    (db : Db) :
  id' <> id ->
  MembersRoute.findUnique id' (MembersRoute.update id data db)
  = MembersRoute.findUnique id' db.
Proof.
  unfold MembersRoute.findUnique, MembersRoute.update. simpl.
  apply (find_updateUnique_other Member.id (MembersRoute.applyUpdate data) id).
  reflexivity.
Qed.

Lemma eqb_empty_false (s : string) :
  s <> EmptyString -> String.eqb s EmptyString = false.
Proof. intros H. apply String.eqb_neq. exact H. Qed.

(** ** Validation chains *)

Lemma check_nil (ok : bool) (msg : string) :
  Validator.check ok msg = [] <-> ok = true.
Proof. destruct ok; simpl; split; congruence. Qed.

Lemma optional_nil {A : Type} (v : option A) (ok : A -> bool) (msg : string) :
  Validator.optional v ok msg = [] <->
  match v with Some a => ok a = true | None => True end.
Proof.
  destruct v as [a|]; simpl; [apply check_nil | split; auto].
Qed.

Lemma isIn_In (values : list string) (s : string) :
  Validator.isIn values s = true <-> In s values.
Proof.
  unfold Validator.isIn. rewrite existsb_exists. split.
  - intros (x & Hin & Heq). apply String.eqb_eq in Heq. subst x. exact Hin.
  - intros Hin. exists s. split; [exact Hin | apply String.eqb_refl].
Qed.

(** ** Members: creation, update and archival *)

Section MembersProperties.

Variable isEmail : string -> bool.
Variable normalizeEmail : string -> string.

Let validateMember := MembersRoute.validateMember isEmail.
Let validateMemberUpdate := MembersRoute.validateMemberUpdate isEmail.
Let sanitize := MembersRoute.sanitize normalizeEmail.
Let postMember := MembersRoute.postMember isEmail normalizeEmail.
Let putMember := MembersRoute.putMember isEmail normalizeEmail.
Let emailAvailable := Spec.emailAvailable normalizeEmail.

(** The status both handlers compute from an expiry date. *)
Lemma derived_status_cases (d now : Z) :
  Spec.derivedStatus d now
    (if d <=? now then "INACTIVE"
     else if d <=? now + thirtyDays then "EXPIRING_SOON"
     else "ACTIVE").
Proof.
  unfold Spec.derivedStatus.
  change (Spec.days 30) with 2592000000. change thirtyDays with 2592000000.
  destruct (Z.leb_spec d now); [|destruct (Z.leb_spec d (now + 2592000000))];
    repeat split; intros; try reflexivity; lia.
Qed.

Lemma derived_status_not_archived (d now : Z) :
  (if d <=? now then "INACTIVE"
   else if d <=? now + thirtyDays then "EXPIRING_SOON"
   else "ACTIVE") <> "ARCHIVED".
Proof.
  destruct (d <=? now); [|destruct (d <=? now + thirtyDays)]; discriminate.
Qed.

(** A valid POST whose e-mail is free creates the member it answers with. *)
Lemma postMember_created (b : MembersRoute.Body) (now : Z) (newId : string)
    (db : Db) :
  validateMember b = [] ->
  MembersRoute.findUniqueByEmail
    (field EmptyString (MembersRoute.email (sanitize b))) db
  = None ->
  exists m,
    postMember b now newId db = (MembersRoute.create m db, Ok m)
    /\ Member.id m = newId
    /\ Member.email m = field EmptyString (MembersRoute.email (sanitize b))
    /\ Member.expiryDate m = field 0 (MembersRoute.expiryDate b)
    /\ Member.status m
       = (if field 0 (MembersRoute.expiryDate b) <=? now then "INACTIVE"
          else if field 0 (MembersRoute.expiryDate b) <=? now + thirtyDays
               then "EXPIRING_SOON"
               else "ACTIVE").
Proof.
  intros Hvalid Hfree.
  unfold postMember, MembersRoute.postMember.
  fold validateMember sanitize. rewrite Hvalid. run_handler.
  rewrite Hfree. eexists. split; [reflexivity|]. simpl. auto.
Qed.

(** A valid PUT on an existing member writes the row it answers with; with
    an expiry date in the body the status written is the derived one. *)
Lemma putMember_updated (id : string) (b : MembersRoute.Body) (now : Z)
    (db : Db) (existing : Member.t) :
  validateMemberUpdate b = [] ->
  id <> EmptyString ->
  MembersRoute.findUnique id db = Some existing ->
  emailAvailable b existing db ->
  exists (data : MembersRoute.Body),
    putMember id b now db
    = (MembersRoute.update id data db,
       Ok (MembersRoute.applyUpdate data existing))
    /\ MembersRoute.findUnique id (MembersRoute.update id data db)
       = Some (MembersRoute.applyUpdate data existing)
    /\ MembersRoute.status data
       = match MembersRoute.expiryDate b with
         | Some d =>
             Some (if d <=? now then "INACTIVE"
                   else if d <=? now + thirtyDays then "EXPIRING_SOON"
                   else "ACTIVE")
         | None => MembersRoute.status b
         end.
Proof.
  intros Hvalid Hid Hfind Havail.
  unfold putMember, MembersRoute.putMember.
  fold validateMemberUpdate sanitize. rewrite Hvalid. run_handler.
  rewrite (eqb_empty_false id Hid), Hfind.
  unfold emailAvailable, Spec.emailAvailable in Havail. fold sanitize in Havail.
  assert (Hstatus : forall data0 : MembersRoute.Body,
    MembersRoute.status
      match MembersRoute.expiryDate data0 with
      | Some d =>
          if d <=? now then MembersRoute.setStatus "INACTIVE" data0
          else if d <=? now + thirtyDays
               then MembersRoute.setStatus "EXPIRING_SOON" data0
               else MembersRoute.setStatus "ACTIVE" data0
      | None => data0
      end
    = match MembersRoute.expiryDate data0 with
      | Some d =>
          Some (if d <=? now then "INACTIVE"
                else if d <=? now + thirtyDays then "EXPIRING_SOON"
                else "ACTIVE")
      | None => MembersRoute.status data0
      end).
  { intros data0. destruct (MembersRoute.expiryDate data0) as [d|]; [|reflexivity].
    destruct (d <=? now); [|destruct (d <=? now + thirtyDays)]; reflexivity. }
  assert (Hcheck :
    Js.truthy (MembersRoute.email (sanitize b))
    && negb (String.eqb (field EmptyString (MembersRoute.email (sanitize b)))
               (Member.email existing)) = false
    \/ MembersRoute.findUniqueByEmail
         (field EmptyString (MembersRoute.email (sanitize b))) db = None).
  { destruct (MembersRoute.email (sanitize b)) as [e|]; simpl; [|now left].
    destruct Havail as [-> | [-> | Hnone]].
    - now left.
    - left. rewrite String.eqb_refl, andb_false_r. reflexivity.
    - now right. }
  destruct Hcheck as [Hskip | Hnone].
  - rewrite Hskip. eexists. split; [reflexivity|]. split.
    + apply findUnique_update. exact Hfind.
    + apply (Hstatus (sanitize b)).
  - destruct (Js.truthy (MembersRoute.email (sanitize b)) && _);
      cbv beta; try rewrite Hnone;
      (eexists; split; [reflexivity|]; split;
       [apply findUnique_update; exact Hfind | apply (Hstatus (sanitize b))]).
Qed.

(** C1. For every expiry date [d] and reference time [now], the status that
    POST /members gives the member it creates, and the status that
    PUT /members/:id with an [expiryDate] in the body writes, is INACTIVE if
    [d <= now], EXPIRING_SOON if [now < d <= now + 30 days] and ACTIVE if
    [d > now + 30 days]; an expiry date 10 days after [now] gives
    EXPIRING_SOON and one a day before [now] gives INACTIVE. *)
Theorem status_derived_on_create_and_update :
  (forall (b : MembersRoute.Body) (now : Z) (newId : string) (db : Db) (d : Z),
      validateMember b = [] ->
      MembersRoute.expiryDate b = Some d ->
      MembersRoute.findUniqueByEmail
        (field EmptyString (MembersRoute.email (sanitize b))) db = None ->
      exists m,
        postMember b now newId db = (MembersRoute.create m db, Ok m)
        /\ Spec.derivedStatus d now (Member.status m)
        /\ (d = now + Spec.days 10 -> Member.status m = "EXPIRING_SOON")
        /\ (d = now - Spec.days 1 -> Member.status m = "INACTIVE"))
  /\ (forall (id : string) (b : MembersRoute.Body) (now : Z) (db : Db)
         (existing : Member.t) (d : Z),
        validateMemberUpdate b = [] ->
        id <> EmptyString ->
        MembersRoute.findUnique id db = Some existing ->
        emailAvailable b existing db ->
        MembersRoute.expiryDate b = Some d ->
        exists db' m,
          putMember id b now db = (db', Ok m)
          /\ MembersRoute.findUnique id db' = Some m
          /\ Spec.derivedStatus d now (Member.status m)
          /\ (d = now + Spec.days 10 -> Member.status m = "EXPIRING_SOON")
          /\ (d = now - Spec.days 1 -> Member.status m = "INACTIVE")).
Proof.
  assert (Hexamples : forall d now s,
    Spec.derivedStatus d now s ->
    (d = now + Spec.days 10 -> s = "EXPIRING_SOON")
    /\ (d = now - Spec.days 1 -> s = "INACTIVE")).
  { intros d now s (Hinactive & Hsoon & _).
    change (Spec.days 30) with 2592000000 in Hsoon.
    change (Spec.days 10) with 864000000. change (Spec.days 1) with 86400000.
    split; intros ->; [apply Hsoon | apply Hinactive]; lia. }
  split.
  - intros b now newId db d Hvalid Hd Hfree.
    destruct (postMember_created b now newId db Hvalid Hfree)
      as (m & Hrun & _ & _ & _ & Hstatus).
    rewrite Hd in Hstatus. simpl in Hstatus.
    exists m. split; [exact Hrun|].
    assert (Hderived : Spec.derivedStatus d now (Member.status m))
      by (rewrite Hstatus; apply derived_status_cases).
    split; [exact Hderived | exact (Hexamples _ _ _ Hderived)].
  - intros id b now db existing d Hvalid Hid Hfind Havail Hd.
    destruct (putMember_updated id b now db existing Hvalid Hid Hfind Havail)
      as (data & Hrun & Hstored & Hstatus).
    rewrite Hd in Hstatus.
    exists (MembersRoute.update id data db), (MembersRoute.applyUpdate data existing).
    split; [exact Hrun|]. split; [exact Hstored|].
    assert (Hderived :
      Spec.derivedStatus d now
        (Member.status (MembersRoute.applyUpdate data existing)))
      by (simpl; rewrite Hstatus; simpl; apply derived_status_cases).
    split; [exact Hderived | exact (Hexamples _ _ _ Hderived)].
Qed.

(** C2, as the handler has it.  For a member whose status is ARCHIVED, a
    valid PUT /members/:id that carries an [expiryDate] writes the status
    derived from it, which is never ARCHIVED; without an [expiryDate] the
    status stays ARCHIVED unless the body carries a [status], which is then
    written. *)
Theorem archived_status_under_update (id : string) (b : MembersRoute.Body)
    (now : Z) (db : Db) (existing : Member.t) :
  validateMemberUpdate b = [] ->
  id <> EmptyString ->
  MembersRoute.findUnique id db = Some existing ->
  Member.status existing = "ARCHIVED" ->
  emailAvailable b existing db ->
  exists db' m,
    putMember id b now db = (db', Ok m)
    /\ MembersRoute.findUnique id db' = Some m
    /\ match MembersRoute.expiryDate b, MembersRoute.status b with
       | Some d, _ =>
           Spec.derivedStatus d now (Member.status m)
           /\ Member.status m <> "ARCHIVED"
       | None, Some s => Member.status m = s
       | None, None => Member.status m = "ARCHIVED"
       end.
Proof.
  intros Hvalid Hid Hfind Harchived Havail.
  destruct (putMember_updated id b now db existing Hvalid Hid Hfind Havail)
    as (data & Hrun & Hstored & Hstatus).
  exists (MembersRoute.update id data db), (MembersRoute.applyUpdate data existing).
  split; [exact Hrun|]. split; [exact Hstored|].
  simpl. rewrite Hstatus.
  destruct (MembersRoute.expiryDate b) as [d|]; simpl.
  - split; [apply derived_status_cases | apply derived_status_not_archived].
  - destruct (MembersRoute.status b); simpl; [reflexivity | exact Harchived].
Qed.

(** A valid POST whose e-mail is taken throws a Conflict and writes
    nothing. *)
Lemma postMember_conflict (b : MembersRoute.Body) (now : Z) (newId : string)
    (db : Db) (holder : Member.t) :
  validateMember b = [] ->
  MembersRoute.findUniqueByEmail
    (field EmptyString (MembersRoute.email (sanitize b))) db
  = Some holder ->
  postMember b now newId db
  = (db, Threw (ConflictError "Member with this email already exists")).
Proof.
  intros Hvalid Hheld.
  unfold postMember, MembersRoute.postMember.
  fold validateMember sanitize. rewrite Hvalid. run_handler.
  rewrite Hheld. reflexivity.
Qed.

(** C7. Of two valid POST /members requests that carry the same normalised
    e-mail, made one after the other, the second always fails with a
    Conflict and leaves the store as the first left it; on a store where
    nobody has the e-mail the first creates a member with it, so that
    exactly one of the two succeeds (on a store where somebody has it, the
    first fails with a Conflict too). *)
Theorem duplicate_email_one_created_one_conflict
    (b1 b2 : MembersRoute.Body) (e1 e2 : string) (now1 now2 : Z)
    (id1 id2 : string) (db : Db) :
  validateMember b1 = [] ->
  validateMember b2 = [] ->
  MembersRoute.email b1 = Some e1 ->
  MembersRoute.email b2 = Some e2 ->
  normalizeEmail e1 = normalizeEmail e2 ->
  exists db1 r1,
    postMember b1 now1 id1 db = (db1, r1)
    /\ postMember b2 now2 id2 db1
       = (db1, Threw (ConflictError "Member with this email already exists"))
    /\ match MembersRoute.findUniqueByEmail (normalizeEmail e1) db with
       | None =>
           exists m,
             r1 = Ok m
             /\ db1 = MembersRoute.create m db
             /\ members db1 = (members db ++ [m])%list
             /\ Member.email m = normalizeEmail e1
       | Some _ =>
           r1 = Threw (ConflictError "Member with this email already exists")
           /\ db1 = db
       end.
Proof.
  intros Hvalid1 Hvalid2 He1 He2 Hsame.
  assert (Hmail1 :
    field EmptyString (MembersRoute.email (sanitize b1)) = normalizeEmail e1)
    by (simpl; rewrite He1; reflexivity).
  assert (Hmail2 :
    field EmptyString (MembersRoute.email (sanitize b2)) = normalizeEmail e1)
    by (simpl; rewrite He2, Hsame; reflexivity).
  destruct (MembersRoute.findUniqueByEmail (normalizeEmail e1) db)
    as [holder|] eqn:Hheld.
  - exists db, (Threw (ConflictError "Member with this email already exists")).
    split; [|split; [|split; reflexivity]].
    + apply (postMember_conflict b1 now1 id1 db holder Hvalid1).
      rewrite Hmail1. exact Hheld.
    + apply (postMember_conflict b2 now2 id2 db holder Hvalid2).
      rewrite Hmail2. exact Hheld.
  - destruct (postMember_created b1 now1 id1 db Hvalid1)
      as (m & Hrun & _ & Hmail & _).
    { rewrite Hmail1. exact Hheld. }
    rewrite Hmail1 in Hmail.
    exists (MembersRoute.create m db), (Ok m).
    split; [exact Hrun|]. split.
    + apply (postMember_conflict b2 now2 id2 _ m Hvalid2).
      rewrite Hmail2.
      unfold MembersRoute.findUniqueByEmail, MembersRoute.create. simpl.
      apply find_app_new; [exact Hheld|].
      rewrite Hmail. apply String.eqb_refl.
    + exists m. repeat split. exact Hmail.
Qed.

End MembersProperties.

Lemma status_derived_on_create_and_update_witness :
  (exists m,
      MembersRoute.postMember Sample.isEmail Sample.normalizeEmail
        (Sample.registration "Asha@Example.com" (Sample.now + Spec.days 10))
        Sample.now "m2" Sample.emptyDb
      = (MembersRoute.create m Sample.emptyDb, Ok m)
      /\ Member.status m = "EXPIRING_SOON")
  /\ (exists db' m,
        MembersRoute.putMember Sample.isEmail Sample.normalizeEmail "m1"
          (Sample.renewal (Sample.now - Spec.days 1)) Sample.now Sample.archivedDb
        = (db', Ok m)
        /\ MembersRoute.findUnique "m1" db' = Some m
        /\ Member.status m = "INACTIVE").
Proof.
  destruct (status_derived_on_create_and_update
              Sample.isEmail Sample.normalizeEmail) as [Hpost Hput].
  split.
  - destruct (Hpost
                (Sample.registration "Asha@Example.com"
                   (Sample.now + Spec.days 10))
                Sample.now "m2" Sample.emptyDb (Sample.now + Spec.days 10))
      as (m & Hrun & _ & Hsoon & _); [reflexivity | reflexivity | reflexivity |].
    exists m. split; [exact Hrun | apply Hsoon; reflexivity].
  - destruct (Hput "m1" (Sample.renewal (Sample.now - Spec.days 1)) Sample.now
                Sample.archivedDb Sample.archived (Sample.now - Spec.days 1))
      as (db' & m & Hrun & Hstored & _ & _ & Hinactive);
      [reflexivity | discriminate | reflexivity | exact I | reflexivity |].
    exists db', m. split; [exact Hrun|]. split; [exact Hstored|].
    apply Hinactive; reflexivity.
Defined.

(** C2 as stated fails: a PUT that moves the expiry date of an ARCHIVED
    member ninety days ahead answers with a member that is ACTIVE. *)
Lemma archived_status_overridden_by_expiry_update :
  ~ (forall (isEmail : string -> bool) (normalizeEmail : string -> string)
       (id : string) (b : MembersRoute.Body) (now : Z) (db db' : Db)
       (m m' : Member.t) (d : Z),
        MembersRoute.findUnique id db = Some m ->
        Member.status m = "ARCHIVED" ->
        MembersRoute.expiryDate b = Some d ->
        MembersRoute.putMember isEmail normalizeEmail id b now db = (db', Ok m') ->
        Member.status m' = "ARCHIVED").
Proof.
  intros H.
  pose proof (H Sample.isEmail Sample.normalizeEmail "m1"
                (Sample.renewal (Sample.now + Spec.days 90)) Sample.now
                Sample.archivedDb _ Sample.archived _ (Sample.now + Spec.days 90)
                eq_refl eq_refl eq_refl eq_refl) as Hstatus.
  discriminate Hstatus.
Qed.

Lemma archived_status_under_update_witness :
  exists db' m,
    MembersRoute.putMember Sample.isEmail Sample.normalizeEmail "m1"
      (Sample.renewal (Sample.now + Spec.days 90)) Sample.now Sample.archivedDb
    = (db', Ok m)
    /\ MembersRoute.findUnique "m1" db' = Some m
    /\ Member.status m <> "ARCHIVED".
Proof.
  destruct (archived_status_under_update Sample.isEmail Sample.normalizeEmail
              "m1" (Sample.renewal (Sample.now + Spec.days 90)) Sample.now
              Sample.archivedDb Sample.archived)
    as (db' & m & Hrun & Hstored & _ & Hnot);
    [reflexivity | discriminate | reflexivity | reflexivity | exact I |].
  exists db', m. auto.
Defined.

Lemma duplicate_email_one_created_one_conflict_witness :
  exists m,
    MembersRoute.postMember Sample.isEmail Sample.normalizeEmail
      (Sample.registration "Asha@Example.com" (Sample.now + Spec.days 60))
      Sample.now "m2" Sample.archivedDb
    = (MembersRoute.create m Sample.archivedDb, Ok m)
    /\ MembersRoute.postMember Sample.isEmail Sample.normalizeEmail
         (Sample.registration "asha@example.COM" (Sample.now + Spec.days 90))
         (Sample.now + 1) "m3" (MembersRoute.create m Sample.archivedDb)
       = (MembersRoute.create m Sample.archivedDb,
          Threw (ConflictError "Member with this email already exists")).
Proof.
  destruct (duplicate_email_one_created_one_conflict
              Sample.isEmail Sample.normalizeEmail
              (Sample.registration "Asha@Example.com" (Sample.now + Spec.days 60))
              (Sample.registration "asha@example.COM" (Sample.now + Spec.days 90))
              "Asha@Example.com" "asha@example.COM"
              Sample.now (Sample.now + 1) "m2" "m3" Sample.archivedDb)
    as (db1 & r1 & Hfirst & Hsecond & Hcase);
    [reflexivity | reflexivity | reflexivity | reflexivity | reflexivity |].
  change (MembersRoute.findUniqueByEmail
            (Sample.normalizeEmail "Asha@Example.com") Sample.archivedDb)
    with (@None Member.t) in Hcase.
  destruct Hcase as (m & -> & -> & _).
  exists m. split; [exact Hfirst | exact Hsecond].
Defined.

(** C8. DELETE /members/:id on an existing member answers with success,
    writes ARCHIVED into its status and leaves every other field, every other
    member and the other tables as they were; the table keeps its length and
    GET /members/:id still finds the member afterwards. *)
Theorem delete_archives_and_keeps_member (id : string) (db : Db) (m : Member.t) :
  id <> EmptyString ->
  MembersRoute.findUnique id db = Some m ->
  exists db' m',
    MembersRoute.deleteMember id db = (db', Ok "Member archived successfully")
    /\ MembersRoute.findUnique id db' = Some m'
    /\ MembersRoute.getMember id db' = (db', Ok m')
    /\ m' = {| Member.id := Member.id m;
               Member.name := Member.name m;
               Member.age := Member.age m;
               Member.gender := Member.gender m;
               Member.email := Member.email m;
               Member.phone := Member.phone m;
               Member.membershipType := Member.membershipType m;
               Member.expiryDate := Member.expiryDate m;
               Member.status := "ARCHIVED";
               Member.profilePicture := Member.profilePicture m;
               Member.joinDate := Member.joinDate m |}
    /\ length (members db') = length (members db)
    /\ (forall id', id' <> id ->
          MembersRoute.findUnique id' db' = MembersRoute.findUnique id' db)
    /\ payments db' = payments db
    /\ checkIns db' = checkIns db.
Proof.
  intros Hid Hfind.
  exists (MembersRoute.update id MembersRoute.archiveData db),
         (MembersRoute.applyUpdate MembersRoute.archiveData m).
  assert (Hstored := findUnique_update id MembersRoute.archiveData db m Hfind).
  split.
  { unfold MembersRoute.deleteMember. run_handler.
    rewrite (eqb_empty_false id Hid), Hfind. reflexivity. }
  split; [exact Hstored|].
  split.
  { unfold MembersRoute.getMember. run_handler.
    rewrite (eqb_empty_false id Hid), Hstored. reflexivity. }
  split.
  { destruct m as [? ? ? ? ? ? ? ? ? [p|] ?]; reflexivity. }
  split; [apply length_updateUnique|].
  split; [intros id' Hne; apply findUnique_update_other; exact Hne|].
  split; reflexivity.
Qed.

Lemma delete_archives_and_keeps_member_witness :
  exists db' m',
    MembersRoute.deleteMember "m7"
      {| members := [Sample.archived; Sample.member "m7" "ACTIVE" "9822222222"];
         payments := []; checkIns := [] |}
    = (db', Ok "Member archived successfully")
    /\ MembersRoute.findUnique "m7" db' = Some m'
    /\ Member.status m' = "ARCHIVED"
    /\ Member.phone m' = "9822222222".
Proof.
  destruct (delete_archives_and_keeps_member "m7"
              {| members := [Sample.archived;
                             Sample.member "m7" "ACTIVE" "9822222222"];
                 payments := []; checkIns := [] |}
              (Sample.member "m7" "ACTIVE" "9822222222"))
    as (db' & m' & Hrun & Hstored & _ & Hfields & _);
    [discriminate | reflexivity |].
  exists db', m'. split; [exact Hrun|]. split; [exact Hstored|].
  rewrite Hfields. split; reflexivity.
Defined.

(** C10. GET /members with [membershipType=SIX_MONTH] is rejected with a
    BadRequest whatever the other parameters are (with the others absent the
    message is that of the failed chain), because the list the chain accepts
    has [ SIX_MONTH] with a leading space; the chains of POST and PUT accept
    [SIX_MONTH]. *)
Theorem six_month_query_rejected
    (orderBy : string -> string -> list Member.t -> list Member.t)
    (page limit search status sortBy sortOrder : option string) (db : Db) :
  (exists msg,
      MembersRoute.getMembers orderBy
        {| MembersRoute.page := page; MembersRoute.limit := limit;
           MembersRoute.search := search; MembersRoute.q_status := status;
           MembersRoute.q_membershipType := Some "SIX_MONTH";
           MembersRoute.sortBy := sortBy; MembersRoute.sortOrder := sortOrder |}
        db
      = (db, Threw (BadRequestError msg)))
  /\ MembersRoute.getMembers orderBy
       {| MembersRoute.page := None; MembersRoute.limit := None;
          MembersRoute.search := None; MembersRoute.q_status := None;
          MembersRoute.q_membershipType := Some "SIX_MONTH";
          MembersRoute.sortBy := None; MembersRoute.sortOrder := None |} db
     = (db, Threw (BadRequestError "Invalid value"))
  /\ Validator.isIn MembersRoute.queryMembershipTypes "SIX_MONTH" = false
  /\ Validator.isIn MembersRoute.queryMembershipTypes " SIX_MONTH" = true
  /\ Validator.isIn MembersRoute.membershipTypes "SIX_MONTH" = true
  /\ MembersRoute.validateMember Sample.isEmail
       (Sample.registration "asha@example.com" Sample.now) = []
  /\ MembersRoute.validateMemberUpdate Sample.isEmail
       (Sample.registration "asha@example.com" Sample.now) = [].
Proof.
  split; [|repeat split; reflexivity].
  unfold MembersRoute.getMembers.
  destruct (MembersRoute.validateQuery _) as [|e errors] eqn:Herrors.
  - exfalso. unfold MembersRoute.validateQuery in Herrors. simpl in Herrors.
    repeat (apply app_eq_nil in Herrors; destruct Herrors as [_ Herrors]).
    discriminate Herrors.
  - run_handler. eexists. reflexivity.
Qed.

(** ** Payments: the paid timestamp *)

Lemma findUnique_payment_update (id : string) (data : PaymentsRoute.Body)
    (db : Db) (p : Payment.t) :
  PaymentsRoute.findUnique id db = Some p ->
  PaymentsRoute.findUnique id (PaymentsRoute.update id data db)
  = Some (PaymentsRoute.applyUpdate data p).
Proof.
  unfold PaymentsRoute.findUnique, PaymentsRoute.update. simpl.
  apply (find_updateUnique Payment.id (PaymentsRoute.applyUpdate data) id).
  reflexivity.
Qed.












(** C6. PATCH /payments/:id/mark-paid on a payment whose status is PAID
    throws a BadRequest and leaves the store, and so the payment and its paid
    timestamp, as it was. *)
Theorem mark_paid_twice_rejected (id : string) (b : PaymentsRoute.Body)
    (now : Z) (db : Db) (p : Payment.t) :
  PaymentsRoute.findUnique id db = Some p ->
  Payment.status p = "PAID" ->
  PaymentsRoute.markPaid id b now db
  = (db,
     Threw (BadRequestError
              (if String.eqb id EmptyString then "Payment ID is required"
               else "Payment is already marked as paid")))
  /\ PaymentsRoute.findUnique id (fst (PaymentsRoute.markPaid id b now db))
     = Some p.
Proof.
  intros Hfind Hpaid.
  assert (Hrun :
    PaymentsRoute.markPaid id b now db
    = (db,
       Threw (BadRequestError
                (if String.eqb id EmptyString then "Payment ID is required"
                 else "Payment is already marked as paid")))).
  { unfold PaymentsRoute.markPaid. run_handler.
    destruct (String.eqb id EmptyString); [reflexivity|].
    rewrite Hfind, Hpaid. reflexivity. }
  split; [exact Hrun|]. rewrite Hrun. exact Hfind.
Qed.

Lemma mark_paid_twice_rejected_witness :
  PaymentsRoute.markPaid "p1" Sample.noPaymentFields Sample.now Sample.paymentsDb
  = (Sample.paymentsDb,
     Threw (BadRequestError "Payment is already marked as paid")).
Proof.
  apply (mark_paid_twice_rejected "p1" Sample.noPaymentFields Sample.now
           Sample.paymentsDb Sample.paidPayment); reflexivity.
Defined.

(** ** Dashboard: the monthly statistics *)

Lemma In_insertMonth (m k : Z) (months : list Z) :
  In k (DashboardRoute.insertMonth m months) <-> k = m \/ In k months.
Proof.
  induction months as [|x rest IH]; simpl.
  - intuition.
  - destruct (Z.ltb_spec m x); simpl; [intuition|].
    destruct (Z.eqb_spec m x); simpl.
    + subst. intuition.
    + rewrite IH. intuition.
Qed.

Lemma In_distinctSorted (k : Z) (months : list Z) :
  In k (DashboardRoute.distinctSorted months) <-> In k months.
Proof.
  unfold DashboardRoute.distinctSorted.
  induction months as [|m rest IH]; simpl; [reflexivity|].
  rewrite In_insertMonth, IH. intuition.
Qed.

Lemma find_eqb_In (k : Z) (months : list Z) :
  find (fun m => m =? k) months = if in_dec Z.eq_dec k months then Some k else None.
Proof.
  induction months as [|m rest IH]; simpl; [reflexivity|].
  destruct (Z.eqb_spec m k) as [->|Hne].
  - destruct (Z.eq_dec k k); [reflexivity | contradiction].
  - rewrite IH. destruct (Z.eq_dec m k); [contradiction|].
    destruct (in_dec Z.eq_dec k rest); reflexivity.
Qed.

Lemma find_map {A B : Type} (p : B -> bool) (g : A -> B) (xs : list A) :
  find p (map g xs) = option_map g (find (fun x => p (g x)) xs).
Proof.
  induction xs as [|x xs IH]; simpl; [reflexivity|].
  destruct (p (g x)); [reflexivity | exact IH].
Qed.

Section DashboardProperties.

Variable extractYear : Z -> Z.
Variable extractMonth : Z -> Z.

Let groupByMonth {A : Type} := @DashboardRoute.groupByMonth extractMonth A.

(** The row of month [k] in the answer of a monthly query, if any. *)
Lemma findMonth_groupByMonth {A : Type} (date : A -> Z) (alias : string)
    (aggregate : list A -> Z) (rows : list A) (k : Z) :
  DashboardRoute.findMonth k (groupByMonth date alias aggregate rows)
  = if in_dec Z.eq_dec k (map (fun r => extractMonth (date r)) rows)
    then Some [("month", k);
               (DashboardRoute.sqlAlias alias,
                aggregate (filter (fun r => extractMonth (date r) =? k) rows))]
    else None.
Proof.
  unfold DashboardRoute.findMonth, groupByMonth, DashboardRoute.groupByMonth.
  rewrite find_map. simpl.
  rewrite find_eqb_In.
  destruct (in_dec Z.eq_dec k (DashboardRoute.distinctSorted _)) as [Hin|Hout];
    destruct (in_dec Z.eq_dec k (map _ rows)) as [Hin'|Hout'];
    try reflexivity; exfalso.
  - apply Hout'. apply In_distinctSorted. exact Hin.
  - apply Hout. apply In_distinctSorted. exact Hin'.
Qed.

Lemma filter_month_absent {A : Type} (date : A -> Z) (rows : list A) (k : Z) :
  ~ In k (map (fun r => extractMonth (date r)) rows) ->
  filter (fun r => extractMonth (date r) =? k) rows = [].
Proof.
  induction rows as [|r rows IH]; simpl; [reflexivity|].
  intros Hout. destruct (Z.eqb_spec (extractMonth (date r)) k) as [E|_].
  - exfalso. apply Hout. left. exact E.
  - apply IH. intros Hin. apply Hout. right. exact Hin.
Qed.

(** Every row falls in exactly one of the twelve months. *)
Lemma months_partition {A : Type} (date : A -> Z) (rows : list A) :
  Forall (fun r => 1 <= extractMonth (date r) <= 12) rows ->
  fold_right Z.add 0
    (map (fun k =>
            DashboardRoute.countRows
              (filter (fun r => extractMonth (date r) =? k) rows))
         [1; 2; 3; 4; 5; 6; 7; 8; 9; 10; 11; 12])
  = DashboardRoute.countRows rows.
Proof.
  unfold DashboardRoute.countRows.
  induction 1 as [|r rows Hr _ IH]; [reflexivity|].
  cbn [map fold_right filter] in *.
  assert (Hcase : extractMonth (date r) = 1 \/ extractMonth (date r) = 2
                  \/ extractMonth (date r) = 3 \/ extractMonth (date r) = 4
                  \/ extractMonth (date r) = 5 \/ extractMonth (date r) = 6
                  \/ extractMonth (date r) = 7 \/ extractMonth (date r) = 8
                  \/ extractMonth (date r) = 9 \/ extractMonth (date r) = 10
                  \/ extractMonth (date r) = 11 \/ extractMonth (date r) = 12)
    by lia.
  repeat (destruct Hcase as [Hcase|Hcase]);
    rewrite Hcase; cbn [Z.eqb Pos.eqb length];
    rewrite !Nat2Z.inj_succ; lia.
Qed.

(** The measures of month [k], read off the answers of the three queries. *)
Lemma newMembers_of_month {A : Type} (date : A -> Z) (rows : list A) (k : Z) :
  match DashboardRoute.findMonth k
          (groupByMonth date "newMembers" DashboardRoute.countRows rows) with
  | Some monthData => Js.toNumber (DashboardRoute.column "newmembers" monthData)
  | None => Js.Num 0
  end
  = Js.Num (DashboardRoute.countRows (Spec.inMonth extractMonth date k rows)).
Proof.
  rewrite findMonth_groupByMonth. unfold Spec.inMonth.
  destruct (in_dec Z.eq_dec k _) as [_|Hout].
  - reflexivity.
  - rewrite (filter_month_absent date rows k Hout). reflexivity.
Qed.

Lemma revenue_of_month {A : Type} (date : A -> Z) (aggregate : list A -> Z)
    (rows : list A) (k : Z) :
  aggregate [] = 0 ->
  match DashboardRoute.findMonth k (groupByMonth date "revenue" aggregate rows) with
  | Some revenueData => Js.toNumber (DashboardRoute.column "revenue" revenueData)
  | None => Js.Num 0
  end
  = Js.Num (aggregate (Spec.inMonth extractMonth date k rows)).
Proof.
  intros Hzero. rewrite findMonth_groupByMonth. unfold Spec.inMonth.
  destruct (in_dec Z.eq_dec k _) as [_|Hout].
  - reflexivity.
  - rewrite (filter_month_absent date rows k Hout), Hzero. reflexivity.
Qed.

Lemma checkIns_of_month {A : Type} (date : A -> Z) (rows : list A) (k : Z) :
  match DashboardRoute.findMonth k
          (groupByMonth date "checkIns" DashboardRoute.countRows rows) with
  | Some checkInData => Js.toNumber (DashboardRoute.column "checkIns" checkInData)
  | None => Js.Num 0
  end
  = match Spec.inMonth extractMonth date k rows with
    | [] => Js.Num 0
    | _ :: _ => Js.NaN
    end.
Proof.
  rewrite findMonth_groupByMonth. unfold Spec.inMonth.
  destruct (in_dec Z.eq_dec k _) as [Hin|Hout].
  - apply in_map_iff in Hin. destruct Hin as (r & Hr & Hin).
    assert (Hmatch : In r (filter (fun r => extractMonth (date r) =? k) rows)).
    { apply filter_In. split; [exact Hin|]. apply Z.eqb_eq. exact Hr. }
    destruct (filter _ rows); [contradiction | reflexivity].
  - rewrite (filter_month_absent date rows k Hout). reflexivity.
Qed.

Let joined (year : Z) (db : Db) : list Member.t :=
  filter (DashboardRoute.joinedIn extractYear year) (members db).
Let paid (year : Z) (db : Db) : list Payment.t :=
  filter (DashboardRoute.paidIn extractYear year) (payments db).
Let visits (year : Z) (db : Db) : list CheckIn.t :=
  filter (DashboardRoute.checkedInIn extractYear year) (checkIns db).

(** The buckets, month by month. *)
Lemma monthlyStats_measures (year : Z) (db : Db) :
  map Spec.measures (Spec.monthlyStats extractYear extractMonth year db)
  = map (fun k =>
           (k,
            Js.Num (DashboardRoute.countRows
                      (Spec.inMonth extractMonth Member.joinDate k
                         (joined year db))),
            Js.Num (DashboardRoute.sumAmount
                      (Spec.inMonth extractMonth
                         (fun p => field 0 (Payment.paidAt p)) k
                         (paid year db))),
            match Spec.inMonth extractMonth CheckIn.checkInAt k
                    (visits year db) with
            | [] => Js.Num 0
            | _ :: _ => Js.NaN
            end))
      Spec.monthNumbers.
Proof.
  unfold Spec.monthlyStats, DashboardRoute.monthlyStatsQuery,
    DashboardRoute.monthlyRevenueQuery, DashboardRoute.monthlyCheckInsQuery.
  fold (joined year db) (paid year db) (visits year db).
  fold (@groupByMonth Member.t) (@groupByMonth Payment.t)
    (@groupByMonth CheckIn.t).
  set (q1 := groupByMonth Member.joinDate _ _ _).
  set (q2 := groupByMonth (fun p => field 0 (Payment.paidAt p)) _ _ _).
  set (q3 := groupByMonth CheckIn.checkInAt _ _ _).
  change (map Spec.measures (DashboardRoute.formattedStats year q1 q2 q3))
    with (map (fun k =>
                 (k,
                  match DashboardRoute.findMonth k q1 with
                  | Some d => Js.toNumber (DashboardRoute.column "newmembers" d)
                  | None => Js.Num 0
                  end,
                  match DashboardRoute.findMonth k q2 with
                  | Some d => Js.toNumber (DashboardRoute.column "revenue" d)
                  | None => Js.Num 0
                  end,
                  match DashboardRoute.findMonth k q3 with
                  | Some d => Js.toNumber (DashboardRoute.column "checkIns" d)
                  | None => Js.Num 0
                  end))
            Spec.monthNumbers).
  apply map_ext. intros k. subst q1 q2 q3.
  rewrite newMembers_of_month, checkIns_of_month.
  rewrite (revenue_of_month _ DashboardRoute.sumAmount); reflexivity.
Qed.

Lemma sum_of_counts (count : Z -> Z) :
  Js.sum (map (fun k => Js.Num (count k)) Spec.monthNumbers)
  = Js.Num (fold_right Z.add 0 (map count Spec.monthNumbers)).
Proof.
  unfold Js.sum, Spec.monthNumbers. cbn [map fold_left fold_right Js.add].
  f_equal. lia.
Qed.

(** C9. For every year and every store, the monthly statistics are twelve
    buckets, January to December in this order and numbered 1 to 12, each
    carrying the year; a bucket reports zero new members, zero revenue and
    zero check-ins when no row of the year falls in its month, so that an
    empty store gives twelve zero-filled buckets; and the new-member counts
    of the buckets add up to the number of members who joined in the year.
    GET /dashboard/monthly-stats answers with these buckets for the year it
    accepts or, without one, for the current year. *)
Theorem monthly_stats_twelve_ordered_buckets (year : Z) (db : Db) :
  let stats := Spec.monthlyStats extractYear extractMonth year db in
  length stats = 12%nat
  /\ map DashboardRoute.Bucket.month stats = DashboardRoute.monthNames
  /\ map DashboardRoute.Bucket.monthNumber stats = Spec.monthNumbers
  /\ Forall (fun b => DashboardRoute.Bucket.year b = year) stats
  /\ (forall b, In b stats ->
        (Spec.inMonth extractMonth Member.joinDate
           (DashboardRoute.Bucket.monthNumber b) (joined year db) = [] ->
         DashboardRoute.Bucket.newMembers b = Js.Num 0)
        /\ (Spec.inMonth extractMonth (fun p => field 0 (Payment.paidAt p))
              (DashboardRoute.Bucket.monthNumber b) (paid year db) = [] ->
            DashboardRoute.Bucket.revenue b = Js.Num 0)
        /\ (Spec.inMonth extractMonth CheckIn.checkInAt
              (DashboardRoute.Bucket.monthNumber b) (visits year db) = [] ->
            DashboardRoute.Bucket.checkIns b = Js.Num 0))
  /\ (members db = [] -> payments db = [] -> checkIns db = [] ->
      stats = map (fun entry => Spec.zeroBucket year (fst entry) (snd entry))
                (combine DashboardRoute.monthNames Spec.monthNumbers))
  /\ (Forall (fun m => 1 <= extractMonth (Member.joinDate m) <= 12)
        (joined year db) ->
      Js.sum (map DashboardRoute.Bucket.newMembers stats)
      = Js.Num (DashboardRoute.countRows (joined year db)))
  /\ (forall (q : option string) (currentYear : Z),
        DashboardRoute.validateYear q = [] ->
        DashboardRoute.getMonthlyStats extractYear extractMonth q currentYear db
        = (db,
           Ok (Spec.monthlyStats extractYear extractMonth
                 (DashboardRoute.requestedYear q currentYear) db))).
Proof.
  intros stats.
  pose proof (monthlyStats_measures year db) as Hmeasures. fold stats in Hmeasures.
  split; [reflexivity|]. split; [reflexivity|]. split; [reflexivity|].
  split; [repeat constructor|].
  split.
  { intros b Hin.
    apply (in_map Spec.measures) in Hin. rewrite Hmeasures in Hin.
    apply in_map_iff in Hin. destruct Hin as (k & Hk & _).
    unfold Spec.measures in Hk. injection Hk as Hnumber Hnew Hrevenue Hvisits.
    rewrite <- Hnumber, <- Hnew, <- Hrevenue, <- Hvisits.
    repeat split; intros ->; reflexivity. }
  split.
  { intros Hmembers Hpayments Hvisits.
    unfold stats, Spec.monthlyStats, DashboardRoute.monthlyStatsQuery,
      DashboardRoute.monthlyRevenueQuery, DashboardRoute.monthlyCheckInsQuery.
    rewrite Hmembers, Hpayments, Hvisits. reflexivity. }
  split.
  { intros Hrange.
    assert (Hnew :
      map DashboardRoute.Bucket.newMembers stats
      = map (fun k =>
               Js.Num (DashboardRoute.countRows
                         (Spec.inMonth extractMonth Member.joinDate k
                            (joined year db))))
          Spec.monthNumbers).
    { change (map DashboardRoute.Bucket.newMembers stats)
        with (map (fun t : Z * Js.Number * Js.Number * Js.Number =>
                     snd (fst (fst t)))
                (map Spec.measures stats)).
      rewrite Hmeasures, map_map. reflexivity. }
    rewrite Hnew.
    rewrite (sum_of_counts
               (fun k => DashboardRoute.countRows
                           (Spec.inMonth extractMonth Member.joinDate k
                              (joined year db)))).
    f_equal. apply months_partition. exact Hrange. }
  intros q currentYear Hvalid.
  unfold DashboardRoute.getMonthlyStats. rewrite Hvalid. reflexivity.
Qed.

End DashboardProperties.

Lemma monthly_stats_twelve_ordered_buckets_witness :
  Js.sum
    (map DashboardRoute.Bucket.newMembers
       (Spec.monthlyStats Sample.extractYear Sample.extractMonth 2024
          Sample.joinsDb))
  = Js.Num 3
  /\ DashboardRoute.getMonthlyStats Sample.extractYear Sample.extractMonth
       (Some "2024") 2026 Sample.emptyDb
     = (Sample.emptyDb,
        Ok (map (fun entry => Spec.zeroBucket 2024 (fst entry) (snd entry))
              (combine DashboardRoute.monthNames Spec.monthNumbers))).
Proof.
  destruct (monthly_stats_twelve_ordered_buckets
              Sample.extractYear Sample.extractMonth 2024 Sample.joinsDb)
    as (_ & _ & _ & _ & _ & _ & Hsum & _).
  destruct (monthly_stats_twelve_ordered_buckets
              Sample.extractYear Sample.extractMonth 2024 Sample.emptyDb)
    as (_ & _ & _ & _ & _ & Hzero & _ & Hrun).
  split.
  - rewrite Hsum; [reflexivity|].
    repeat constructor; vm_compute; discriminate.
  - rewrite (Hrun (Some "2024") 2026 eq_refl).
    rewrite <- (Hzero eq_refl eq_refl eq_refl). reflexivity.
Defined.

(** ** Strings *)

Lemma startsWith_spec (s sub : string) :
  Js.startsWith s sub = true <-> exists after, s = String.append sub after.
Proof.
  revert s. induction sub as [|a sub IH]; intros s.
  - split; [intros _; exists s; reflexivity | intros _; destruct s; reflexivity].
  - destruct s as [|b s]; simpl.
    + split; [discriminate | intros [after H]; discriminate].
    + rewrite andb_true_iff, IH. split.
      * intros [Hab [after ->]]. apply Ascii.eqb_eq in Hab. subst b.
        exists after. reflexivity.
      * intros [after [= -> ->]]. split; [apply Ascii.eqb_refl|].
        exists after. reflexivity.
Qed.

Lemma includes_spec (s sub : string) :
  Js.includes s sub = true <-> Spec.substring sub s.
Proof.
  unfold Spec.substring. induction s as [|c s IH].
  - cbn [Js.includes]. rewrite orb_false_r, startsWith_spec. split.
    + intros [after H]. exists EmptyString, after. exact H.
    + intros (before & after & H). destruct before; [|discriminate].
      exists after. exact H.
  - cbn [Js.includes]. rewrite orb_true_iff, startsWith_spec, IH. split.
    + intros [[after H] | (before & after & H)].
      * exists EmptyString, after. exact H.
      * exists (String c before), after. simpl. rewrite H. reflexivity.
    + intros (before & after & H). destruct before as [|b before].
      * left. exists after. exact H.
      * right. simpl in H. injection H as _ H. exists before, after. exact H.
Qed.

Lemma includes_empty (s : string) : Js.includes s EmptyString = true.
Proof. destruct s; reflexivity. Qed.








(** ** The filters *)

Lemma matchesStatus_spec (statusFilter status : string) :
  (if String.eqb statusFilter "all" then negb (String.eqb status "ARCHIVED")
   else if String.eqb statusFilter "active" then String.eqb status "ACTIVE"
   else if String.eqb statusFilter "inactive" then String.eqb status "INACTIVE"
   else if String.eqb statusFilter "expiring"
        then String.eqb status "EXPIRING_SOON"
   else if String.eqb statusFilter "archived" then String.eqb status "ARCHIVED"
   else true) = true
  <-> (statusFilter = "all" /\ status <> "ARCHIVED")
      \/ (statusFilter = "active" /\ status = "ACTIVE")
      \/ (statusFilter = "inactive" /\ status = "INACTIVE")
      \/ (statusFilter = "expiring" /\ status = "EXPIRING_SOON")
      \/ (statusFilter = "archived" /\ status = "ARCHIVED")
      \/ ~ In statusFilter ["all"; "active"; "inactive"; "expiring"; "archived"].
Proof.
  destruct (String.eqb_spec statusFilter "all") as [->|Hall].
  { rewrite negb_true_iff, String.eqb_neq. split.
    - intros Hne. left. split; [reflexivity | exact Hne].
    - intros [[_ H] | [[H _] | [[H _] | [[H _] | [[H _] | H]]]]];
        try discriminate H; try exact H.
      elim H. left. reflexivity. }
  destruct (String.eqb_spec statusFilter "active") as [->|Hactive].
  { rewrite String.eqb_eq. split.
    - intros ->. right. left. split; reflexivity.
    - intros [[H _] | [[_ H] | [[H _] | [[H _] | [[H _] | H]]]]];
        try discriminate H; try exact H.
      elim H. right. left. reflexivity. }
  destruct (String.eqb_spec statusFilter "inactive") as [->|Hinactive].
  { rewrite String.eqb_eq. split.
    - intros ->. right. right. left. split; reflexivity.
    - intros [[H _] | [[H _] | [[_ H] | [[H _] | [[H _] | H]]]]];
        try discriminate H; try exact H.
      elim H. right. right. left. reflexivity. }
  destruct (String.eqb_spec statusFilter "expiring") as [->|Hexpiring].
  { rewrite String.eqb_eq. split.
    - intros ->. right. right. right. left. split; reflexivity.
    - intros [[H _] | [[H _] | [[H _] | [[_ H] | [[H _] | H]]]]];
        try discriminate H; try exact H.
      elim H. right. right. right. left. reflexivity. }
  destruct (String.eqb_spec statusFilter "archived") as [->|Harchived].
  { rewrite String.eqb_eq. split.
    - intros ->. right. right. right. right. left. split; reflexivity.
    - intros [[H _] | [[H _] | [[H _] | [[H _] | [[_ H] | H]]]]];
        try discriminate H; try exact H.
      elim H. right. right. right. right. left. reflexivity. }
  split; [|reflexivity].
  intros _. do 5 right. simpl.
  intros [H | [H | [H | [H | [H | []]]]]]; congruence.
Qed.

(** C4 as stated fails: a search for [abc] does not find the member whose
    phone number holds [ABC], although [abc] is a case-insensitive substring
    of the phone number. *)
Lemma phone_search_is_case_sensitive :
  ~ (forall (search statusSelector typeSelector : string) (m : Member.t),
        MemberManagement.matches search statusSelector typeSelector m = true
        <-> Spec.filterPredicate search statusSelector typeSelector m).
Proof.
  intros H.
  destruct (H "abc" "all" "all" (Sample.member "m9" "ACTIVE" "98-ABC-1111"))
    as [_ Hback].
  assert (Hspec :
    Spec.filterPredicate "abc" "all" "all"
      (Sample.member "m9" "ACTIVE" "98-ABC-1111")).
  { split; [|split].
    - right. right. right. exists "98-", "-1111". reflexivity.
    - left. split; [reflexivity | discriminate].
    - left. reflexivity. }
  apply Hback in Hspec. discriminate Hspec.
Qed.

(** C4, as the page has it.  The test of [filteredMembers] holds iff the
    search string occurs in the name or the e-mail when case is ignored or
    occurs in the phone number as it is written (an empty search string
    occurs everywhere), and the status selector is [all] and the member is
    not ARCHIVED, or is [active], [inactive], [expiring] or [archived] and
    the member has the status it stands for, or is none of these five, and
    the membership-type selector is [all] or the member's type. *)
Theorem filter_predicate_of_page (search statusSelector typeSelector : string)
    (m : Member.t) :
  (MemberManagement.matches search statusSelector typeSelector m = true
   <-> Spec.filterPredicateOfPage search statusSelector typeSelector m)
  /\ (search = EmptyString ->
      Spec.substringInsensitive search (Member.name m)
      /\ Spec.substring search (Member.phone m)).
Proof.
  split.
  - unfold MemberManagement.matches, Spec.filterPredicateOfPage,
      Spec.substringInsensitive.
    cbv zeta. rewrite !andb_true_iff, !orb_true_iff, !includes_spec.
    rewrite matchesStatus_spec, !String.eqb_eq.
    split.
    + intros [[[[Hname | Hemail] | Hphone] Hstatus] Htype].
      all: split; [auto | split; [exact Hstatus|]].
      all: destruct Htype as [Htype | Htype]; auto.
    + intros [Hsearch [Hstatus Htype]].
      split; [split; [|exact Hstatus]|].
      * destruct Hsearch as [Hname | [Hemail | Hphone]]; auto.
      * destruct Htype as [Htype | Htype]; auto.
  - intros ->. split.
    + exists EmptyString, (Js.toLowerCase (Member.name m)). reflexivity.
    + exists EmptyString, (Member.phone m). reflexivity.
Qed.








Lemma filter_predicate_of_page_witness :
  MemberManagement.matches "THAPA" "active" "all"
    (Sample.member "m4" "ACTIVE" "9844444444") = true
  /\ Spec.substring EmptyString
       (Member.phone (Sample.member "m4" "ACTIVE" "9844444444")).
Proof.
  destruct (filter_predicate_of_page "THAPA" "active" "all"
              (Sample.member "m4" "ACTIVE" "9844444444")) as [Hiff _].
  destruct (filter_predicate_of_page EmptyString "active" "all"
              (Sample.member "m4" "ACTIVE" "9844444444")) as [_ Hempty].
  split.
  - apply Hiff. split; [|split].
    + left. exists "bikash ", EmptyString. reflexivity.
    + right. left. split; reflexivity.
    + left. reflexivity.
  - apply Hempty. reflexivity.
Defined.

(** ** The embedding on sample requests *)

Example trim_sample :
  Js.trim "  Asha Rai  " = "Asha Rai" /\ Js.trim "   " = EmptyString.
Proof. split; reflexivity. Qed.

Example intValue_sample :
  Validator.intValue "25" = Some 25
  /\ Validator.intValue "-3" = Some (-3)
  /\ Validator.intValue "007" = None
  /\ Validator.intValue "2e3" = None.
Proof. repeat split; reflexivity. Qed.

Example getMembers_sample :
  MembersRoute.getMembers Sample.orderBy
    {| MembersRoute.page := Some "1"; MembersRoute.limit := Some "5";
       MembersRoute.search := Some " BIKASH ";
       MembersRoute.q_status := Some "ARCHIVED";
       MembersRoute.q_membershipType := Some "ONE_YEAR";
       MembersRoute.sortBy := None; MembersRoute.sortOrder := None |}
    Sample.archivedDb
  = (Sample.archivedDb,
     Ok {| MembersRoute.l_members := [Sample.archived];
           MembersRoute.l_pagination :=
             {| MembersRoute.p_page := 1; MembersRoute.p_limit := 5;
                MembersRoute.p_total := 1; MembersRoute.p_pages := 1 |} |}).
Proof. reflexivity. Qed.

Example putPayment_overdue_sample :
  fst (PaymentsRoute.putPayment "p2"
         {| PaymentsRoute.memberId := None; PaymentsRoute.amount := None;
            PaymentsRoute.paymentType := None; PaymentsRoute.status := None;
            PaymentsRoute.dueDate := Some (Sample.now - Spec.days 1);
            PaymentsRoute.paidAt := None; PaymentsRoute.notes := None |}
         Sample.now Sample.paymentsDb)
  = {| members := [Sample.archived];
       payments :=
         [Sample.paidPayment;
          {| Payment.id := "p2"; Payment.memberId := "m1";
             Payment.amount := 50000; Payment.paymentType := "CLASS";
             Payment.status := "OVERDUE";
             Payment.dueDate := Sample.now - Spec.days 1;
             Payment.paidAt := None; Payment.notes := None |}];
       checkIns := [] |}.
Proof. reflexivity. Qed.

(** * Further properties of the routes and of the client *)

(** ** Validation and paging *)

Lemma isInt_bounds (lo hi : Z) (s : string) :
  Validator.isInt lo (Some hi) s = true ->
  exists z, Validator.intValue s = Some z /\ lo <= z <= hi.
Proof.
  unfold Validator.isInt. destruct (Validator.intValue s) as [z|]; [|discriminate].
  intros H. apply andb_true_iff in H. destruct H as [Hlo Hhi].
  exists z. split; [reflexivity | lia].
Qed.

Lemma isInt_lower (lo : Z) (s : string) :
  Validator.isInt lo None s = true ->
  exists z, Validator.intValue s = Some z /\ lo <= z.
Proof.
  unfold Validator.isInt. destruct (Validator.intValue s) as [z|]; [|discriminate].
  rewrite andb_true_r. intros H. exists z. split; [reflexivity | lia].
Qed.

(** A validated [limit], with its default, is between 1 and 100. *)
Lemma limit_bounds (limit : option string) (msg : string) :
  Validator.optional limit (Validator.isInt 1 (Some 100)) msg = [] ->
  1 <= MembersRoute.numberOr 10 limit <= 100.
Proof.
  rewrite optional_nil. destruct limit as [s|]; simpl; [|lia].
  intros H. apply isInt_bounds in H. destruct H as (z & -> & Hz). exact Hz.
Qed.

(** A validated [page], with its default, is at least 1. *)
Lemma page_bounds (page : option string) (msg : string) :
  Validator.optional page (Validator.isInt 1 None) msg = [] ->
  1 <= MembersRoute.numberOr 1 page.
Proof.
  rewrite optional_nil. destruct page as [s|]; simpl; [|lia].
  intros H. apply isInt_lower in H. destruct H as (z & -> & Hz). exact Hz.
Qed.

(** [Math.ceil(total / limit)] is the number of pages that hold [total]
    rows. *)
Lemma pages_bounds (total limit : Z) :
  0 <= total -> 1 <= limit ->
  ((total + limit - 1) / limit - 1) * limit < total
  <= (total + limit - 1) / limit * limit.
Proof.
  intros Htotal Hlimit.
  pose proof (Z.div_mod (total + limit - 1) limit ltac:(lia)) as Hdiv.
  pose proof (Z.mod_pos_bound (total + limit - 1) limit ltac:(lia)) as Hmod.
  nia.
Qed.

Lemma In_firstn {A : Type} (n : nat) (l : list A) (x : A) :
  In x (firstn n l) -> In x l.
Proof.
  intros H. rewrite <- (firstn_skipn n l). apply in_or_app. left. exact H.
Qed.

Lemma In_skipn {A : Type} (n : nat) (l : list A) (x : A) :
  In x (skipn n l) -> In x l.
Proof.
  intros H. rewrite <- (firstn_skipn n l). apply in_or_app. right. exact H.
Qed.

(** A page is a slice of the ordered rows: it is no longer than the limit,
    its rows are rows of the selection, and it is empty past the last row. *)
Lemma page_slice {A : Type} (order : list A -> list A) (selected : list A)
    (page limit : Z) :
  (forall l, length (order l) = length l) ->
  (forall l x, In x (order l) -> In x l) ->
  1 <= page -> 1 <= limit ->
  let rows :=
    firstn (Z.to_nat limit) (skipn (Z.to_nat ((page - 1) * limit)) (order selected))
  in
  Z.of_nat (length rows) <= limit
  /\ (forall x, In x rows -> In x selected)
  /\ (Z.of_nat (length selected) <= (page - 1) * limit -> rows = [])
  /\ (page * limit <= Z.of_nat (length selected) ->
      Z.of_nat (length rows) = limit).
Proof.
  intros Hlength Hin Hpage Hlimit rows.
  assert (Hrows :
    length rows
    = Nat.min (Z.to_nat limit)
        (length selected - Z.to_nat ((page - 1) * limit))).
  { unfold rows. rewrite length_firstn, length_skipn, Hlength. reflexivity. }
  split; [lia|]. split; [|split].
  - intros x Hx. apply (Hin selected).
    unfold rows in Hx. apply In_firstn in Hx.
    apply (In_skipn _ _ _ Hx).
  - intros Hpast. destruct rows as [|x rest]; [reflexivity|].
    simpl in Hrows. nia.
  - intros Hfull. nia.
Qed.

(** ** GET /members *)

Lemma validateQuery_nil (q : MembersRoute.Query) :
  MembersRoute.validateQuery q = [] ->
  1 <= MembersRoute.numberOr 1 (MembersRoute.page q)
  /\ 1 <= MembersRoute.numberOr 10 (MembersRoute.limit q) <= 100.
Proof.
  unfold MembersRoute.validateQuery. intros H.
  apply app_eq_nil in H. destruct H as [Hpage H].
  apply app_eq_nil in H. destruct H as [Hlimit _].
  split; [exact (page_bounds _ _ Hpage) | exact (limit_bounds _ _ Hlimit)].
Qed.

(** X1. A valid GET /members answers with a page of the members the where
    clause selects: the page and the limit are at least 1 and the limit at
    most 100 (1 and 10 when left out), [total] counts the selected members
    and [pages] is the number of pages that hold them, the members listed
    are selected members of the store, no more than the limit, exactly the
    limit on a page before the last row, and none on a page past it.  The
    store is not changed. *)
Theorem getMembers_page
    (orderBy : string -> string -> list Member.t -> list Member.t)
    (q : MembersRoute.Query) (db : Db) :
  (forall key order rows, length (orderBy key order rows) = length rows) ->
  (forall key order rows m, In m (orderBy key order rows) -> In m rows) ->
  MembersRoute.validateQuery q = [] ->
  exists listing,
    MembersRoute.getMembers orderBy q db = (db, Ok listing)
    /\ let whereClause :=
         MembersRoute.buildWhere (option_map Js.trim (MembersRoute.search q))
           (MembersRoute.q_status q) (MembersRoute.q_membershipType q) in
       let page := MembersRoute.p_page (MembersRoute.l_pagination listing) in
       let limit := MembersRoute.p_limit (MembersRoute.l_pagination listing) in
       let total := MembersRoute.p_total (MembersRoute.l_pagination listing) in
       let pages := MembersRoute.p_pages (MembersRoute.l_pagination listing) in
       let listed := MembersRoute.l_members listing in
       1 <= page /\ 1 <= limit <= 100
       /\ (MembersRoute.page q = None -> page = 1)
       /\ (MembersRoute.limit q = None -> limit = 10)
       /\ total
          = Z.of_nat
              (length (filter (MembersRoute.matchesWhere whereClause)
                         (members db)))
       /\ (pages - 1) * limit < total <= pages * limit
       /\ Z.of_nat (length listed) <= limit
       /\ (forall m, In m listed ->
             In m (members db)
             /\ MembersRoute.matchesWhere whereClause m = true)
       /\ (total <= (page - 1) * limit -> listed = [])
       /\ (page * limit <= total -> Z.of_nat (length listed) = limit).
Proof.
  intros Hlength Hin Hvalid.
  destruct (validateQuery_nil q Hvalid) as [Hpage Hlimit].
  unfold MembersRoute.getMembers. rewrite Hvalid. run_handler.
  eexists. split; [reflexivity|]. cbv zeta.
  cbn [MembersRoute.l_pagination MembersRoute.l_members MembersRoute.p_page
       MembersRoute.p_limit MembersRoute.p_total MembersRoute.p_pages].
  set (whereClause := MembersRoute.buildWhere _ _ _).
  set (selected := filter (MembersRoute.matchesWhere whereClause) (members db)).
  destruct (page_slice
              (orderBy (field "name" (MembersRoute.sortBy q))
                 (field "asc" (MembersRoute.sortOrder q)))
              selected
              (MembersRoute.numberOr 1 (MembersRoute.page q))
              (MembersRoute.numberOr 10 (MembersRoute.limit q)))
    as (Hshort & Hsub & Hpast & Hfull);
    [apply Hlength | apply Hin | exact Hpage | lia |].
  split; [exact Hpage|]. split; [exact Hlimit|].
  split; [intros ->; reflexivity|]. split; [intros ->; reflexivity|].
  split; [reflexivity|].
  split; [apply pages_bounds; lia|].
  split; [exact Hshort|].
  split; [|split; [exact Hpast | exact Hfull]].
  intros m Hm. apply Hsub in Hm. unfold selected in Hm.
  apply filter_In in Hm. exact Hm.
Qed.

Lemma getMembers_page_witness :
  exists listing,
    MembersRoute.getMembers Sample.orderBy
      {| MembersRoute.page := Some "2"; MembersRoute.limit := Some "1";
         MembersRoute.search := None; MembersRoute.q_status := None;
         MembersRoute.q_membershipType := Some "ONE_YEAR";
         MembersRoute.sortBy := None; MembersRoute.sortOrder := None |}
      {| members := [Sample.archived; Sample.member "m7" "ACTIVE" "9822222222"];
         payments := []; checkIns := [] |}
    = ({| members := [Sample.archived;
                      Sample.member "m7" "ACTIVE" "9822222222"];
          payments := []; checkIns := [] |}, Ok listing)
    /\ MembersRoute.p_pages (MembersRoute.l_pagination listing) = 2
    /\ Z.of_nat (length (MembersRoute.l_members listing)) = 1.
Proof.
  destruct (getMembers_page Sample.orderBy
              {| MembersRoute.page := Some "2"; MembersRoute.limit := Some "1";
                 MembersRoute.search := None; MembersRoute.q_status := None;
                 MembersRoute.q_membershipType := Some "ONE_YEAR";
                 MembersRoute.sortBy := None; MembersRoute.sortOrder := None |}
              {| members := [Sample.archived;
                             Sample.member "m7" "ACTIVE" "9822222222"];
                 payments := []; checkIns := [] |})
    as (listing & Hrun & Hfacts);
    [intros; reflexivity | intros key order rows m H; exact H | reflexivity |].
  exists listing. split; [exact Hrun|].
  injection Hrun as <-.
  split; reflexivity.
Defined.

(** ** What the members routes keep true of the store *)

Lemma required_nil (v : option string) (ok : string -> bool) (msg : string) :
  Validator.required v ok msg = [] <-> ok (field EmptyString v) = true.
Proof.
  unfold Validator.required. rewrite check_nil. destruct v; reflexivity.
Qed.

Lemma field_trim (v : option string) :
  field EmptyString (option_map Js.trim v) = Js.trim (field EmptyString v).
Proof. destruct v; reflexivity. Qed.

Lemma isLength_le (n : nat) (s : string) :
  Validator.isLength n s = true <-> (n <= String.length s)%nat.
Proof. unfold Validator.isLength. apply Nat.leb_le. Qed.

Lemma inRange_le (lo hi z : Z) :
  Validator.inRange lo hi z = true <-> lo <= z <= hi.
Proof. unfold Validator.inRange. rewrite andb_true_iff. lia. Qed.

Lemma map_updateUnique_kept {A B : Type} (g : A -> B) (key : A -> string)
    (f : A -> A) (id : string) (rows : list A) :
  (forall r, find (fun x => String.eqb (key x) id) rows = Some r ->
             g (f r) = g r) ->
  map g (updateUnique key id f rows) = map g rows.
Proof.
  induction rows as [|x rows IH]; simpl; [reflexivity|].
  destruct (String.eqb (key x) id); simpl; intros H.
  - rewrite (H x eq_refl). reflexivity.
  - rewrite (IH H). reflexivity.
Qed.

Lemma NoDup_snoc {A : Type} (l : list A) (x : A) :
  NoDup l -> ~ In x l -> NoDup (l ++ [x]).
Proof.
  induction 1 as [|y l Hy Hl IH]; simpl; intros Hx.
  - constructor; [intros [] | constructor].
  - constructor.
    + rewrite in_app_iff. simpl. intuition congruence.
    + apply IH. intuition.
Qed.

Lemma In_map_updateUnique {A B : Type} (g : A -> B) (key : A -> string)
    (f : A -> A) (id : string) (rows : list A) (b : B) :
  In b (map g (updateUnique key id f rows)) ->
  In b (map g rows) \/ exists r, In r rows /\ b = g (f r).
Proof.
  induction rows as [|x rows IH]; simpl; [intros []|].
  destruct (String.eqb (key x) id); simpl.
  - intros [<- | H]; [right; exists x; auto | left; auto].
  - intros [<- | H]; [left; auto|].
    destruct (IH H) as [H' | (r & Hr & ->)]; [left; auto|].
    right. exists r. auto.
Qed.

(** Rewriting a row so that a key of it takes a value no row has keeps the
    key free of duplicates. *)
Lemma NoDup_updateUnique_fresh {A B : Type} (g : A -> B) (key : A -> string)
    (f : A -> A) (id : string) (rows : list A) (b : B) :
  (forall r, g (f r) = b) ->
  ~ In b (map g rows) ->
  NoDup (map g rows) ->
  NoDup (map g (updateUnique key id f rows)).
Proof.
  intros Hb. induction rows as [|x rows IH]; simpl; intros Hfresh Hnodup;
    [constructor|].
  inversion Hnodup as [|? ? Hx Hrest]; subst.
  destruct (String.eqb (key x) id); simpl.
  - rewrite Hb. constructor; [intuition | exact Hrest].
  - constructor.
    + intros Hin. apply In_map_updateUnique in Hin.
      destruct Hin as [Hin | (r & _ & Heq)]; [contradiction|].
      rewrite Hb in Heq. apply Hfresh. left. exact Heq.
    + apply IH; [intuition | exact Hrest].
Qed.

Lemma find_none_not_In (rows : list Member.t) (e : string) :
  find (fun m => String.eqb (Member.email m) e) rows = None ->
  ~ In e (map Member.email rows).
Proof.
  intros Hnone Hin. apply in_map_iff in Hin. destruct Hin as (m & <- & Hin).
  pose proof (find_none _ _ Hnone m Hin) as H. simpl in H.
  rewrite String.eqb_refl in H. discriminate.
Qed.

Section MembersInvariants.

Variable isEmail : string -> bool.
Variable normalizeEmail : string -> string.

Let validateMember := MembersRoute.validateMember isEmail.
Let validateMemberUpdate := MembersRoute.validateMemberUpdate isEmail.
Let sanitize := MembersRoute.sanitize normalizeEmail.
Let postMember := MembersRoute.postMember isEmail normalizeEmail.
Let putMember := MembersRoute.putMember isEmail normalizeEmail.
Let putMemberData := Invariant.putMemberData normalizeEmail.

(** What POST /members does, by outcome. *)
Lemma postMember_run (b : MembersRoute.Body) (now : Z) (newId : string)
    (db : Db) :
  (exists e, postMember b now newId db = (db, Threw e))
  \/ exists m,
       validateMember b = []
       /\ MembersRoute.findUniqueByEmail
            (field EmptyString (MembersRoute.email (sanitize b))) db = None
       /\ postMember b now newId db = (MembersRoute.create m db, Ok m)
       /\ m = {| Member.id := newId;
                 Member.name := field EmptyString (MembersRoute.name (sanitize b));
                 Member.age := field 0 (MembersRoute.age b);
                 Member.gender := field EmptyString (MembersRoute.gender b);
                 Member.email :=
                   field EmptyString (MembersRoute.email (sanitize b));
                 Member.phone :=
                   field EmptyString (MembersRoute.phone (sanitize b));
                 Member.membershipType :=
                   field EmptyString (MembersRoute.membershipType b);
                 Member.expiryDate := field 0 (MembersRoute.expiryDate b);
                 Member.status :=
                   if field 0 (MembersRoute.expiryDate b) <=? now
                   then "INACTIVE"
                   else if field 0 (MembersRoute.expiryDate b)
                           <=? now + thirtyDays
                        then "EXPIRING_SOON"
                        else "ACTIVE";
                 Member.profilePicture := MembersRoute.profilePicture b;
                 Member.joinDate := field now (MembersRoute.joinDate b) |}.
Proof.
  unfold postMember, MembersRoute.postMember. fold validateMember sanitize.
  destruct (validateMember b) as [|msg errors] eqn:Hvalid; run_handler;
    [|left; eexists; reflexivity].
  destruct (MembersRoute.findUniqueByEmail _ db) as [holder|] eqn:Hfind;
    [left; eexists; reflexivity|].
  right. eexists. repeat split; reflexivity.
Qed.

(** What PUT /members/:id does, by outcome. *)
Lemma putMember_run (id : string) (b : MembersRoute.Body) (now : Z) (db : Db) :
  (exists e, putMember id b now db = (db, Threw e))
  \/ exists existing,
       validateMemberUpdate b = []
       /\ id <> EmptyString
       /\ MembersRoute.findUnique id db = Some existing
       /\ Spec.emailAvailable normalizeEmail b existing db
       /\ putMember id b now db
          = (MembersRoute.update id (putMemberData b now) db,
             Ok (MembersRoute.applyUpdate (putMemberData b now) existing)).
Proof.
  unfold putMember, MembersRoute.putMember. fold validateMemberUpdate sanitize.
  destruct (validateMemberUpdate b) as [|msg errors] eqn:Hvalid; run_handler;
    [|left; eexists; reflexivity].
  destruct (String.eqb_spec id EmptyString) as [->|Hid];
    [left; eexists; reflexivity|].
  destruct (MembersRoute.findUnique id db) as [existing|] eqn:Hfind;
    [|left; eexists; reflexivity].
  unfold Spec.emailAvailable. fold sanitize.
  destruct (MembersRoute.email (sanitize b)) as [e|] eqn:Hemail; simpl.
  - destruct (String.eqb_spec e EmptyString) as [->|He]; simpl.
    + right. exists existing. repeat split; auto.
    + destruct (String.eqb_spec e (Member.email existing)) as [->|Hne]; simpl.
      * right. exists existing. repeat split; auto.
      * destruct (MembersRoute.findUniqueByEmail e db) as [holder|] eqn:Hheld.
        -- left. eexists. reflexivity.
        -- right. exists existing. repeat split; auto.
  - right. exists existing. repeat split; auto.
Qed.

(** What DELETE /members/:id does, by outcome. *)
Lemma deleteMember_run (id : string) (db : Db) :
  (exists e, MembersRoute.deleteMember id db = (db, Threw e))
  \/ exists existing,
       id <> EmptyString
       /\ MembersRoute.findUnique id db = Some existing
       /\ MembersRoute.deleteMember id db
          = (MembersRoute.update id MembersRoute.archiveData db,
             Ok "Member archived successfully").
Proof.
  unfold MembersRoute.deleteMember. run_handler.
  destruct (String.eqb_spec id EmptyString) as [->|Hid];
    [left; eexists; reflexivity|].
  destruct (MembersRoute.findUnique id db) as [existing|] eqn:Hfind;
    [|left; eexists; reflexivity].
  right. exists existing. repeat split; auto.
Qed.

Lemma putMemberData_status (b : MembersRoute.Body) (now : Z) :
  MembersRoute.status (putMemberData b now)
  = match MembersRoute.expiryDate b with
    | Some d =>
        Some (if d <=? now then "INACTIVE"
              else if d <=? now + thirtyDays then "EXPIRING_SOON"
              else "ACTIVE")
    | None => MembersRoute.status b
    end.
Proof.
  unfold putMemberData, Invariant.putMemberData. simpl.
  destruct (MembersRoute.expiryDate b) as [d|]; [|reflexivity].
  destruct (d <=? now); [|destruct (d <=? now + thirtyDays)]; reflexivity.
Qed.

(** The fields of the data of PUT other than the status are those of the
    sanitized body. *)
Lemma putMemberData_fields (b : MembersRoute.Body) (now : Z) :
  MembersRoute.name (putMemberData b now) = MembersRoute.name (sanitize b)
  /\ MembersRoute.age (putMemberData b now) = MembersRoute.age b
  /\ MembersRoute.gender (putMemberData b now) = MembersRoute.gender b
  /\ MembersRoute.email (putMemberData b now) = MembersRoute.email (sanitize b)
  /\ MembersRoute.phone (putMemberData b now) = MembersRoute.phone (sanitize b)
  /\ MembersRoute.membershipType (putMemberData b now)
     = MembersRoute.membershipType b
  /\ MembersRoute.expiryDate (putMemberData b now) = MembersRoute.expiryDate b
  /\ MembersRoute.profilePicture (putMemberData b now)
     = MembersRoute.profilePicture b
  /\ MembersRoute.joinDate (putMemberData b now) = MembersRoute.joinDate b.
Proof.
  unfold putMemberData, Invariant.putMemberData.
  destruct b as [? ? ? ? ? ? [d|] ? ? ?]; simpl;
    [|repeat (split; [reflexivity|]); reflexivity].
  destruct (d <=? now); [|destruct (d <=? now + thirtyDays)];
    repeat (split; [reflexivity|]); reflexivity.
Qed.

(** The member POST creates satisfies the validators. *)
Lemma created_member_valid (b : MembersRoute.Body) (now : Z) (newId : string)
    (db : Db) (m : Member.t) :
  postMember b now newId db = (MembersRoute.create m db, Ok m) ->
  validateMember b = [] ->
  m = {| Member.id := newId;
         Member.name := field EmptyString (MembersRoute.name (sanitize b));
         Member.age := field 0 (MembersRoute.age b);
         Member.gender := field EmptyString (MembersRoute.gender b);
         Member.email := field EmptyString (MembersRoute.email (sanitize b));
         Member.phone := field EmptyString (MembersRoute.phone (sanitize b));
         Member.membershipType :=
           field EmptyString (MembersRoute.membershipType b);
         Member.expiryDate := field 0 (MembersRoute.expiryDate b);
         Member.status :=
           if field 0 (MembersRoute.expiryDate b) <=? now then "INACTIVE"
           else if field 0 (MembersRoute.expiryDate b) <=? now + thirtyDays
                then "EXPIRING_SOON"
                else "ACTIVE";
         Member.profilePicture := MembersRoute.profilePicture b;
         Member.joinDate := field now (MembersRoute.joinDate b) |} ->
  Invariant.validMember m.
Proof.
  intros _ Hvalid ->.
  unfold validateMember, MembersRoute.validateMember in Hvalid.
  apply app_eq_nil in Hvalid. destruct Hvalid as [Hname Hvalid].
  apply app_eq_nil in Hvalid. destruct Hvalid as [Hage Hvalid].
  apply app_eq_nil in Hvalid. destruct Hvalid as [Hgender Hvalid].
  apply app_eq_nil in Hvalid. destruct Hvalid as [_ Hvalid].
  apply app_eq_nil in Hvalid. destruct Hvalid as [Hphone Hvalid].
  apply app_eq_nil in Hvalid. destruct Hvalid as [Htype _].
  apply required_nil in Hname, Hgender, Hphone, Htype.
  apply isLength_le in Hname, Hphone.
  apply isIn_In in Hgender, Htype.
  unfold Invariant.validMember. simpl.
  rewrite !field_trim.
  split; [exact Hname|]. split.
  { destruct (MembersRoute.age b) as [a|]; [|discriminate Hage].
    apply check_nil, inRange_le in Hage. exact Hage. }
  split; [exact Hgender|]. split; [exact Hphone|]. split; [exact Htype|].
  destruct (_ <=? now); [|destruct (_ <=? now + thirtyDays)]; simpl; auto.
Qed.

(** The row PUT writes satisfies the validators if the row it rewrites
    does. *)
Lemma updated_member_valid (b : MembersRoute.Body) (now : Z)
    (existing : Member.t) :
  validateMemberUpdate b = [] ->
  Invariant.validMember existing ->
  Invariant.validMember (MembersRoute.applyUpdate (putMemberData b now) existing).
Proof.
  intros Hvalid (Hname' & Hage' & Hgender' & Hphone' & Htype' & Hstatus').
  unfold validateMemberUpdate, MembersRoute.validateMemberUpdate in Hvalid.
  apply app_eq_nil in Hvalid. destruct Hvalid as [Hname Hvalid].
  apply app_eq_nil in Hvalid. destruct Hvalid as [Hage Hvalid].
  apply app_eq_nil in Hvalid. destruct Hvalid as [Hgender Hvalid].
  apply app_eq_nil in Hvalid. destruct Hvalid as [_ Hvalid].
  apply app_eq_nil in Hvalid. destruct Hvalid as [Hphone Hvalid].
  apply app_eq_nil in Hvalid. destruct Hvalid as [Htype Hstatus].
  apply optional_nil in Hname, Hage, Hgender, Hphone, Htype, Hstatus.
  destruct (putMemberData_fields b now)
    as (Ename & Eage & Egender & _ & Ephone & Etype & _).
  unfold Invariant.validMember. cbn [MembersRoute.applyUpdate Member.name
    Member.age Member.gender Member.phone Member.membershipType Member.status].
  fold putMemberData.
  rewrite Ename, Eage, Egender, Ephone, Etype, putMemberData_status.
  split.
  { unfold sanitize. cbn [MembersRoute.sanitize MembersRoute.name].
    destruct (MembersRoute.name b); cbn [option_map field];
      [apply isLength_le; exact Hname | exact Hname']. }
  split.
  { destruct (MembersRoute.age b); cbn [field];
      [apply inRange_le; exact Hage | exact Hage']. }
  split.
  { destruct (MembersRoute.gender b); cbn [field];
      [apply isIn_In; exact Hgender | exact Hgender']. }
  split.
  { unfold sanitize. cbn [MembersRoute.sanitize MembersRoute.phone].
    destruct (MembersRoute.phone b); cbn [option_map field];
      [apply isLength_le; exact Hphone | exact Hphone']. }
  split.
  { destruct (MembersRoute.membershipType b); cbn [field];
      [apply isIn_In; exact Htype | exact Htype']. }
  destruct (MembersRoute.expiryDate b) as [d|]; cbn [field].
  - destruct (d <=? now); [|destruct (d <=? now + thirtyDays)]; simpl; auto.
  - destruct (MembersRoute.status b); cbn [field];
      [apply isIn_In; exact Hstatus | exact Hstatus'].
Qed.

(** X2. The three routes that write members keep every member row within
    the constraints of the validators: a name of two characters or more, an
    age from 16 to 100, a gender, a membership type and a status of the
    enumerations, a phone number of ten characters or more.  This holds
    whatever the outcome of the request. *)
Theorem member_rows_stay_valid (db : Db) :
  Forall Invariant.validMember (members db) ->
  (forall b now newId,
      Forall Invariant.validMember (members (fst (postMember b now newId db))))
  /\ (forall id b now,
        Forall Invariant.validMember (members (fst (putMember id b now db))))
  /\ (forall id,
        Forall Invariant.validMember
          (members (fst (MembersRoute.deleteMember id db)))).
Proof.
  intros Hall. split; [|split].
  - intros b now newId.
    destruct (postMember_run b now newId db)
      as [[e ->] | (m & Hvalid & _ & Hrun & Hm)]; [exact Hall|].
    rewrite Hrun. simpl. apply Forall_app. split; [exact Hall|].
    constructor; [|constructor].
    exact (created_member_valid b now newId db m Hrun Hvalid Hm).
  - intros id b now.
    destruct (putMember_run id b now db)
      as [[e ->] | (existing & Hvalid & _ & Hfind & _ & ->)]; [exact Hall|].
    simpl.
    apply (Forall_updateUnique _ _ _ _ _ existing); [exact Hfind | | exact Hall].
    apply updated_member_valid; [exact Hvalid|].
    unfold MembersRoute.findUnique in Hfind. apply find_some in Hfind.
    rewrite Forall_forall in Hall. apply Hall, Hfind.
  - intros id.
    destruct (deleteMember_run id db)
      as [[e ->] | (existing & _ & Hfind & ->)]; [exact Hall|].
    simpl.
    apply (Forall_updateUnique _ _ _ _ _ existing); [exact Hfind | | exact Hall].
    unfold MembersRoute.findUnique in Hfind. apply find_some in Hfind.
    rewrite Forall_forall in Hall.
    destruct (Hall existing (proj1 Hfind))
      as (Hname & Hage & Hgender & Hphone & Htype & _).
    unfold Invariant.validMember.
    cbn [MembersRoute.applyUpdate MembersRoute.archiveData field
         MembersRoute.name MembersRoute.age MembersRoute.gender
         MembersRoute.phone MembersRoute.membershipType MembersRoute.status
         Member.name Member.age Member.gender Member.phone
         Member.membershipType Member.status].
    split; [exact Hname|]. split; [exact Hage|]. split; [exact Hgender|].
    split; [exact Hphone|]. split; [exact Htype|].
    simpl. do 3 right. left. reflexivity.
Qed.

(** X3. The three routes that write members keep the e-mails of the store
    distinct, provided normalisation never turns an address the validator
    accepts into the empty string. *)
Theorem member_emails_stay_unique (db : Db) :
  (forall e, isEmail e = true -> normalizeEmail e <> EmptyString) ->
  Invariant.uniqueEmails db ->
  (forall b now newId,
      Invariant.uniqueEmails (fst (postMember b now newId db)))
  /\ (forall id b now, Invariant.uniqueEmails (fst (putMember id b now db)))
  /\ (forall id, Invariant.uniqueEmails (fst (MembersRoute.deleteMember id db))).
Proof.
  unfold Invariant.uniqueEmails. intros Hnormal Hunique. split; [|split].
  - intros b now newId.
    destruct (postMember_run b now newId db)
      as [[e ->] | (m & _ & Hfree & -> & Hm)]; [exact Hunique|].
    simpl. rewrite map_app. simpl. apply NoDup_snoc; [exact Hunique|].
    rewrite Hm. simpl. apply find_none_not_In. exact Hfree.
  - intros id b now.
    destruct (putMember_run id b now db)
      as [[e ->] | (existing & Hvalid & _ & Hfind & Havail & ->)];
      [exact Hunique|].
    simpl.
    destruct (putMemberData_fields b now) as (_ & _ & _ & Eemail & _).
    unfold Spec.emailAvailable in Havail. fold sanitize in Havail.
    assert (Hkept :
      Member.email (MembersRoute.applyUpdate (putMemberData b now) existing)
      = Member.email existing ->
      NoDup (map Member.email
               (updateUnique Member.id id
                  (MembersRoute.applyUpdate (putMemberData b now))
                  (members db)))).
    { intros Hsame. rewrite map_updateUnique_kept; [exact Hunique|].
      intros r Hr. unfold MembersRoute.findUnique in Hfind.
      rewrite Hfind in Hr. injection Hr as <-. exact Hsame. }
    fold putMemberData.
    destruct (MembersRoute.email (sanitize b)) as [e|] eqn:Hemail.
    + destruct Havail as [-> | [-> | Hfree]].
      * exfalso.
        unfold validateMemberUpdate, MembersRoute.validateMemberUpdate in Hvalid.
        apply app_eq_nil in Hvalid. destruct Hvalid as [_ Hvalid].
        apply app_eq_nil in Hvalid. destruct Hvalid as [_ Hvalid].
        apply app_eq_nil in Hvalid. destruct Hvalid as [_ Hvalid].
        apply app_eq_nil in Hvalid. destruct Hvalid as [Hmail _].
        apply optional_nil in Hmail. simpl in Hemail.
        destruct (MembersRoute.email b) as [e0|]; [|discriminate Hemail].
        injection Hemail as Hemail. exact (Hnormal e0 Hmail Hemail).
      * apply Hkept. simpl. fold putMemberData. rewrite Eemail. reflexivity.
      * apply (NoDup_updateUnique_fresh _ _ _ _ _ e);
          [|apply find_none_not_In; exact Hfree | exact Hunique].
        intros r. simpl. fold putMemberData. rewrite Eemail. reflexivity.
    + apply Hkept. simpl. fold putMemberData. rewrite Eemail. reflexivity.
  - intros id.
    destruct (deleteMember_run id db)
      as [[e ->] | (existing & _ & Hfind & ->)]; [exact Hunique|].
    simpl. rewrite map_updateUnique_kept; [exact Hunique|].
    intros r _. reflexivity.
Qed.

End MembersInvariants.

Lemma sample_normalizeEmail_nonempty (e : string) :
  Sample.isEmail e = true -> Sample.normalizeEmail e <> EmptyString.
Proof.
  destruct e as [|c e]; [discriminate | simpl; discriminate].
Qed.

Lemma sample_archivedDb_valid :
  Forall Invariant.validMember (members Sample.archivedDb).
Proof.
  constructor; [|constructor].
  unfold Invariant.validMember. simpl.
  repeat split; try lia; auto 10.
Qed.

Lemma member_rows_stay_valid_witness :
  Forall Invariant.validMember
    (members
       (fst (MembersRoute.postMember Sample.isEmail Sample.normalizeEmail
               (Sample.registration "asha@example.com"
                  (Sample.now + Spec.days 60))
               Sample.now "m2" Sample.archivedDb)))
  /\ Forall Invariant.validMember
       (members
          (fst (MembersRoute.putMember Sample.isEmail Sample.normalizeEmail
                  "m1" (Sample.renewal (Sample.now + Spec.days 60)) Sample.now
                  Sample.archivedDb))).
Proof.
  destruct (member_rows_stay_valid Sample.isEmail Sample.normalizeEmail
              Sample.archivedDb sample_archivedDb_valid) as (Hpost & Hput & _).
  split; [apply Hpost | apply Hput].
Defined.

Lemma member_emails_stay_unique_witness :
  Invariant.uniqueEmails
    (fst (MembersRoute.postMember Sample.isEmail Sample.normalizeEmail
            (Sample.registration "asha@example.com" (Sample.now + Spec.days 60))
            Sample.now "m2" Sample.archivedDb))
  /\ Invariant.uniqueEmails
       (fst (MembersRoute.postMember Sample.isEmail Sample.normalizeEmail
               (Sample.registration "Bikash@Example.com"
                  (Sample.now + Spec.days 60))
               Sample.now "m2" Sample.archivedDb)).
Proof.
  assert (Hunique : Invariant.uniqueEmails Sample.archivedDb).
  { unfold Invariant.uniqueEmails. simpl.
    constructor; [intros [] | constructor]. }
  destruct (member_emails_stay_unique Sample.isEmail Sample.normalizeEmail
              Sample.archivedDb sample_normalizeEmail_nonempty Hunique)
    as (Hpost & _ & _).
  split; apply Hpost.
Defined.

(** ** Members: conflicts, round trips and the two ways of archiving *)

Lemma find_app_found {A : Type} (p : A -> bool) (l l' : list A) (x : A) :
  find p l = Some x -> find p (l ++ l') = Some x.
Proof.
  induction l as [|y l IH]; simpl; [discriminate|].
  destruct (p y); [auto | exact IH].
Qed.

Lemma updateUnique_idempotent {A : Type} (key : A -> string) (f : A -> A)
    (id : string) (rows : list A) :
  (forall x, key (f x) = key x) ->
  (forall x, f (f x) = f x) ->
  updateUnique key id f (updateUnique key id f rows) = updateUnique key id f rows.
Proof.
  intros Hkey Hidem. induction rows as [|x rows IH]; simpl; [reflexivity|].
  destruct (String.eqb (key x) id) eqn:E; simpl.
  - rewrite Hkey, E, Hidem. reflexivity.
  - rewrite E, IH. reflexivity.
Qed.

Lemma updateUnique_inverse {A : Type} (key : A -> string) (f g : A -> A)
    (id : string) (rows : list A) (r : A) :
  (forall x, key (f x) = key x) ->
  find (fun x => String.eqb (key x) id) rows = Some r ->
  g (f r) = r ->
  updateUnique key id g (updateUnique key id f rows) = rows.
Proof.
  intros Hkey. induction rows as [|x rows IH]; simpl; [discriminate|].
  destruct (String.eqb (key x) id) eqn:E; simpl.
  - intros [= ->] Hback. rewrite Hkey, E, Hback. reflexivity.
  - intros Hfind Hback. rewrite E, (IH Hfind Hback). reflexivity.
Qed.

Lemma filter_all {A : Type} (p : A -> bool) (l : list A) :
  (forall x, p x = true) -> filter p l = l.
Proof.
  intros Hp. induction l as [|x l IH]; simpl; [reflexivity|].
  rewrite Hp, IH. reflexivity.
Qed.

Section MembersComposition.

Variable isEmail : string -> bool.
Variable normalizeEmail : string -> string.

Let validateMember := MembersRoute.validateMember isEmail.
Let validateMemberUpdate := MembersRoute.validateMemberUpdate isEmail.
Let sanitize := MembersRoute.sanitize normalizeEmail.
Let postMember := MembersRoute.postMember isEmail normalizeEmail.
Let putMember := MembersRoute.putMember isEmail normalizeEmail.

(** X4. A valid PUT /members/:id that changes the e-mail of a member to the
    normalised address another row holds fails with a Conflict and leaves
    the store unchanged, whatever else the body carries. *)
Theorem put_email_of_another_member_conflicts (id : string)
    (b : MembersRoute.Body) (now : Z) (db : Db) (existing holder : Member.t)
    (e : string) :
  validateMemberUpdate b = [] ->
  id <> EmptyString ->
  MembersRoute.findUnique id db = Some existing ->
  MembersRoute.email b = Some e ->
  normalizeEmail e <> EmptyString ->
  normalizeEmail e <> Member.email existing ->
  MembersRoute.findUniqueByEmail (normalizeEmail e) db = Some holder ->
  putMember id b now db
  = (db, Threw (ConflictError "Member with this email already exists")).
Proof.
  intros Hvalid Hid Hfind Hemail Hnonempty Hother Hheld.
  unfold putMember, MembersRoute.putMember. fold validateMemberUpdate sanitize.
  rewrite Hvalid. run_handler.
  rewrite (eqb_empty_false id Hid), Hfind.
  assert (Hsan : MembersRoute.email (sanitize b) = Some (normalizeEmail e))
    by (simpl; rewrite Hemail; reflexivity).
  rewrite Hsan. simpl.
  rewrite (eqb_empty_false _ Hnonempty).
  apply String.eqb_neq in Hother. rewrite Hother. simpl.
  rewrite Hheld. reflexivity.
Qed.

(** X5. A member created by POST /members under an identifier no row has is
    what GET /members/:id answers afterwards, and the rows that were there
    are still found under their identifiers. *)
Theorem created_member_is_retrievable (b : MembersRoute.Body) (now : Z)
    (newId : string) (db : Db) :
  validateMember b = [] ->
  MembersRoute.findUniqueByEmail
    (field EmptyString (MembersRoute.email (sanitize b))) db = None ->
  newId <> EmptyString ->
  MembersRoute.findUnique newId db = None ->
  exists db' m,
    postMember b now newId db = (db', Ok m)
    /\ MembersRoute.getMember newId db' = (db', Ok m)
    /\ (forall id other,
          MembersRoute.findUnique id db = Some other ->
          MembersRoute.findUnique id db' = Some other)
    /\ length (members db') = S (length (members db)).
Proof.
  intros Hvalid Hfree Hid Hfresh.
  destruct (postMember_created isEmail normalizeEmail b now newId db Hvalid Hfree)
    as (m & Hrun & Hmid & _).
  exists (MembersRoute.create m db), m.
  split; [exact Hrun|].
  assert (Hfound : MembersRoute.findUnique newId (MembersRoute.create m db) = Some m).
  { unfold MembersRoute.findUnique, MembersRoute.create. simpl.
    apply find_app_new; [exact Hfresh|].
    rewrite Hmid. apply String.eqb_refl. }
  split.
  { unfold MembersRoute.getMember. run_handler.
    rewrite (eqb_empty_false newId Hid), Hfound. reflexivity. }
  split.
  { intros id other Hother.
    unfold MembersRoute.findUnique, MembersRoute.create in *. simpl.
    apply find_app_found. exact Hother. }
  simpl. rewrite length_app. simpl. lia.
Qed.

(** X6. DELETE /members/:id is idempotent: repeating the request on the
    store the first one left gives the same store and the same answer,
    whether the first one succeeded or failed. *)
Theorem delete_member_idempotent (id : string) (db : Db) :
  MembersRoute.deleteMember id (fst (MembersRoute.deleteMember id db))
  = MembersRoute.deleteMember id db.
Proof.
  destruct (deleteMember_run id db) as [[e Hrun] | (existing & Hid & Hfind & Hrun)];
    rewrite Hrun; simpl; [exact Hrun|].
  unfold MembersRoute.deleteMember. run_handler.
  rewrite (eqb_empty_false id Hid).
  rewrite (findUnique_update id MembersRoute.archiveData db existing Hfind).
  unfold MembersRoute.update. simpl.
  rewrite updateUnique_idempotent; [reflexivity | reflexivity |].
  intros m. destruct m as [? ? ? ? ? ? ? ? ? [p|] ?]; reflexivity.
Qed.

(** X7. The Archive button and the Delete button of the member cards reach
    different routes (PUT with the status ARCHIVED, DELETE) that do the same
    to the store and succeed or fail together, with the same error. *)
Theorem archive_and_delete_buttons_agree (id : string) (now : Z)
    (newId : string) (db : Db) :
  Api.serve isEmail normalizeEmail
    (MemberManagementPage.handleArchiveMember id) now newId db
  = Api.serve isEmail normalizeEmail
      (MemberManagementPage.handleDeleteMember id) now newId db.
Proof.
  unfold Api.serve, MemberManagementPage.handleArchiveMember,
    MemberManagementPage.handleDeleteMember,
    MembersRoute.putMember, MembersRoute.deleteMember.
  run_handler.
  change (MembersRoute.validateMemberUpdate isEmail
            (MemberManagementPage.statusOnly "ARCHIVED")) with (@nil string).
  cbv beta iota.
  destruct (String.eqb id EmptyString); [reflexivity|].
  destruct (MembersRoute.findUnique id db) as [existing|]; reflexivity.
Qed.

(** X8. The status switch switches back: turning it off for an ACTIVE member
    makes the member INACTIVE, the switch is still shown, and turning it on
    again gives back the store as it was. *)
Theorem status_switch_round_trip (member : Member.t) (now1 now2 : Z)
    (newId : string) (db : Db) :
  Member.id member <> EmptyString ->
  MembersRoute.findUnique (Member.id member) db = Some member ->
  Member.status member = "ACTIVE" ->
  exists call1 db1 member1 call2,
    MemberManagementPage.handleToggle false member false = Some call1
    /\ Api.serve isEmail normalizeEmail call1 now1 newId db = (db1, Ok tt)
    /\ MembersRoute.findUnique (Member.id member) db1 = Some member1
    /\ Member.status member1 = "INACTIVE"
    /\ MemberManagementPage.toggleShown member1 = true
    /\ MemberManagementPage.handleToggle false member1 true = Some call2
    /\ Api.serve isEmail normalizeEmail call2 now2 newId db1 = (db, Ok tt).
Proof.
  intros Hid Hfind Hactive.
  pose (off := MemberManagementPage.statusOnly "INACTIVE").
  pose (on := MemberManagementPage.statusOnly "ACTIVE").
  exists (Api.Update (Member.id member) off),
         (MembersRoute.update (Member.id member) off db),
         (MembersRoute.applyUpdate off member),
         (Api.Update (Member.id member) on).
  assert (Hstored := findUnique_update (Member.id member) off db member Hfind).
  split.
  { unfold MemberManagementPage.handleToggle. rewrite Hactive. reflexivity. }
  split.
  { unfold Api.serve, MembersRoute.putMember. run_handler.
    change (MembersRoute.validateMemberUpdate isEmail off) with (@nil string).
    cbv beta iota.
    rewrite (eqb_empty_false _ Hid), Hfind. reflexivity. }
  split; [exact Hstored|]. split; [reflexivity|]. split; [reflexivity|].
  split; [reflexivity|].
  unfold Api.serve, MembersRoute.putMember. run_handler.
  change (MembersRoute.validateMemberUpdate isEmail on) with (@nil string).
  cbv beta iota.
  rewrite (eqb_empty_false _ Hid), Hstored.
  change (Js.truthy (MembersRoute.email (MembersRoute.sanitize normalizeEmail on)))
    with false.
  cbv beta iota delta [andb]. f_equal.
  change (MembersRoute.update (Member.id member) _
            (MembersRoute.update (Member.id member) off db))
    with {| members :=
              updateUnique Member.id (Member.id member)
                (MembersRoute.applyUpdate on)
                (updateUnique Member.id (Member.id member)
                   (MembersRoute.applyUpdate off) (members db));
            payments := payments db;
            checkIns := checkIns db |}.
  rewrite (updateUnique_inverse Member.id _ _ _ _ member);
    [destruct db; reflexivity | reflexivity | exact Hfind |].
  destruct member as [? ? ? ? ? ? ? ? ? [p|] ?]; simpl in Hactive;
    rewrite Hactive; reflexivity.
Qed.

(** X9. The member list the pages hold is always the first ten members by
    name: [fetchMembers] passes a number where [membersAPI.getAll] reads an
    object of parameters, so the request carries no parameter whatever page
    and limit are asked for; the filtered list has at most ten members. *)
Theorem fetched_members_are_first_ten
    (orderBy : string -> string -> list Member.t -> list Member.t)
    (page limit : Z) (previous : list Member.t) (db : Db)
    (searchTerm statusFilter membershipFilter : string) :
  Api.fetchMembers orderBy page limit previous db
  = firstn 10 (orderBy "name" "asc" (members db))
  /\ (length (Api.fetchMembers orderBy page limit previous db) <= 10)%nat
  /\ (length
        (MemberManagement.filteredMembers
           (Api.fetchMembers orderBy page limit previous db)
           searchTerm statusFilter membershipFilter) <= 10)%nat.
Proof.
  assert (Hfetch :
    Api.fetchMembers orderBy page limit previous db
    = firstn 10 (orderBy "name" "asc" (members db))).
  { unfold Api.fetchMembers, MembersRoute.getMembers. run_handler.
    cbn [Api.membersQuery Api.searchParams Api.get MembersRoute.page
         MembersRoute.limit MembersRoute.search MembersRoute.q_status
         MembersRoute.q_membershipType MembersRoute.sortBy
         MembersRoute.sortOrder].
    change (MembersRoute.validateQuery _) with (@nil string).
    cbv beta iota. cbn [MembersRoute.l_members].
    rewrite filter_all; reflexivity. }
  rewrite Hfetch. split; [reflexivity|].
  split; [apply firstn_le_length|].
  unfold MemberManagement.filteredMembers.
  etransitivity; [apply filter_length_le | apply firstn_le_length].
Qed.

End MembersComposition.

Lemma put_email_of_another_member_conflicts_witness :
  MembersRoute.putMember Sample.isEmail Sample.normalizeEmail "m7"
    (Fixture.emailChange "Dawa@Example.com") Sample.now Fixture.gymDb
  = (Fixture.gymDb,
     Threw (ConflictError "Member with this email already exists")).
Proof.
  apply (put_email_of_another_member_conflicts Sample.isEmail
           Sample.normalizeEmail "m7" (Fixture.emailChange "Dawa@Example.com")
           Sample.now Fixture.gymDb Fixture.active Fixture.other
           "Dawa@Example.com");
    try reflexivity; discriminate.
Defined.

Lemma created_member_is_retrievable_witness :
  exists db' m,
    MembersRoute.postMember Sample.isEmail Sample.normalizeEmail
      (Sample.registration "asha@example.com" (Sample.now + Spec.days 60))
      Sample.now "m9" Fixture.gymDb = (db', Ok m)
    /\ MembersRoute.getMember "m9" db' = (db', Ok m).
Proof.
  destruct (created_member_is_retrievable Sample.isEmail Sample.normalizeEmail
              (Sample.registration "asha@example.com"
                 (Sample.now + Spec.days 60))
              Sample.now "m9" Fixture.gymDb)
    as (db' & m & Hpost & Hget & _);
    [reflexivity | reflexivity | discriminate | reflexivity |].
  exists db', m. split; [exact Hpost | exact Hget].
Defined.

Lemma status_switch_round_trip_witness :
  exists call1 db1 call2,
    Api.serve Sample.isEmail Sample.normalizeEmail call1 Sample.now "m9"
      Fixture.gymDb = (db1, Ok tt)
    /\ Api.serve Sample.isEmail Sample.normalizeEmail call2 (Sample.now + 1)
         "m9" db1 = (Fixture.gymDb, Ok tt).
Proof.
  destruct (status_switch_round_trip Sample.isEmail Sample.normalizeEmail
              Fixture.active Sample.now (Sample.now + 1) "m9" Fixture.gymDb)
    as (call1 & db1 & member1 & call2 & _ & Hoff & _ & _ & _ & _ & Hon);
    [discriminate | reflexivity | reflexivity |].
  exists call1, db1, call2. split; [exact Hoff | exact Hon].
Defined.

(** ** Payments: creation, settlement, deletion *)

Lemma findUnique_payment_update_other (id id' : string)
    (data : PaymentsRoute.Body) (db : Db) :
  id' <> id ->
  PaymentsRoute.findUnique id' (PaymentsRoute.update id data db)
  = PaymentsRoute.findUnique id' db.
Proof.
  unfold PaymentsRoute.findUnique, PaymentsRoute.update. simpl.
  apply (find_updateUnique_other Payment.id (PaymentsRoute.applyUpdate data) id).
  reflexivity.
Qed.

Lemma find_filter_removed {A : Type} (key : A -> string) (id : string)
    (rows : list A) :
  find (fun x => String.eqb (key x) id)
    (filter (fun x => negb (String.eqb (key x) id)) rows) = None.
Proof.
  induction rows as [|x rows IH]; simpl; [reflexivity|].
  destruct (String.eqb (key x) id) eqn:E; simpl; [exact IH|].
  rewrite E. exact IH.
Qed.

Lemma find_filter_other {A : Type} (key : A -> string) (id id' : string)
    (rows : list A) :
  id' <> id ->
  find (fun x => String.eqb (key x) id')
    (filter (fun x => negb (String.eqb (key x) id)) rows)
  = find (fun x => String.eqb (key x) id') rows.
Proof.
  intros Hne. induction rows as [|x rows IH]; simpl; [reflexivity|].
  destruct (String.eqb (key x) id) eqn:E; simpl.
  - apply String.eqb_eq in E.
    destruct (String.eqb (key x) id') eqn:E'; [|exact IH].
    apply String.eqb_eq in E'. congruence.
  - destruct (String.eqb (key x) id'); [reflexivity | exact IH].
Qed.

Lemma find_app_old {A : Type} (p : A -> bool) (rows : list A) (r : A) :
  p r = false -> find p (rows ++ [r]) = find p rows.
Proof.
  intros Hr. induction rows as [|x rows IH]; simpl.
  - rewrite Hr. reflexivity.
  - destruct (p x); [reflexivity | exact IH].
Qed.

Lemma getPayment_found (id : string) (db : Db) (p : Payment.t) :
  id <> EmptyString ->
  PaymentsRoute.findUnique id db = Some p ->
  PaymentsViews.getPayment id db = (db, Ok p).
Proof.
  intros Hid Hfind. unfold PaymentsViews.getPayment. run_handler.
  rewrite (eqb_empty_false id Hid), Hfind. reflexivity.
Qed.

(** X10. POST /payments with a valid body for a member that exists stores
    one new payment: it is OVERDUE when its due date is before the time of
    the request and PENDING otherwise, never PAID; its amount is at least one
    cent and its type one of the four; GET /payments/:id returns it under its
    new identifier, and the payments stored before are found as before.  For
    a member that does not exist the answer is a NotFound and nothing is
    stored. *)
Theorem created_payment_is_pending_or_overdue (b : PaymentsRoute.Body)
    (now : Z) (newId : string) (db : Db) :
  PaymentsRoute.validatePayment b = [] ->
  newId <> EmptyString ->
  PaymentsRoute.findUnique newId db = None ->
  (MembersRoute.findUnique (field EmptyString (PaymentsRoute.memberId b)) db
   = None ->
   PaymentsRoute.postPayment b now newId db
   = (db, Threw (NotFoundError "Member not found")))
  /\ (forall member,
        MembersRoute.findUnique
          (field EmptyString (PaymentsRoute.memberId b)) db = Some member ->
        exists db' payment,
          PaymentsRoute.postPayment b now newId db = (db', Ok payment)
          /\ Payment.memberId payment = Member.id member
          /\ Payment.status payment
             = (if field 0 (PaymentsRoute.dueDate b) <? now then "OVERDUE"
                else "PENDING")
          /\ Payment.status payment <> "PAID"
          /\ 1 <= Payment.amount payment
          /\ In (Payment.paymentType payment) PaymentsRoute.paymentTypes
          /\ PaymentsViews.getPayment newId db' = (db', Ok payment)
          /\ (forall id, id <> newId ->
                PaymentsRoute.findUnique id db'
                = PaymentsRoute.findUnique id db)
          /\ members db' = members db).
Proof.
  intros Hvalid HnewId Hfresh. split; [intros Hmember | intros member Hmember].
  2: {
    unfold PaymentsRoute.postPayment. rewrite Hvalid. run_handler.
    rewrite Hmember.
    eexists _, _. split; [reflexivity|].
    unfold PaymentsRoute.validatePayment in Hvalid.
    apply app_eq_nil in Hvalid. destruct Hvalid as [_ Hvalid].
    apply app_eq_nil in Hvalid. destruct Hvalid as [Hamount Hvalid].
    apply app_eq_nil in Hvalid. destruct Hvalid as [Htype _].
    cbn [Payment.memberId Payment.status Payment.amount Payment.paymentType].
    split; [|split; [|split; [|split; [|split; [|split; [|split]]]]]].
    + unfold MembersRoute.findUnique in Hmember. apply find_some in Hmember.
      destruct Hmember as [_ Heq]. apply String.eqb_eq in Heq.
      symmetry. exact Heq.
    + reflexivity.
    + destruct (_ <? now); discriminate.
    + destruct (PaymentsRoute.amount b) as [a|]; [|discriminate].
      apply check_nil in Hamount. unfold PaymentsRoute.atLeastOneCent in Hamount.
      simpl. lia.
    + apply required_nil in Htype. apply isIn_In. exact Htype.
    + apply getPayment_found; [exact HnewId|].
      unfold PaymentsRoute.findUnique, PaymentsRoute.create. simpl payments.
      apply find_app_new; [exact Hfresh|]. simpl. apply String.eqb_refl.
    + intros id Hid.
      unfold PaymentsRoute.findUnique, PaymentsRoute.create. simpl payments.
      apply find_app_old. simpl. apply String.eqb_neq. congruence.
    + reflexivity. }
  unfold PaymentsRoute.postPayment. rewrite Hvalid. run_handler.
  rewrite Hmember. reflexivity.
Qed.

Lemma created_payment_is_pending_or_overdue_witness :
  exists db' payment,
    PaymentsRoute.postPayment Sample.invoice Sample.now "p3" Fixture.gymDb
    = (db', Ok payment)
    /\ Payment.status payment = "PENDING"
    /\ PaymentsViews.getPayment "p3" db' = (db', Ok payment).
Proof.
  destruct (created_payment_is_pending_or_overdue Sample.invoice Sample.now
              "p3" Fixture.gymDb) as [_ H];
    [reflexivity | discriminate | reflexivity |].
  destruct (H Sample.archived)
    as (db' & payment & Hpost & _ & Hstatus & _ & _ & _ & Hget & _);
    [reflexivity|].
  exists db', payment.
  split; [exact Hpost | split; [exact Hstatus | exact Hget]].
Defined.

(** X11. PATCH /payments/:id/mark-paid on a payment that is not PAID makes
    it PAID with the time of the request as its paid timestamp.  An amount
    sent in the body is not read: amount, member, type and due date stay as
    stored; the notes become those of the body when it has some, and stay
    otherwise.  GET /payments/:id returns the payment so changed, and no
    other payment, member or check-in changes. *)
Theorem mark_paid_settles_payment (id : string) (b : PaymentsRoute.Body)
    (now : Z) (db : Db) (payment : Payment.t) :
  id <> EmptyString ->
  PaymentsRoute.findUnique id db = Some payment ->
  Payment.status payment <> "PAID" ->
  exists db' paid,
    PaymentsRoute.markPaid id b now db = (db', Ok paid)
    /\ paid
       = {| Payment.id := Payment.id payment;
            Payment.memberId := Payment.memberId payment;
            Payment.amount := Payment.amount payment;
            Payment.paymentType := Payment.paymentType payment;
            Payment.status := "PAID";
            Payment.dueDate := Payment.dueDate payment;
            Payment.paidAt := Some now;
            Payment.notes :=
              if Js.truthy (PaymentsRoute.notes b) then PaymentsRoute.notes b
              else Payment.notes payment |}
    /\ PaymentsViews.getPayment id db' = (db', Ok paid)
    /\ (forall id', id' <> id ->
          PaymentsRoute.findUnique id' db' = PaymentsRoute.findUnique id' db)
    /\ length (payments db') = length (payments db)
    /\ members db' = members db
    /\ checkIns db' = checkIns db.
Proof.
  intros Hid Hfind Hunpaid.
  unfold PaymentsRoute.markPaid. run_handler.
  rewrite (eqb_empty_false id Hid), Hfind.
  destruct (String.eqb (Payment.status payment) "PAID") eqn:E;
    [apply String.eqb_eq in E; contradiction|].
  eexists _, _. split; [reflexivity|].
  split; [|split; [|split; [|split; [|split]]]].
  - unfold PaymentsRoute.applyUpdate, Js.or_else. simpl.
    destruct (Js.truthy (PaymentsRoute.notes b)) eqn:Hnotes.
    + destruct (PaymentsRoute.notes b); [reflexivity | discriminate].
    + destruct (Payment.notes payment); reflexivity.
  - apply getPayment_found; [exact Hid|].
    apply findUnique_payment_update. exact Hfind.
  - intros id' Hne. apply findUnique_payment_update_other. exact Hne.
  - simpl. apply length_updateUnique.
  - reflexivity.
  - reflexivity.
Qed.

Lemma mark_paid_settles_payment_witness :
  exists db' paid,
    PaymentsRoute.markPaid "p2" Sample.invoice (Sample.now + 5) Fixture.gymDb
    = (db', Ok paid)
    /\ Payment.amount paid = 50000
    /\ Payment.paidAt paid = Some (Sample.now + 5)
    /\ Payment.notes paid = Some "June".
Proof.
  destruct (mark_paid_settles_payment "p2" Sample.invoice (Sample.now + 5)
              Fixture.gymDb Sample.pendingPayment)
    as (db' & paid & Hrun & Hpaid & _);
    [discriminate | reflexivity | discriminate |].
  exists db', paid. split; [exact Hrun|].
  rewrite Hpaid. repeat split.
Defined.

(** X12. DELETE /payments/:id removes a PENDING payment: afterwards GET
    /payments/:id answers NotFound for it, and every other payment is found
    as before.  A payment with any other status is refused with a BadRequest
    and the store stays as it was. *)
Theorem delete_payment_only_when_pending (id : string) (db : Db)
    (payment : Payment.t) :
  id <> EmptyString ->
  PaymentsRoute.findUnique id db = Some payment ->
  if String.eqb (Payment.status payment) "PENDING"
  then
    exists db',
      PaymentsRoute.deletePayment id db
      = (db', Ok "Payment deleted successfully")
      /\ PaymentsViews.getPayment id db'
         = (db', Threw (NotFoundError "Payment not found"))
      /\ (forall id', id' <> id ->
            PaymentsRoute.findUnique id' db' = PaymentsRoute.findUnique id' db)
      /\ members db' = members db
      /\ checkIns db' = checkIns db
  else
    PaymentsRoute.deletePayment id db
    = (db, Threw (BadRequestError "Only pending payments can be deleted")).
Proof.
  intros Hid Hfind.
  unfold PaymentsRoute.deletePayment. run_handler.
  rewrite (eqb_empty_false id Hid), Hfind.
  destruct (String.eqb (Payment.status payment) "PENDING"); simpl negb;
    cbv iota; [|reflexivity].
  eexists. split; [reflexivity|].
  split; [|split; [|split; reflexivity]].
  - unfold PaymentsViews.getPayment. run_handler.
    rewrite (eqb_empty_false id Hid).
    unfold PaymentsRoute.findUnique, PaymentsRoute.delete. cbn [payments].
    rewrite (find_filter_removed Payment.id id (payments db)). reflexivity.
  - intros id' Hne.
    unfold PaymentsRoute.findUnique, PaymentsRoute.delete. cbn [payments].
    apply (find_filter_other Payment.id id id' (payments db)). exact Hne.
Qed.

Lemma delete_payment_only_when_pending_witness :
  (exists db',
     PaymentsRoute.deletePayment "p2" Fixture.gymDb
     = (db', Ok "Payment deleted successfully")
     /\ PaymentsViews.getPayment "p2" db'
        = (db', Threw (NotFoundError "Payment not found")))
  /\ PaymentsRoute.deletePayment "p1" Fixture.gymDb
     = (Fixture.gymDb,
        Threw (BadRequestError "Only pending payments can be deleted")).
Proof.
  split.
  - destruct (delete_payment_only_when_pending "p2" Fixture.gymDb
                Sample.pendingPayment) as (db' & Hdel & Hget & _);
      [discriminate | reflexivity |].
    exists db'. split; [exact Hdel | exact Hget].
  - apply (delete_payment_only_when_pending "p1" Fixture.gymDb
             Sample.paidPayment); [discriminate | reflexivity].
Defined.

(** X13. Once PATCH /payments/:id/mark-paid has succeeded, DELETE
    /payments/:id refuses the payment with a BadRequest, and it stays in the
    store. *)
Theorem settled_payment_cannot_be_deleted (id : string)
    (b : PaymentsRoute.Body) (now : Z) (db db' : Db) (paid : Payment.t) :
  PaymentsRoute.markPaid id b now db = (db', Ok paid) ->
  PaymentsRoute.deletePayment id db'
  = (db', Threw (BadRequestError "Only pending payments can be deleted"))
  /\ PaymentsRoute.findUnique id db' = Some paid.
Proof.
  unfold PaymentsRoute.markPaid. run_handler.
  destruct (String.eqb id EmptyString) eqn:Hid; [discriminate|].
  destruct (PaymentsRoute.findUnique id db) as [payment|] eqn:Hfind;
    [|discriminate].
  destruct (String.eqb (Payment.status payment) "PAID"); [discriminate|].
  intros [= <- <-].
  pose proof (findUnique_payment_update id
    {| PaymentsRoute.memberId := None; PaymentsRoute.amount := None;
       PaymentsRoute.paymentType := None;
       PaymentsRoute.status := Some "PAID";
       PaymentsRoute.dueDate := None;
       PaymentsRoute.paidAt := Some (Some now);
       PaymentsRoute.notes :=
         Js.or_else (PaymentsRoute.notes b) (Payment.notes payment) |}
    db payment Hfind) as Hafter.
  split; [|exact Hafter].
  unfold PaymentsRoute.deletePayment. run_handler.
  rewrite Hid, Hafter. reflexivity.
Qed.

Lemma settled_payment_cannot_be_deleted_witness :
  exists db',
    PaymentsRoute.markPaid "p2" Sample.noPaymentFields Sample.now Fixture.gymDb
    = (db', Ok (PaymentsRoute.applyUpdate
                  (PaymentsRoute.setPaidAt Sample.now
                     (Sample.statusChange "PAID"))
                  Sample.pendingPayment))
    /\ PaymentsRoute.deletePayment "p2" db'
       = (db', Threw (BadRequestError "Only pending payments can be deleted")).
Proof.
  exists (PaymentsRoute.update "p2"
            (PaymentsRoute.setPaidAt Sample.now (Sample.statusChange "PAID"))
            Fixture.gymDb).
  split; [reflexivity|].
  destruct (settled_payment_cannot_be_deleted "p2" Sample.noPaymentFields
              Sample.now Fixture.gymDb
              (PaymentsRoute.update "p2"
                 (PaymentsRoute.setPaidAt Sample.now
                    (Sample.statusChange "PAID"))
                 Fixture.gymDb)
              (PaymentsRoute.applyUpdate
                 (PaymentsRoute.setPaidAt Sample.now
                    (Sample.statusChange "PAID"))
                 Sample.pendingPayment)) as [Hdelete _];
    [reflexivity | exact Hdelete].
Defined.



(** ** The statistics of a member *)

Lemma reduceSum_from {A : Type} (f : A -> Z) (xs : list A) (a : Z) :
  fold_left (fun sum x => sum + f x) xs a
  = a + MemberStatsRoute.reduceSum f xs.
Proof.
  unfold MemberStatsRoute.reduceSum. revert a.
  induction xs as [|x xs IH]; intros a; simpl; [lia|].
  rewrite (IH (a + f x)), (IH (f x)). lia.
Qed.

Lemma reduceSum_cons {A : Type} (f : A -> Z) (x : A) (xs : list A) :
  MemberStatsRoute.reduceSum f (x :: xs)
  = f x + MemberStatsRoute.reduceSum f xs.
Proof.
  unfold MemberStatsRoute.reduceSum at 1. simpl. apply reduceSum_from.
Qed.

Lemma reduceSum_snoc {A : Type} (f : A -> Z) (x : A) (xs : list A) :
  MemberStatsRoute.reduceSum f (xs ++ [x])
  = MemberStatsRoute.reduceSum f xs + f x.
Proof.
  unfold MemberStatsRoute.reduceSum. rewrite fold_left_app. reflexivity.
Qed.

Lemma filter_updateUnique_outside {A : Type} (p : A -> bool)
    (key : A -> string) (f : A -> A) (id : string) (rows : list A) (r : A) :
  (forall x, p (f x) = p x) ->
  find (fun x => String.eqb (key x) id) rows = Some r ->
  p r = false ->
  filter p (updateUnique key id f rows) = filter p rows.
Proof.
  intros Hp. induction rows as [|x rows IH]; simpl; [discriminate|].
  destruct (String.eqb (key x) id).
  - intros [= ->] Hr. simpl. rewrite Hp, Hr. reflexivity.
  - intros Hfind Hr. simpl. destruct (p x); [f_equal|]; auto.
Qed.

Lemma length_filter_updateUnique {A : Type} (p : A -> bool)
    (key : A -> string) (f : A -> A) (id : string) (rows : list A) :
  (forall x, p (f x) = p x) ->
  length (filter p (updateUnique key id f rows)) = length (filter p rows).
Proof.
  intros Hp. induction rows as [|x rows IH]; simpl; [reflexivity|].
  destruct (String.eqb (key x) id); simpl.
  - rewrite Hp. destruct (p x); reflexivity.
  - destruct (p x); simpl; congruence.
Qed.

(** What a successful PATCH /payments/:id/mark-paid has done. *)
Lemma markPaid_inv (id : string) (b : PaymentsRoute.Body) (now : Z)
    (db db' : Db) (paid : Payment.t) :
  PaymentsRoute.markPaid id b now db = (db', Ok paid) ->
  exists payment data,
    PaymentsRoute.findUnique id db = Some payment
    /\ Payment.status payment <> "PAID"
    /\ PaymentsRoute.memberId data = None
    /\ PaymentsRoute.amount data = None
    /\ PaymentsRoute.status data = Some "PAID"
    /\ PaymentsRoute.paidAt data = Some (Some now)
    /\ db' = PaymentsRoute.update id data db
    /\ paid = PaymentsRoute.applyUpdate data payment.
Proof.
  unfold PaymentsRoute.markPaid. run_handler.
  destruct (String.eqb id EmptyString); [discriminate|].
  destruct (PaymentsRoute.findUnique id db) as [payment|]; [|discriminate].
  destruct (String.eqb (Payment.status payment) "PAID") eqn:E; [discriminate|].
  intros [= <- <-]. eexists payment, _.
  split; [reflexivity|]. split; [apply String.eqb_neq; exact E|].
  repeat split; reflexivity.
Qed.

(** Sums with one more term.  The additions of the code round; what the
    bounds below use of an addition is that it is monotone and that adding
    a number that is not negative does not lower a sum. *)
Section Sums.

Variable A : Type.
Variable add : Z -> Z -> Z.
Variable f : A -> Z.

Hypothesis add_monotone :
  forall a a' b b', a <= a' -> b <= b' -> add a b <= add a' b'.
Hypothesis add_zero_l : forall b, add 0 b = b.
Hypothesis add_zero_r : forall a, add a 0 = a.

Lemma fold_left_monotone (l : list A) (a a' : Z) :
  a <= a' ->
  fold_left (fun sum x => add sum (f x)) l a
  <= fold_left (fun sum x => add sum (f x)) l a'.
Proof.
  revert a a'. induction l as [|x l IH]; intros a a' Hle; simpl; [exact Hle|].
  apply IH. apply add_monotone; [exact Hle | lia].
Qed.

Lemma fold_left_inserted (earlier later : list A) (x : A) (a : Z) :
  0 <= f x ->
  fold_left (fun sum y => add sum (f y)) (earlier ++ later) a
  <= fold_left (fun sum y => add sum (f y)) (earlier ++ x :: later) a.
Proof.
  intros Hx. rewrite !fold_left_app. simpl.
  apply fold_left_monotone.
  rewrite <- (add_zero_r (fold_left _ earlier a)) at 1.
  apply add_monotone; [lia | exact Hx].
Qed.

Lemma fold_right_inserted (earlier later : list A) (x : A) :
  0 <= f x ->
  fold_right (fun y acc => add (f y) acc) 0 (earlier ++ later)
  <= fold_right (fun y acc => add (f y) acc) 0 (earlier ++ x :: later).
Proof.
  intros Hx. induction earlier as [|y earlier IH]; simpl.
  - rewrite <- (add_zero_l (fold_right _ 0 later)) at 1.
    apply add_monotone; [exact Hx | lia].
  - apply add_monotone; [lia | exact IH].
Qed.

End Sums.

Lemma filter_nested {A : Type} (p q : A -> bool) (rows : list A) :
  filter q (filter p rows) = filter (fun x => p x && q x) rows.
Proof.
  induction rows as [|x rows IH]; simpl; [reflexivity|].
  destruct (p x); simpl; [|exact IH]. destruct (q x); [f_equal|]; exact IH.
Qed.

(** The rows a test selects after the row with the key, which failed the
    test, was rewritten to pass it: the rows selected before, with the
    rewritten row at its place among them. *)
Lemma filter_updateUnique_inserted {A : Type} (p : A -> bool)
    (key : A -> string) (f : A -> A) (id : string) (rows : list A) (r : A) :
  find (fun x => String.eqb (key x) id) rows = Some r ->
  p r = false ->
  p (f r) = true ->
  exists earlier later,
    filter p rows = (earlier ++ later)%list
    /\ filter p (updateUnique key id f rows) = (earlier ++ f r :: later)%list.
Proof.
  induction rows as [|x rows IH]; cbn [find updateUnique]; [discriminate|].
  destruct (String.eqb (key x) id).
  - intros [= ->] Hr Hfr. exists [], (filter p rows).
    cbn [filter app]. rewrite Hr, Hfr. split; reflexivity.
  - intros Hfind Hr Hfr.
    destruct (IH Hfind Hr Hfr) as (earlier & later & Hbefore & Hafter).
    cbn [filter]. rewrite Hbefore, Hafter.
    destruct (p x);
      [exists (x :: earlier), later | exists earlier, later];
      split; reflexivity.
Qed.

(** X15. After PATCH /payments/:id/mark-paid has succeeded, GET
    /members/:id/stats of the member of the payment counts the payment among
    the paid ones: the payments whose amounts make up the total paid are
    those of before, in the order of the store, with the settled payment at
    its place among them; so the total paid does not go down when the
    amount is not negative.  The counts of check-ins, payments and workouts
    and the workout totals are as before, and so are the statistics of
    every other member.  (The total is a sum of numbers that need not be
    whole, added one after the other; nothing here rests on the sum being
    exact.) *)
Theorem settled_payment_counts_in_member_stats (id : string)
    (b : PaymentsRoute.Body) (now : Z) (db db' : Db) (paid : Payment.t)
    (workouts : list Workout.t) (stats : MemberStatsRoute.Stats) :
  PaymentsRoute.markPaid id b now db = (db', Ok paid) ->
  MemberStatsRoute.getStats (Payment.memberId paid) db workouts = Ok stats ->
  let paidOf (store : Db) : list Payment.t :=
    filter (fun p => String.eqb (Payment.status p) "PAID")
      (filter (fun p => String.eqb (Payment.memberId p) (Payment.memberId paid))
         (payments store)) in
  exists stats' earlier later,
    MemberStatsRoute.getStats (Payment.memberId paid) db' workouts = Ok stats'
    /\ paidOf db = (earlier ++ later)%list
    /\ paidOf db' = (earlier ++ paid :: later)%list
    /\ MemberStatsRoute.totalPaid stats
       = MemberStatsRoute.reduceSum Payment.amount (earlier ++ later)
    /\ MemberStatsRoute.totalPaid stats'
       = MemberStatsRoute.reduceSum Payment.amount (earlier ++ paid :: later)
    /\ (0 <= Payment.amount paid ->
        MemberStatsRoute.totalPaid stats <= MemberStatsRoute.totalPaid stats')
    /\ MemberStatsRoute.checkInCount stats'
       = MemberStatsRoute.checkInCount stats
    /\ MemberStatsRoute.paymentCount stats'
       = MemberStatsRoute.paymentCount stats
    /\ MemberStatsRoute.workoutCount stats'
       = MemberStatsRoute.workoutCount stats
    /\ MemberStatsRoute.totalWorkoutDuration stats'
       = MemberStatsRoute.totalWorkoutDuration stats
    /\ MemberStatsRoute.totalCalories stats'
       = MemberStatsRoute.totalCalories stats
    /\ (forall other,
          other <> Payment.memberId paid ->
          MemberStatsRoute.getStats other db' workouts
          = MemberStatsRoute.getStats other db workouts).
Proof.
  intros Hmark Hstats paidOf.
  apply markPaid_inv in Hmark.
  destruct Hmark
    as (payment & data & Hfind & Hunpaid & Hm & Ha & Hs & _ & -> & ->).
  assert (Hof : Payment.memberId (PaymentsRoute.applyUpdate data payment)
                = Payment.memberId payment)
    by (simpl; rewrite Hm; reflexivity).
  assert (Hamount : Payment.amount (PaymentsRoute.applyUpdate data payment)
                    = Payment.amount payment)
    by (simpl; rewrite Ha; reflexivity).
  assert (Hstatus : Payment.status (PaymentsRoute.applyUpdate data payment)
                    = "PAID")
    by (simpl; rewrite Hs; reflexivity).
  assert (Hkeeps : forall (m : string) (x : Payment.t),
            String.eqb (Payment.memberId (PaymentsRoute.applyUpdate data x)) m
            = String.eqb (Payment.memberId x) m)
    by (intros m x; simpl; rewrite Hm; reflexivity).
  unfold paidOf. clear paidOf. rewrite Hof in *.
  destruct (filter_updateUnique_inserted
              (fun p => String.eqb (Payment.memberId p)
                          (Payment.memberId payment)
                        && String.eqb (Payment.status p) "PAID")
              Payment.id (PaymentsRoute.applyUpdate data) id (payments db)
              payment Hfind)
    as (earlier & later & Hbefore & Hafter).
  { apply String.eqb_neq in Hunpaid. rewrite Hunpaid. apply andb_false_r. }
  { rewrite Hof, Hstatus, String.eqb_refl. reflexivity. }
  rewrite <- !filter_nested in Hbefore, Hafter.
  unfold MemberStatsRoute.getStats in *.
  destruct (String.eqb (Payment.memberId payment) EmptyString);
    [discriminate|].
  change (MembersRoute.findUnique (Payment.memberId payment)
            (PaymentsRoute.update id data db))
    with (MembersRoute.findUnique (Payment.memberId payment) db).
  destruct (MembersRoute.findUnique (Payment.memberId payment) db);
    [|discriminate].
  injection Hstats as <-.
  eexists _, earlier, later. split; [reflexivity|].
  cbn [MemberStatsRoute.checkInCount
    MemberStatsRoute.paymentCount MemberStatsRoute.totalPaid
    MemberStatsRoute.workoutCount MemberStatsRoute.totalWorkoutDuration
    MemberStatsRoute.totalCalories PaymentsRoute.update payments checkIns].
  split; [exact Hbefore|]. split; [exact Hafter|].
  split; [rewrite Hbefore; reflexivity|].
  split; [rewrite Hafter; reflexivity|].
  split.
  { intros Hnonneg. rewrite Hbefore, Hafter.
    apply (fold_left_inserted Payment.t Z.add Payment.amount);
      [intros; lia | intros; lia | exact Hnonneg]. }
  split; [reflexivity|].
  split.
  { rewrite (length_filter_updateUnique
               (fun p => String.eqb (Payment.memberId p)
                           (Payment.memberId payment))
               Payment.id (PaymentsRoute.applyUpdate data) id (payments db)
               (Hkeeps (Payment.memberId payment))).
    reflexivity. }
  split; [reflexivity|]. split; [reflexivity|]. split; [reflexivity|].
  intros other Hother.
  destruct (String.eqb other EmptyString); [reflexivity|].
  change (MembersRoute.findUnique other (PaymentsRoute.update id data db))
    with (MembersRoute.findUnique other db).
  destruct (MembersRoute.findUnique other db); [|reflexivity].
  cbn [PaymentsRoute.update payments checkIns].
  rewrite (filter_updateUnique_outside
             (fun p => String.eqb (Payment.memberId p) other)
             Payment.id (PaymentsRoute.applyUpdate data) id (payments db)
             payment (Hkeeps other) Hfind).
  + reflexivity.
  + apply String.eqb_neq. congruence.
Qed.

Lemma settled_payment_counts_in_member_stats_witness :
  exists db' stats',
    PaymentsRoute.markPaid "p2" Sample.noPaymentFields Sample.now Fixture.gymDb
    = (db', Ok Fixture.settled)
    /\ MemberStatsRoute.getStats "m1" db' Fixture.workouts = Ok stats'
    /\ MemberStatsRoute.totalPaid stats'
       = MemberStatsRoute.reduceSum Payment.amount
           [Sample.paidPayment; Fixture.settled]
    /\ MemberStatsRoute.paymentCount stats' = 2.
Proof.
  exists (PaymentsRoute.update "p2"
            (PaymentsRoute.setPaidAt Sample.now (Sample.statusChange "PAID"))
            Fixture.gymDb).
  destruct (settled_payment_counts_in_member_stats "p2" Sample.noPaymentFields
              Sample.now Fixture.gymDb
              (PaymentsRoute.update "p2"
                 (PaymentsRoute.setPaidAt Sample.now
                    (Sample.statusChange "PAID"))
                 Fixture.gymDb)
              Fixture.settled Fixture.workouts
              {| MemberStatsRoute.checkInCount := 1;
                 MemberStatsRoute.paymentCount := 2;
                 MemberStatsRoute.totalPaid := 150000;
                 MemberStatsRoute.workoutCount := 2;
                 MemberStatsRoute.totalWorkoutDuration := 105;
                 MemberStatsRoute.totalCalories := 400 |})
    as (stats' & earlier & later & Hstats & _ & Hafter & _ & Htotal & _ & _
        & Hcount & _); [reflexivity | reflexivity |].
  exists stats'. split; [reflexivity|]. split; [exact Hstats|].
  split; [|exact Hcount].
  rewrite Htotal, <- Hafter. reflexivity.
Defined.

(** ** Workouts *)

Lemma find_none_filter {A : Type} (p : A -> bool) (rows : list A) :
  find p rows = None -> filter (fun x => negb (p x)) rows = rows.
Proof.
  induction rows as [|x rows IH]; simpl; [reflexivity|].
  destruct (p x); [discriminate|]. simpl. intros H. f_equal. exact (IH H).
Qed.

(** What a successful POST /workouts has done. *)
Lemma postWorkout_inv (b : WorkoutsRoute.Body) (now : Z) (newId : string)
    (db : Db) (workouts workouts' : list Workout.t) (w : Workout.t) :
  WorkoutsRoute.postWorkout b now newId db workouts = (workouts', Ok w) ->
  WorkoutsRoute.validateWorkout b = []
  /\ (exists member,
        MembersRoute.findUnique (Workout.memberId w) db = Some member)
  /\ workouts' = (workouts ++ [w])%list
  /\ w = {| Workout.id := newId;
            Workout.memberId := field EmptyString (WorkoutsRoute.memberId b);
            Workout.workoutType :=
              field EmptyString (WorkoutsRoute.workoutType b);
            Workout.duration := field 0 (WorkoutsRoute.duration b);
            Workout.calories := WorkoutsRoute.calories b;
            Workout.workoutAt := field now (WorkoutsRoute.workoutAt b);
            Workout.notes := WorkoutsRoute.notes b |}.
Proof.
  unfold WorkoutsRoute.postWorkout.
  destruct (WorkoutsRoute.validateWorkout b); [|discriminate].
  destruct (MembersRoute.findUnique _ db) as [member|] eqn:Hmember;
    [|discriminate].
  intros [= <- <-]. split; [reflexivity|].
  split; [exists member; exact Hmember|].
  split; [reflexivity|].
  destruct (WorkoutsRoute.workoutAt b); reflexivity.
Qed.

Lemma validateWorkout_nil (b : WorkoutsRoute.Body) :
  WorkoutsRoute.validateWorkout b = [] ->
  field EmptyString (WorkoutsRoute.memberId b) <> EmptyString
  /\ In (field EmptyString (WorkoutsRoute.workoutType b))
       WorkoutsRoute.workoutTypes
  /\ 1 <= field 0 (WorkoutsRoute.duration b)
  /\ match WorkoutsRoute.calories b with
     | Some c => 0 <= c
     | None => True
     end.
Proof.
  unfold WorkoutsRoute.validateWorkout. intros H.
  apply app_eq_nil in H. destruct H as [Hmember H].
  apply app_eq_nil in H. destruct H as [Htype H].
  apply app_eq_nil in H. destruct H as [Hduration Hcalories].
  apply required_nil in Hmember. apply required_nil in Htype.
  apply optional_nil in Hcalories.
  split; [|split; [|split]].
  - unfold WorkoutsRoute.notEmpty in Hmember.
    apply negb_true_iff, String.eqb_neq in Hmember. exact Hmember.
  - apply isIn_In. exact Htype.
  - destruct (WorkoutsRoute.duration b) as [d|]; [|discriminate].
    apply check_nil in Hduration. simpl. lia.
  - destruct (WorkoutsRoute.calories b) as [c|]; [lia | exact I].
Qed.

(** X16. After POST /workouts has recorded a workout, GET
    /members/:id/stats of its member counts one workout more, with the
    duration of the workout added to the total duration and its calories (0
    when it has none) to the total calories; check-ins and payments are as
    before, and so are the statistics of every other member. *)
Theorem recorded_workout_counts_in_member_stats (b : WorkoutsRoute.Body)
    (now : Z) (newId : string) (db : Db) (workouts workouts' : list Workout.t)
    (w : Workout.t) :
  WorkoutsRoute.postWorkout b now newId db workouts = (workouts', Ok w) ->
  exists stats,
    MemberStatsRoute.getStats (Workout.memberId w) db workouts = Ok stats
    /\ MemberStatsRoute.getStats (Workout.memberId w) db workouts'
       = Ok {| MemberStatsRoute.checkInCount :=
                 MemberStatsRoute.checkInCount stats;
               MemberStatsRoute.paymentCount :=
                 MemberStatsRoute.paymentCount stats;
               MemberStatsRoute.totalPaid := MemberStatsRoute.totalPaid stats;
               MemberStatsRoute.workoutCount :=
                 MemberStatsRoute.workoutCount stats + 1;
               MemberStatsRoute.totalWorkoutDuration :=
                 MemberStatsRoute.totalWorkoutDuration stats
                 + Workout.duration w;
               MemberStatsRoute.totalCalories :=
                 MemberStatsRoute.totalCalories stats
                 + field 0 (Workout.calories w) |}
    /\ (forall other,
          other <> Workout.memberId w ->
          MemberStatsRoute.getStats other db workouts'
          = MemberStatsRoute.getStats other db workouts).
Proof.
  intros Hpost. apply postWorkout_inv in Hpost.
  destruct Hpost as (Hvalid & [member Hmember] & -> & Hw).
  apply validateWorkout_nil in Hvalid. destruct Hvalid as [Hid _].
  assert (Hof : Workout.memberId w
                = field EmptyString (WorkoutsRoute.memberId b))
    by (rewrite Hw; reflexivity).
  rewrite <- Hof in Hid. clear Hw Hof.
  unfold MemberStatsRoute.getStats.
  rewrite (eqb_empty_false _ Hid), Hmember.
  eexists. split; [reflexivity|].
  cbn [MemberStatsRoute.checkInCount MemberStatsRoute.paymentCount
       MemberStatsRoute.totalPaid MemberStatsRoute.workoutCount
       MemberStatsRoute.totalWorkoutDuration MemberStatsRoute.totalCalories].
  split.
  - rewrite filter_app. cbn [filter]. rewrite String.eqb_refl.
    rewrite length_app, !reduceSum_snoc. cbn [length].
    do 2 f_equal. lia.
  - intros other Hother.
    destruct (String.eqb other EmptyString); [reflexivity|].
    destruct (MembersRoute.findUnique other db); [|reflexivity].
    rewrite filter_app. cbn [filter].
    assert (Hne : String.eqb (Workout.memberId w) other = false)
      by (apply String.eqb_neq; congruence).
    rewrite Hne, app_nil_r. reflexivity.
Qed.

Lemma recorded_workout_counts_in_member_stats_witness :
  exists workouts' w,
    WorkoutsRoute.postWorkout (Fixture.session "m1" 90) Sample.now "w4"
      Fixture.gymDb Fixture.workouts = (workouts', Ok w)
    /\ MemberStatsRoute.getStats "m1" Fixture.gymDb workouts'
       = Ok {| MemberStatsRoute.checkInCount := 1;
               MemberStatsRoute.paymentCount := 2;
               MemberStatsRoute.totalPaid := 150000;
               MemberStatsRoute.workoutCount := 3;
               MemberStatsRoute.totalWorkoutDuration := 195;
               MemberStatsRoute.totalCalories := 650 |}.
Proof.
  pose (w := {| Workout.id := "w4"; Workout.memberId := "m1";
                Workout.workoutType := "SPORTS"; Workout.duration := 90;
                Workout.calories := Some 250; Workout.workoutAt := Sample.now;
                Workout.notes := Some "football" |}).
  exists (Fixture.workouts ++ [w])%list, w. split; [reflexivity|].
  destruct (recorded_workout_counts_in_member_stats (Fixture.session "m1" 90)
              Sample.now "w4" Fixture.gymDb Fixture.workouts
              (Fixture.workouts ++ [w])%list w eq_refl)
    as (stats & Hbefore & Hafter & _).
  injection Hbefore as <-. exact Hafter.
Defined.

(** X17. A workout recorded by POST /workouts under a fresh identifier is
    what GET /workouts/:id returns for it; its date is the date of the body,
    or the time of the request when the body has none; the workouts recorded
    before are found as before; and DELETE /workouts/:id of the new workout
    gives back the table as it was before the POST. *)
Theorem workout_create_delete_round_trip (b : WorkoutsRoute.Body) (now : Z)
    (newId : string) (db : Db) (workouts workouts' : list Workout.t)
    (w : Workout.t) :
  newId <> EmptyString ->
  WorkoutsRoute.findUnique newId workouts = None ->
  WorkoutsRoute.postWorkout b now newId db workouts = (workouts', Ok w) ->
  WorkoutsRoute.getWorkout newId workouts' = Ok w
  /\ Workout.workoutAt w = field now (WorkoutsRoute.workoutAt b)
  /\ (forall id, id <> newId ->
        WorkoutsRoute.getWorkout id workouts'
        = WorkoutsRoute.getWorkout id workouts)
  /\ WorkoutsRoute.deleteWorkout newId workouts'
     = (workouts, Ok "Workout deleted successfully").
Proof.
  intros HnewId Hfresh Hpost. apply postWorkout_inv in Hpost.
  destruct Hpost as (_ & _ & -> & Hw).
  assert (Hid : Workout.id w = newId) by (rewrite Hw; reflexivity).
  assert (Hfound : WorkoutsRoute.findUnique newId (workouts ++ [w]) = Some w).
  { unfold WorkoutsRoute.findUnique. apply find_app_new; [exact Hfresh|].
    rewrite Hid. apply String.eqb_refl. }
  split; [|split; [|split]].
  - unfold WorkoutsRoute.getWorkout. rewrite Hfound. reflexivity.
  - rewrite Hw. reflexivity.
  - intros id Hne. unfold WorkoutsRoute.getWorkout, WorkoutsRoute.findUnique.
    rewrite find_app_old; [reflexivity|].
    rewrite Hid. apply String.eqb_neq. congruence.
  - unfold WorkoutsRoute.deleteWorkout.
    rewrite (eqb_empty_false _ HnewId), Hfound.
    unfold WorkoutsRoute.delete. rewrite filter_app. cbn [filter].
    rewrite Hid, String.eqb_refl. cbn [negb]. rewrite app_nil_r.
    f_equal. apply (find_none_filter _ _ Hfresh).
Qed.

Lemma workout_create_delete_round_trip_witness :
  exists workouts' w,
    WorkoutsRoute.postWorkout (Fixture.session "m7" 20) Sample.now "w4"
      Fixture.gymDb Fixture.workouts = (workouts', Ok w)
    /\ Workout.workoutAt w = Sample.now
    /\ WorkoutsRoute.deleteWorkout "w4" workouts'
       = (Fixture.workouts, Ok "Workout deleted successfully").
Proof.
  pose (w := {| Workout.id := "w4"; Workout.memberId := "m7";
                Workout.workoutType := "SPORTS"; Workout.duration := 20;
                Workout.calories := Some 250; Workout.workoutAt := Sample.now;
                Workout.notes := Some "football" |}).
  exists (Fixture.workouts ++ [w])%list, w. split; [reflexivity|].
  destruct (workout_create_delete_round_trip (Fixture.session "m7" 20)
              Sample.now "w4" Fixture.gymDb Fixture.workouts
              (Fixture.workouts ++ [w])%list w)
    as (_ & Hat & _ & Hdelete);
    [discriminate | reflexivity | reflexivity |].
  split; [exact Hat | exact Hdelete].
Defined.

Lemma validateWorkoutUpdate_nil (b : WorkoutsRoute.Body) :
  WorkoutsRoute.validateWorkoutUpdate b = [] ->
  match WorkoutsRoute.workoutType b with
  | Some t => In t WorkoutsRoute.workoutTypes
  | None => True
  end
  /\ match WorkoutsRoute.duration b with
     | Some d => 1 <= d
     | None => True
     end
  /\ match WorkoutsRoute.calories b with
     | Some c => 0 <= c
     | None => True
     end.
Proof.
  unfold WorkoutsRoute.validateWorkoutUpdate. intros H.
  apply app_eq_nil in H. destruct H as [Htype H].
  apply app_eq_nil in H. destruct H as [Hduration Hcalories].
  apply optional_nil in Htype, Hduration, Hcalories.
  split; [|split].
  - destruct (WorkoutsRoute.workoutType b); [apply isIn_In; exact Htype | exact I].
  - destruct (WorkoutsRoute.duration b); [lia | exact I].
  - destruct (WorkoutsRoute.calories b); [lia | exact I].
Qed.

(** X18. If every workout in the table has one of the five workout types, a
    duration of at least one minute and calories that are absent or not
    negative, then so has every workout after POST /workouts, PUT
    /workouts/:id and DELETE /workouts/:id, whatever the request and whether
    it succeeds or not. *)
Theorem workout_rows_stay_valid (db : Db) (workouts : list Workout.t) :
  Forall Invariant.validWorkout workouts ->
  (forall b now newId,
      Forall Invariant.validWorkout
        (fst (WorkoutsRoute.postWorkout b now newId db workouts)))
  /\ (forall id b,
        Forall Invariant.validWorkout
          (fst (WorkoutsRoute.putWorkout id b workouts)))
  /\ (forall id,
        Forall Invariant.validWorkout
          (fst (WorkoutsRoute.deleteWorkout id workouts))).
Proof.
  intros Hall. split; [|split].
  - intros b now newId. unfold WorkoutsRoute.postWorkout.
    destruct (WorkoutsRoute.validateWorkout b) eqn:Hvalid; [|exact Hall].
    destruct (MembersRoute.findUnique _ db); [|exact Hall].
    cbn [fst]. apply Forall_app. split; [exact Hall|].
    constructor; [|constructor].
    destruct (validateWorkout_nil b Hvalid) as (_ & Htype & Hduration & Hcal).
    unfold Invariant.validWorkout.
    cbn [Workout.workoutType Workout.duration Workout.calories].
    split; [exact Htype | split; [exact Hduration | exact Hcal]].
  - intros id b. unfold WorkoutsRoute.putWorkout.
    destruct (WorkoutsRoute.validateWorkoutUpdate b) eqn:Hvalid; [|exact Hall].
    destruct (String.eqb id EmptyString); [exact Hall|].
    destruct (WorkoutsRoute.findUnique id workouts) as [existing|] eqn:Hfind;
      [|exact Hall].
    cbn [fst].
    apply (Forall_updateUnique _ _ _ _ _ existing); [exact Hfind | | exact Hall].
    destruct (validateWorkoutUpdate_nil b Hvalid) as (Htype & Hduration & Hcal).
    assert (Hold : Invariant.validWorkout existing).
    { unfold WorkoutsRoute.findUnique in Hfind. apply find_some in Hfind.
      rewrite Forall_forall in Hall. apply Hall, Hfind. }
    destruct Hold as (Htype0 & Hduration0 & Hcal0).
    unfold Invariant.validWorkout, WorkoutsRoute.applyUpdate,
      WorkoutsRoute.sanitizeUpdate.
    cbn [Workout.workoutType Workout.duration Workout.calories
         WorkoutsRoute.workoutType WorkoutsRoute.duration
         WorkoutsRoute.calories].
    split; [|split].
    + destruct (WorkoutsRoute.workoutType b); [exact Htype | exact Htype0].
    + destruct (WorkoutsRoute.duration b); [exact Hduration | exact Hduration0].
    + destruct (WorkoutsRoute.calories b); [exact Hcal | exact Hcal0].
  - intros id. unfold WorkoutsRoute.deleteWorkout.
    destruct (String.eqb id EmptyString); [exact Hall|].
    destruct (WorkoutsRoute.findUnique id workouts); [|exact Hall].
    cbn [fst]. unfold WorkoutsRoute.delete.
    rewrite Forall_forall in *. intros w Hw. apply filter_In in Hw.
    apply Hall, Hw.
Qed.

Lemma workout_rows_stay_valid_witness :
  Forall Invariant.validWorkout
    (fst (WorkoutsRoute.postWorkout (Fixture.session "m7" 20) Sample.now "w4"
            Fixture.gymDb Fixture.workouts))
  /\ Forall Invariant.validWorkout
       (fst (WorkoutsRoute.putWorkout "w2" (Fixture.session "m7" 0)
               Fixture.workouts)).
Proof.
  assert (Hbefore : Forall Invariant.validWorkout Fixture.workouts).
  { repeat constructor; simpl; auto 8; try lia;
      unfold Sample.now, Spec.days; lia. }
  destruct (workout_rows_stay_valid Fixture.gymDb Fixture.workouts Hbefore)
    as (Hpost & Hput & _).
  split; [apply Hpost | apply Hput].
Defined.

Lemma sumOrZero_reduceSum {A : Type} (g : A -> option Z) (rows : list A) :
  WorkoutsRoute.sumOrZero (map g rows)
  = MemberStatsRoute.reduceSum (fun x => field 0 (g x)) rows.
Proof.
  induction rows as [|x rows IH]; [reflexivity|].
  rewrite reduceSum_cons. simpl. rewrite IH. reflexivity.
Qed.

Lemma validateWorkoutsQuery_nil (q : WorkoutsRoute.Query) :
  WorkoutsRoute.validateQuery q = [] ->
  1 <= MembersRoute.numberOr 1 (WorkoutsRoute.page q)
  /\ 1 <= MembersRoute.numberOr 10 (WorkoutsRoute.limit q) <= 100
  /\ match WorkoutsRoute.q_workoutType q with
     | Some t => In t WorkoutsRoute.workoutTypes
     | None => True
     end.
Proof.
  unfold WorkoutsRoute.validateQuery. intros H.
  apply app_eq_nil in H. destruct H as [Hpage H].
  apply app_eq_nil in H. destruct H as [Hlimit H].
  apply app_eq_nil in H. destruct H as [Htype _].
  split; [exact (page_bounds _ _ Hpage)|].
  split; [exact (limit_bounds _ _ Hlimit)|].
  apply optional_nil in Htype.
  destruct (WorkoutsRoute.q_workoutType q); [apply isIn_In; exact Htype | exact I].
Qed.

(** The where clause of GET /workouts, read on a workout. *)
Lemma workouts_where_spec (memberId workoutType : option string)
    (startDate endDate : option Z) (w : Workout.t) :
  WorkoutsRoute.matchesWhere
    (WorkoutsRoute.buildWhere memberId workoutType startDate endDate) w = true
  <-> (forall m, memberId = Some m -> m <> EmptyString ->
         Workout.memberId w = m)
      /\ (forall t, workoutType = Some t -> t <> EmptyString ->
            Workout.workoutType w = t)
      /\ (forall s, startDate = Some s -> s <= Workout.workoutAt w)
      /\ (forall e, endDate = Some e -> Workout.workoutAt w <= e).
Proof.
  unfold WorkoutsRoute.matchesWhere, WorkoutsRoute.buildWhere,
    WorkoutsRoute.dateRange.
  cbn [WorkoutsRoute.w_memberId WorkoutsRoute.w_workoutType
       WorkoutsRoute.w_workoutAt].
  rewrite !andb_true_iff.
  assert (Hkey : forall (v : option string) (x : string),
            match (if Js.truthy v then v else None) with
            | Some m => String.eqb x m
            | None => true
            end = true
            <-> (forall m, v = Some m -> m <> EmptyString -> x = m)).
  { intros [m|] x; simpl.
    - destruct (String.eqb m EmptyString) eqn:E; simpl.
      + apply String.eqb_eq in E. split; [|reflexivity].
        intros _ m' [= <-] Hne. contradiction.
      + apply String.eqb_neq in E. rewrite String.eqb_eq. split.
        * intros -> m' [= <-] _. reflexivity.
        * intros H. apply (H m eq_refl E).
    - split; [intros _ m; discriminate | reflexivity]. }
  rewrite (Hkey memberId (Workout.memberId w)).
  rewrite (Hkey workoutType (Workout.workoutType w)).
  assert (Hrange :
    match (if WorkoutsRoute.isSome startDate || WorkoutsRoute.isSome endDate
           then Some (startDate, endDate) else None) with
    | Some (gte, lte) =>
        match gte with Some g => g <=? Workout.workoutAt w | None => true end
        && match lte with Some l => Workout.workoutAt w <=? l | None => true end
    | None => true
    end = true
    <-> (forall s, startDate = Some s -> s <= Workout.workoutAt w)
        /\ (forall e, endDate = Some e -> Workout.workoutAt w <= e)).
  { destruct startDate as [s|], endDate as [e|];
      cbn [WorkoutsRoute.isSome orb];
      rewrite ?andb_true_iff, ?Z.leb_le;
      (split;
       [ intros H; split; intros x [= Hx]; subst; intuition lia
       | intros [Hs He]; repeat split;
         try (apply Hs; reflexivity); try (apply He; reflexivity) ]). }
  rewrite Hrange. tauto.
Qed.

(** X19. A valid GET /workouts lists workouts of the table that all fall in
    the requested window: not before the start date and not after the end
    date, both ends included, of the requested type, and of the requested
    member (the member filter is trimmed, and dropped when it is empty).
    [total] counts exactly the workouts of the table that fall in the window,
    and the page holds no more of them than the limit. *)
Theorem getWorkouts_date_window
    (orderBy : string -> string -> list Workout.t -> list Workout.t)
    (q : WorkoutsRoute.Query) (workouts : list Workout.t) :
  (forall key order rows, length (orderBy key order rows) = length rows) ->
  (forall key order rows w, In w (orderBy key order rows) -> In w rows) ->
  WorkoutsRoute.validateQuery q = [] ->
  let inWindow (w : Workout.t) : Prop :=
    (forall m, WorkoutsRoute.q_memberId q = Some m ->
       Js.trim m <> EmptyString -> Workout.memberId w = Js.trim m)
    /\ (forall t, WorkoutsRoute.q_workoutType q = Some t ->
          Workout.workoutType w = t)
    /\ (forall s, WorkoutsRoute.startDate q = Some s ->
          s <= Workout.workoutAt w)
    /\ (forall e, WorkoutsRoute.endDate q = Some e ->
          Workout.workoutAt w <= e) in
  let whereClause :=
    WorkoutsRoute.buildWhere (option_map Js.trim (WorkoutsRoute.q_memberId q))
      (WorkoutsRoute.q_workoutType q) (WorkoutsRoute.startDate q)
      (WorkoutsRoute.endDate q) in
  exists listing,
    WorkoutsRoute.getWorkouts orderBy q workouts = Ok listing
    /\ (forall w, WorkoutsRoute.matchesWhere whereClause w = true
                  <-> inWindow w)
    /\ MembersRoute.p_total (WorkoutsRoute.l_pagination listing)
       = Z.of_nat
           (length (filter (WorkoutsRoute.matchesWhere whereClause) workouts))
    /\ (forall w, In w (WorkoutsRoute.l_workouts listing) ->
          In w workouts /\ inWindow w)
    /\ Z.of_nat (length (WorkoutsRoute.l_workouts listing))
       <= MembersRoute.p_limit (WorkoutsRoute.l_pagination listing)
       <= 100.
Proof.
  intros Hlength Hin Hvalid inWindow whereClause.
  destruct (validateWorkoutsQuery_nil q Hvalid) as (Hpage & Hlimit & Htype).
  assert (Hwindow : forall w, WorkoutsRoute.matchesWhere whereClause w = true
                              <-> inWindow w).
  { intros w. unfold whereClause.
    rewrite workouts_where_spec. unfold inWindow.
    assert (Hmember :
      (forall m, option_map Js.trim (WorkoutsRoute.q_memberId q) = Some m ->
         m <> EmptyString -> Workout.memberId w = m)
      <-> (forall m, WorkoutsRoute.q_memberId q = Some m ->
             Js.trim m <> EmptyString -> Workout.memberId w = Js.trim m)).
    { destruct (WorkoutsRoute.q_memberId q) as [m0|]; simpl.
      - split.
        + intros H m [= <-] Hne. apply H; [reflexivity | exact Hne].
        + intros H m [= <-] Hne. apply H; [reflexivity | exact Hne].
      - split; intros _ m; discriminate. }
    assert (Hkind :
      (forall t, WorkoutsRoute.q_workoutType q = Some t -> t <> EmptyString ->
         Workout.workoutType w = t)
      <-> (forall t, WorkoutsRoute.q_workoutType q = Some t ->
             Workout.workoutType w = t)).
    { destruct (WorkoutsRoute.q_workoutType q) as [t0|].
      - split.
        + intros H t [= <-]. apply H; [reflexivity|].
          intros ->. simpl in Htype. intuition discriminate.
        + intros H t Ht _. apply H. exact Ht.
      - split; intros _ t; discriminate. }
    rewrite Hmember, Hkind. reflexivity. }
  unfold WorkoutsRoute.getWorkouts. rewrite Hvalid.
  fold whereClause.
  eexists. split; [reflexivity|].
  cbn [WorkoutsRoute.l_workouts WorkoutsRoute.l_pagination
       MembersRoute.p_total MembersRoute.p_limit].
  destruct (page_slice
              (orderBy (field "workoutAt" (WorkoutsRoute.sortBy q))
                 (field "desc" (WorkoutsRoute.sortOrder q)))
              (filter (WorkoutsRoute.matchesWhere whereClause) workouts)
              (MembersRoute.numberOr 1 (WorkoutsRoute.page q))
              (MembersRoute.numberOr 10 (WorkoutsRoute.limit q)))
    as (Hshort & Hsub & _ & _);
    [apply Hlength | apply Hin | exact Hpage | lia |].
  split; [exact Hwindow|]. split; [reflexivity|].
  split; [|lia].
  intros w Hw. apply Hsub, filter_In in Hw. destruct Hw as [Hw Hmatch].
  split; [exact Hw | apply Hwindow; exact Hmatch].
Qed.

Lemma getWorkouts_date_window_witness :
  exists listing,
    WorkoutsRoute.getWorkouts Fixture.orderWorkouts Fixture.lastTwoDays
      Fixture.workouts = Ok listing
    /\ WorkoutsRoute.l_workouts listing = [Fixture.lift; Fixture.stretch]
    /\ MembersRoute.p_total (WorkoutsRoute.l_pagination listing) = 2.
Proof.
  destruct (getWorkouts_date_window Fixture.orderWorkouts Fixture.lastTwoDays
              Fixture.workouts)
    as (listing & Hrun & _);
    [intros; reflexivity | intros key order rows w H; exact H | reflexivity |].
  exists listing. split; [exact Hrun|].
  injection Hrun as <-. split; reflexivity.
Defined.

(** X20. The statistics in a successful answer of GET
    /workouts/member/:memberId/history are those of GET /members/:id/stats
    for the same member: the number of workouts, the total duration and the
    total calories of all workouts of the member.  They do not depend on the
    date window or the page of the request, and [total] of the pagination,
    which counts the workouts in the window, is never above the number of
    workouts. *)
Theorem history_stats_cover_all_workouts
    (orderBy : string -> string -> list Workout.t -> list Workout.t)
    (memberId : string) (q : WorkoutsRoute.Query) (db : Db)
    (workouts : list Workout.t) (history : WorkoutsRoute.History) :
  WorkoutsRoute.getHistory orderBy memberId q db workouts = Ok history ->
  (exists stats,
     MemberStatsRoute.getStats memberId db workouts = Ok stats
     /\ WorkoutsRoute.totalWorkouts (WorkoutsRoute.h_stats history)
        = MemberStatsRoute.workoutCount stats
     /\ WorkoutsRoute.totalDuration (WorkoutsRoute.h_stats history)
        = MemberStatsRoute.totalWorkoutDuration stats
     /\ WorkoutsRoute.totalCalories (WorkoutsRoute.h_stats history)
        = MemberStatsRoute.totalCalories stats)
  /\ (forall q' history',
        WorkoutsRoute.getHistory orderBy memberId q' db workouts = Ok history' ->
        WorkoutsRoute.h_stats history' = WorkoutsRoute.h_stats history)
  /\ MembersRoute.p_total (WorkoutsRoute.h_pagination history)
     <= WorkoutsRoute.totalWorkouts (WorkoutsRoute.h_stats history).
Proof.
  unfold WorkoutsRoute.getHistory.
  destruct (WorkoutsRoute.validateHistoryQuery q); [|discriminate].
  destruct (String.eqb memberId EmptyString) eqn:Hid; [discriminate|].
  destruct (MembersRoute.findUnique memberId db) as [member|] eqn:Hmember;
    [|discriminate].
  intros [= <-].
  cbn [WorkoutsRoute.h_stats WorkoutsRoute.h_pagination
       WorkoutsRoute.totalWorkouts WorkoutsRoute.totalDuration
       WorkoutsRoute.totalCalories MembersRoute.p_total].
  split; [|split].
  - unfold MemberStatsRoute.getStats. rewrite Hid, Hmember.
    eexists. split; [reflexivity|].
    cbn [MemberStatsRoute.workoutCount MemberStatsRoute.totalWorkoutDuration
         MemberStatsRoute.totalCalories].
    split; [reflexivity|].
    split; [|apply sumOrZero_reduceSum].
    apply (sumOrZero_reduceSum (fun w => Some (Workout.duration w))).
  - intros q' history'.
    destruct (WorkoutsRoute.validateHistoryQuery q'); [|discriminate].
    intros [= <-]. reflexivity.
  - apply inj_le.
    set (ofMember := fun w : Workout.t =>
                       String.eqb (Workout.memberId w) memberId).
    induction workouts as [|w workouts IH]; cbn [filter length]; [lia|].
    unfold WorkoutsRoute.matchesWhere at 1.
    cbn [WorkoutsRoute.w_memberId WorkoutsRoute.w_workoutType].
    unfold ofMember at 1.
    destruct (String.eqb (Workout.memberId w) memberId); cbn [andb];
      [|exact IH].
    destruct (match WorkoutsRoute.w_workoutAt _ with Some _ => _ | None => _ end);
      cbn [length]; lia.
Qed.

Lemma history_stats_cover_all_workouts_witness :
  exists history,
    WorkoutsRoute.getHistory Fixture.orderWorkouts "m1" Fixture.lastTwoDays
      Fixture.gymDb Fixture.workouts = Ok history
    /\ WorkoutsRoute.h_workouts history = [Fixture.lift]
    /\ WorkoutsRoute.h_stats history
       = {| WorkoutsRoute.totalWorkouts := 2;
            WorkoutsRoute.totalDuration := 105;
            WorkoutsRoute.totalCalories := 400 |}
    /\ exists stats,
         MemberStatsRoute.getStats "m1" Fixture.gymDb Fixture.workouts
         = Ok stats
         /\ WorkoutsRoute.totalWorkouts (WorkoutsRoute.h_stats history)
            = MemberStatsRoute.workoutCount stats.
Proof.
  eexists. split; [reflexivity|]. split; [reflexivity|].
  split; [reflexivity|].
  destruct (history_stats_cover_all_workouts Fixture.orderWorkouts "m1"
              Fixture.lastTwoDays Fixture.gymDb Fixture.workouts _ eq_refl)
    as [(stats & Hstats & Hcount & _) _].
  exists stats. split; [exact Hstats | exact Hcount].
Defined.

(** ** Dashboard and payment overviews *)

Lemma sum_indicator (x : string) (keys : list string) :
  NoDup keys ->
  fold_right Z.add 0
    (map (fun k => if String.eqb x k then 1 else 0) keys)
  = if existsb (String.eqb x) keys then 1 else 0.
Proof.
  induction 1 as [|k keys Hk Hkeys IH]; simpl; [reflexivity|].
  rewrite IH. destruct (String.eqb x k) eqn:E; simpl; [|reflexivity].
  apply String.eqb_eq in E. subst k.
  destruct (existsb (String.eqb x) keys) eqn:Hex; [|reflexivity].
  apply existsb_exists in Hex. destruct Hex as (y & Hy & Heq).
  apply String.eqb_eq in Heq. subst y. contradiction.
Qed.

Lemma sum_counts_by_key {A : Type} (key : A -> string) (keys : list string)
    (rows : list A) :
  NoDup keys ->
  (forall r, In r rows -> In (key r) keys) ->
  fold_right Z.add 0
    (map (fun k =>
            Z.of_nat (length (filter (fun r => String.eqb (key r) k) rows)))
       keys)
  = Z.of_nat (length rows).
Proof.
  intros Hkeys. induction rows as [|r rows IH]; intros Hcover.
  - clear Hkeys Hcover.
    induction keys as [|k keys IHk]; simpl; [reflexivity | exact IHk].
  - assert (Hsplit : forall l : list string,
      fold_right Z.add 0
        (map (fun k =>
                Z.of_nat
                  (length (filter (fun r0 => String.eqb (key r0) k) (r :: rows))))
           l)
      = fold_right Z.add 0
          (map (fun k => if String.eqb (key r) k then 1 else 0) l)
        + fold_right Z.add 0
            (map (fun k =>
                    Z.of_nat
                      (length (filter (fun r0 => String.eqb (key r0) k) rows)))
               l)).
    { induction l as [|k l IHl]; [reflexivity|].
      cbn [map fold_right]. rewrite IHl. cbn [filter].
      destruct (String.eqb (key r) k); cbn [length]; lia. }
    rewrite Hsplit, (sum_indicator _ _ Hkeys), IH.
    + assert (Hin : existsb (String.eqb (key r)) keys = true).
      { apply existsb_exists. exists (key r).
        split; [apply Hcover; left; reflexivity | apply String.eqb_refl]. }
      rewrite Hin. cbn [length]. lia.
    + intros r0 Hr0. apply Hcover. right. exact Hr0.
Qed.

(** A grouping lists each key that occurs once, with a count of at least 1,
    and its counts add up to the number of rows. *)
Lemma groupCount_spec {A : Type} (key : A -> string) (rows : list A) :
  NoDup (map fst (Prisma.groupCount key rows))
  /\ (forall k n, In (k, n) (Prisma.groupCount key rows) ->
        1 <= n
        /\ n = Z.of_nat (length (filter (fun r => String.eqb (key r) k) rows))
        /\ exists r, In r rows /\ key r = k)
  /\ (forall r, In r rows -> In (key r) (map fst (Prisma.groupCount key rows)))
  /\ fold_right Z.add 0 (map snd (Prisma.groupCount key rows))
     = Z.of_nat (length rows).
Proof.
  unfold Prisma.groupCount. rewrite !map_map. cbn [fst snd].
  rewrite map_id.
  split; [apply NoDup_nodup|]. split; [|split].
  - intros k n Hin. apply in_map_iff in Hin.
    destruct Hin as (k' & [= <- <-] & Hk). apply nodup_In in Hk.
    apply in_map_iff in Hk. destruct Hk as (r & Hkey & Hr).
    assert (Hone : In r (filter (fun r0 => String.eqb (key r0) k') rows)).
    { apply filter_In. split; [exact Hr|]. rewrite Hkey.
      apply String.eqb_refl. }
    split; [|split; [reflexivity | exists r; split; assumption]].
    destruct (filter (fun r0 => String.eqb (key r0) k') rows);
      [contradiction | cbn [length]; lia].
  - intros r Hr. apply nodup_In. apply in_map. exact Hr.
  - apply sum_counts_by_key; [apply NoDup_nodup|].
    intros r Hr. apply nodup_In. apply in_map. exact Hr.
Qed.

(** X21. The membership and gender distributions of the dashboard list each
    membership type (each gender) that some member who is not archived has,
    once, with a count of at least 1, and the counts of either distribution
    add up to the number of members that are not archived.  The store is not
    changed. *)
Theorem distributions_partition_the_members (db : Db) :
  let current := filter DashboardViews.notArchived (members db) in
  exists byType byGender,
    DashboardViews.getMembershipDistribution db = (db, Ok byType)
    /\ DashboardViews.getGenderDistribution db = (db, Ok byGender)
    /\ NoDup (map fst byType) /\ NoDup (map fst byGender)
    /\ (forall type count, In (type, count) byType ->
          1 <= count
          /\ exists m, In m current /\ Member.membershipType m = type)
    /\ (forall gender count, In (gender, count) byGender ->
          1 <= count /\ exists m, In m current /\ Member.gender m = gender)
    /\ (forall m, In m current ->
          In (Member.membershipType m) (map fst byType)
          /\ In (Member.gender m) (map fst byGender))
    /\ fold_right Z.add 0 (map snd byType) = Z.of_nat (length current)
    /\ fold_right Z.add 0 (map snd byGender) = Z.of_nat (length current).
Proof.
  intros current.
  destruct (groupCount_spec Member.membershipType current)
    as (Hnodup1 & Hin1 & Hcover1 & Hsum1).
  destruct (groupCount_spec Member.gender current)
    as (Hnodup2 & Hin2 & Hcover2 & Hsum2).
  eexists _, _. split; [reflexivity|]. split; [reflexivity|].
  fold current.
  split; [exact Hnodup1|]. split; [exact Hnodup2|].
  split; [intros type count H; destruct (Hin1 type count H) as (? & _ & ?);
          split; assumption|].
  split; [intros gender count H; destruct (Hin2 gender count H) as (? & _ & ?);
          split; assumption|].
  split; [intros m Hm; split; [apply Hcover1 | apply Hcover2]; exact Hm|].
  split; [exact Hsum1 | exact Hsum2].
Qed.

Lemma age_bucket (m : Member.t) :
  16 <= Member.age m <= 100 ->
  fold_right Z.add 0
    (map (fun range =>
            if (DashboardViews.min range <=? Member.age m)
               && (Member.age m <=? DashboardViews.max range)
            then 1 else 0)
       DashboardViews.ageRanges) = 1.
Proof.
  intros Hage. unfold DashboardViews.ageRanges.
  cbn [map fold_right DashboardViews.min DashboardViews.max].
  repeat match goal with
         | |- context [?a <=? ?b] =>
             let E := fresh "E" in
             destruct (a <=? b) eqn:E;
             [apply Z.leb_le in E | apply Z.leb_gt in E]
         end; cbn [andb]; lia.
Qed.

(** X22. GET /dashboard/age-distribution answers with the five ranges
    16-25, 26-35, 36-45, 46-55 and 56+ in this order.  When the age of every
    member is between 16 and 100, as the validators of the members routes
    require, each member that is not archived is counted in exactly one
    range: the five counts add up to the number of members that are not
    archived. *)
Theorem age_distribution_counts_each_member_once (db : Db) :
  Forall (fun m => 16 <= Member.age m <= 100) (members db) ->
  exists distribution,
    DashboardViews.getAgeDistribution db = (db, Ok distribution)
    /\ map fst distribution = ["16-25"; "26-35"; "36-45"; "46-55"; "56+"]
    /\ fold_right Z.add 0 (map snd distribution)
       = Z.of_nat (length (filter DashboardViews.notArchived (members db))).
Proof.
  intros Hages. eexists. split; [reflexivity|]. split; [reflexivity|].
  rewrite map_map. cbn [snd]. unfold Prisma.count.
  induction Hages as [|m rows Hm Hrows IH].
  - reflexivity.
  - assert (Hsplit : forall ranges : list DashboardViews.AgeRange,
      fold_right Z.add 0
        (map (fun range =>
                Z.of_nat
                  (length
                     (filter
                        (fun m0 =>
                           (DashboardViews.min range <=? Member.age m0)
                           && (Member.age m0 <=? DashboardViews.max range)
                           && DashboardViews.notArchived m0)
                        (m :: rows))))
           ranges)
      = (if DashboardViews.notArchived m
         then fold_right Z.add 0
                (map (fun range =>
                        if (DashboardViews.min range <=? Member.age m)
                           && (Member.age m <=? DashboardViews.max range)
                        then 1 else 0) ranges)
         else 0)
        + fold_right Z.add 0
            (map (fun range =>
                    Z.of_nat
                      (length
                         (filter
                            (fun m0 =>
                               (DashboardViews.min range <=? Member.age m0)
                               && (Member.age m0 <=? DashboardViews.max range)
                               && DashboardViews.notArchived m0)
                            rows)))
               ranges)).
    { induction ranges as [|range ranges IHr].
      - destruct (DashboardViews.notArchived m); reflexivity.
      - cbn [map fold_right]. rewrite IHr. cbn [filter].
        destruct (DashboardViews.notArchived m);
          destruct ((DashboardViews.min range <=? Member.age m)
                    && (Member.age m <=? DashboardViews.max range));
          cbn [andb length]; lia. }
    rewrite Hsplit, IH. cbn [filter].
    destruct (DashboardViews.notArchived m); [|reflexivity].
    rewrite (age_bucket m Hm). cbn [length]. lia.
Qed.

Lemma age_distribution_counts_each_member_once_witness :
  exists distribution,
    DashboardViews.getAgeDistribution Fixture.gymDb
    = (Fixture.gymDb, Ok distribution)
    /\ distribution
       = [("16-25", 0); ("26-35", 0); ("36-45", 1); ("46-55", 1); ("56+", 0)].
Proof.
  destruct (age_distribution_counts_each_member_once Fixture.gymDb)
    as (distribution & Hrun & _).
  - repeat constructor; simpl; lia.
  - exists distribution. split; [exact Hrun|].
    injection Hrun as <-. reflexivity.
Defined.

Lemma shown_by_status (statusFilter : string) (m : Member.t) :
  MemberManagement.matches EmptyString statusFilter "all" m
  = if String.eqb statusFilter "all"
    then negb (String.eqb (Member.status m) "ARCHIVED")
    else if String.eqb statusFilter "active"
    then String.eqb (Member.status m) "ACTIVE"
    else if String.eqb statusFilter "inactive"
    then String.eqb (Member.status m) "INACTIVE"
    else if String.eqb statusFilter "expiring"
    then String.eqb (Member.status m) "EXPIRING_SOON"
    else if String.eqb statusFilter "archived"
    then String.eqb (Member.status m) "ARCHIVED"
    else true.
Proof.
  unfold MemberManagement.matches.
  change (Js.toLowerCase EmptyString) with EmptyString.
  rewrite !includes_empty. cbn [orb andb].
  change (String.eqb "all" "all") with true. cbn [orb].
  apply andb_true_r.
Qed.

Lemma listed_all (m : Member.t) :
  MemberManagement.matches EmptyString "all" "all" m
  = negb (String.eqb (Member.status m) "ARCHIVED").
Proof. exact (shown_by_status "all" m). Qed.

Lemma listed_active (m : Member.t) :
  MemberManagement.matches EmptyString "active" "all" m
  = String.eqb (Member.status m) "ACTIVE".
Proof. exact (shown_by_status "active" m). Qed.

Lemma listed_inactive (m : Member.t) :
  MemberManagement.matches EmptyString "inactive" "all" m
  = String.eqb (Member.status m) "INACTIVE".
Proof. exact (shown_by_status "inactive" m). Qed.

Lemma listed_expiring (m : Member.t) :
  MemberManagement.matches EmptyString "expiring" "all" m
  = String.eqb (Member.status m) "EXPIRING_SOON".
Proof. exact (shown_by_status "expiring" m). Qed.

Lemma listed_archived (m : Member.t) :
  MemberManagement.matches EmptyString "archived" "all" m
  = String.eqb (Member.status m) "ARCHIVED".
Proof. exact (shown_by_status "archived" m). Qed.

Lemma length_filter_le {A : Type} (p q : A -> bool) (l : list A) :
  (forall x, p x = true -> q x = true) ->
  (length (filter p l) <= length (filter q l))%nat.
Proof.
  intros Himp. induction l as [|x l IH]; simpl; [lia|].
  destruct (p x) eqn:Hp.
  - rewrite (Himp x Hp). simpl. lia.
  - destruct (q x); simpl; lia.
Qed.

(** X23. The cards of the dashboard against the lists of the members page,
    for a page that holds the members of the store, no search term and every
    membership type.  The Active and Inactive cards show the numbers of
    members the filters "active" and "inactive" list.  The Total card counts
    the archived members too, which the filter "all" hides: it is the number
    that filter lists plus the archived count of the page.  The Expiring Soon
    card counts members whose status is ACTIVE only, so it is never above the
    Active card, and the members the filter "expiring" lists (status
    EXPIRING_SOON) are not among those it counts. *)
Theorem overview_cards_against_member_filters
    (startOfDay startOfMonth : Z -> Z) (addDays : Z -> Z -> Z)
    (now : Z) (db : Db) :
  exists overview,
    DashboardViews.getOverview startOfDay startOfMonth addDays now db
    = (db, Ok overview)
    /\ let listed (statusFilter : string) : Z :=
         Z.of_nat
           (length
              (MemberManagement.filteredMembers (members db) EmptyString
                 statusFilter "all")) in
       let counts :=
         MemberManagementPage.memberCounts (Some overview) (members db) in
       MemberManagementPage.active counts = listed "active"
       /\ MemberManagementPage.inactive counts = listed "inactive"
       /\ MemberManagementPage.archived counts = listed "archived"
       /\ MemberManagementPage.total counts
          = listed "all" + MemberManagementPage.archived counts
       /\ 0 <= MemberManagementPage.expiringSoon counts
          <= MemberManagementPage.active counts
       /\ MemberManagementPage.expiringSoon counts + listed "expiring"
          + listed "inactive" <= listed "all".
Proof.
  unfold DashboardViews.getOverview. run_handler. cbv zeta.
  eexists. split; [reflexivity|].
  unfold MemberManagementPage.memberCounts.
  cbn [MemberManagementPage.active MemberManagementPage.inactive
       MemberManagementPage.archived MemberManagementPage.total
       MemberManagementPage.expiringSoon
       DashboardViews.totalMembers DashboardViews.activeMembers
       DashboardViews.inactiveMembers DashboardViews.expiringSoon].
  unfold MemberManagement.filteredMembers, Prisma.count,
    DashboardViews.hasStatus.
  rewrite !(filter_ext _ _ listed_active), !(filter_ext _ _ listed_inactive),
    !(filter_ext _ _ listed_archived), !(filter_ext _ _ listed_expiring),
    !(filter_ext _ _ listed_all).
  generalize (addDays now 30). intros horizon.
  generalize (members db). intros rows.
  split; [reflexivity|]. split; [reflexivity|]. split; [reflexivity|].
  assert (Hexpiring :
    (length
       (filter
          (fun m =>
             String.eqb (Member.status m) "ACTIVE"
             && (Member.expiryDate m <=? horizon)%Z
             && (now <=? Member.expiryDate m)%Z) rows)
     <= length (filter (fun m => String.eqb (Member.status m) "ACTIVE") rows))%nat).
  { apply length_filter_le. intros m H.
    apply andb_true_iff in H. destruct H as [H _].
    apply andb_true_iff in H. destruct H as [H _]. exact H. }
  assert (Hparts :
    (length (filter (fun m => String.eqb (Member.status m) "ACTIVE") rows)
     + length (filter (fun m => String.eqb (Member.status m) "EXPIRING_SOON")
                 rows)
     + length (filter (fun m => String.eqb (Member.status m) "INACTIVE") rows)
     <= length
          (filter (fun m => negb (String.eqb (Member.status m) "ARCHIVED"))
             rows))%nat
    /\ length (filter (fun _ : Member.t => true) rows)
       = (length
            (filter (fun m => negb (String.eqb (Member.status m) "ARCHIVED"))
               rows)
          + length
              (filter (fun m => String.eqb (Member.status m) "ARCHIVED") rows))%nat).
  { clear Hexpiring. induction rows as [|m rows [IH1 IH2]]; [split; reflexivity|].
    cbn [filter].
    destruct (String.eqb (Member.status m) "ACTIVE") eqn:E1;
      destruct (String.eqb (Member.status m) "EXPIRING_SOON") eqn:E2;
      destruct (String.eqb (Member.status m) "INACTIVE") eqn:E3;
      destruct (String.eqb (Member.status m) "ARCHIVED") eqn:E4;
      rewrite ?String.eqb_eq in *;
      try congruence; cbn [negb length]; split; lia. }
  destruct Hparts as [Hsum Hall].
  split; [lia|]. split; lia.
Qed.

Lemma sumAmount_filter_le (p q : Payment.t -> bool) (rows : list Payment.t) :
  (forall x, p x = true -> q x = true) ->
  Forall (fun x => 0 <= Payment.amount x) rows ->
  0 <= PaymentsViews.sumAmount (filter p rows)
    <= PaymentsViews.sumAmount (filter q rows).
Proof.
  intros Himp Hall. induction Hall as [|x rows Hx Hrows IH]; simpl; [lia|].
  destruct (p x) eqn:Hp.
  - rewrite (Himp x Hp). simpl. lia.
  - destruct (q x); simpl; lia.
Qed.

(** X24. GET /payments/stats/overview counts every payment in
    [totalPayments], so the pending and the overdue payments together are
    never more; the payment types of its distribution are distinct and
    their counts add up to the number of payments that are not cancelled.
    When no amount is negative, the revenue of the month is between 0 and
    the total revenue, and it is the figure GET /dashboard/overview gives
    for the month.  The store is not changed. *)
Theorem payments_overview_is_consistent (startOfDay startOfMonth : Z -> Z)
    (addDays : Z -> Z -> Z) (now : Z) (db : Db) :
  Forall (fun p => 0 <= Payment.amount p) (payments db) ->
  exists overview dashboard,
    PaymentsViews.getOverview startOfMonth now db = (db, Ok overview)
    /\ DashboardViews.getOverview startOfDay startOfMonth addDays now db
       = (db, Ok dashboard)
    /\ PaymentsViews.totalPayments overview = Z.of_nat (length (payments db))
    /\ 0 <= PaymentsViews.pendingPayments overview
    /\ 0 <= PaymentsViews.overduePayments overview
    /\ PaymentsViews.pendingPayments overview
       + PaymentsViews.overduePayments overview
       <= PaymentsViews.totalPayments overview
    /\ 0 <= PaymentsViews.monthlyRevenue overview
       <= PaymentsViews.totalRevenue overview
    /\ DashboardViews.monthlyRevenue dashboard
       = PaymentsViews.monthlyRevenue overview
    /\ NoDup (map fst (PaymentsViews.paymentTypeDistribution overview))
    /\ fold_right Z.add 0
         (map snd (PaymentsViews.paymentTypeDistribution overview))
       = Z.of_nat
           (length
              (filter
                 (fun p => negb (String.eqb (Payment.status p) "CANCELLED"))
                 (payments db))).
Proof.
  intros Hamounts.
  unfold PaymentsViews.getOverview, DashboardViews.getOverview.
  run_handler. cbv zeta.
  eexists _, _. split; [reflexivity|]. split; [reflexivity|].
  cbn [PaymentsViews.totalPayments PaymentsViews.pendingPayments
       PaymentsViews.overduePayments PaymentsViews.monthlyRevenue
       PaymentsViews.totalRevenue PaymentsViews.paymentTypeDistribution
       DashboardViews.monthlyRevenue].
  unfold Prisma.count.
  destruct (groupCount_spec Payment.paymentType
              (filter
                 (fun p => negb (String.eqb (Payment.status p) "CANCELLED"))
                 (payments db)))
    as (Hnodup & _ & _ & Hsum).
  pose proof (sumAmount_filter_le (PaymentsViews.paidSince (startOfMonth now))
                PaymentsViews.isPaid (payments db)) as Hrevenue.
  assert (Hcounts :
    (length (filter (fun p => String.eqb (Payment.status p) "PENDING")
               (payments db))
     + length (filter (fun p => String.eqb (Payment.status p) "OVERDUE")
                 (payments db))
     <= length (filter (fun _ : Payment.t => true) (payments db)))%nat
    /\ length (filter (fun _ : Payment.t => true) (payments db))
       = length (payments db)).
  { clear. induction (payments db) as [|p rows [IH1 IH2]];
      [split; reflexivity|].
    cbn [filter].
    destruct (String.eqb (Payment.status p) "PENDING") eqn:E1;
      destruct (String.eqb (Payment.status p) "OVERDUE") eqn:E2;
      rewrite ?String.eqb_eq in *; try congruence; cbn [length]; split; lia. }
  destruct Hcounts as [Hle Hall].
  split; [rewrite Hall; reflexivity|].
  split; [lia|]. split; [lia|]. split; [lia|].
  split.
  { apply Hrevenue; [|exact Hamounts].
    intros p Hp. unfold PaymentsViews.paidSince in Hp.
    apply andb_true_iff in Hp. tauto. }
  split; [reflexivity|].
  split; [exact Hnodup | exact Hsum].
Qed.

Lemma payments_overview_is_consistent_witness :
  exists overview,
    PaymentsViews.getOverview Fixture.startOfMonth Sample.now Fixture.gymDb
    = (Fixture.gymDb, Ok overview)
    /\ PaymentsViews.totalRevenue overview = 150000
    /\ PaymentsViews.paymentTypeDistribution overview
       = [("MEMBERSHIP", 1); ("CLASS", 1)].
Proof.
  destruct (payments_overview_is_consistent Fixture.startOfDay
              Fixture.startOfMonth Fixture.addDays Sample.now Fixture.gymDb)
    as (overview & dashboard & Hrun & _).
  - repeat constructor; simpl; lia.
  - exists overview. split; [exact Hrun|].
    injection Hrun as <-. split; reflexivity.
Defined.

Lemma count_updateUnique {A : Type} (p : A -> bool) (key : A -> string)
    (f : A -> A) (id : string) (rows : list A) (r : A) :
  find (fun x => String.eqb (key x) id) rows = Some r ->
  Prisma.count p (updateUnique key id f rows)
  = Prisma.count p rows - (if p r then 1 else 0) + (if p (f r) then 1 else 0).
Proof.
  unfold Prisma.count.
  induction rows as [|x rows IH]; cbn [find updateUnique]; [discriminate|].
  destruct (String.eqb (key x) id).
  - intros [= ->]. cbn [filter].
    destruct (p r), (p (f r)); cbn [length]; lia.
  - intros Hfind. cbn [filter]. specialize (IH Hfind).
    destruct (p x); cbn [length]; lia.
Qed.

(** X25. After PATCH /payments/:id/mark-paid has succeeded at a time that
    is not before the start of its month, the overview of the payments, read
    at that time, counts as many payments as before, one pending payment
    less if the payment was PENDING and one overdue payment less if it was
    OVERDUE; the settled payment is among the payments the total revenue
    and the revenue of the month add up, every other payment is as before,
    and neither revenue goes down when the amount is not negative.  (The
    revenues are sums of numbers that need not be whole; nothing here rests
    on the sums being exact.) *)
Theorem settled_payment_counts_in_overview (startOfMonth : Z -> Z)
    (id : string) (b : PaymentsRoute.Body) (now : Z) (db db' : Db)
    (paid : Payment.t) :
  startOfMonth now <= now ->
  PaymentsRoute.markPaid id b now db = (db', Ok paid) ->
  exists payment before after,
    PaymentsRoute.findUnique id db = Some payment
    /\ PaymentsViews.getOverview startOfMonth now db = (db, Ok before)
    /\ PaymentsViews.getOverview startOfMonth now db' = (db', Ok after)
    /\ PaymentsViews.totalPayments after = PaymentsViews.totalPayments before
    /\ PaymentsViews.pendingPayments after
       = PaymentsViews.pendingPayments before
         - (if String.eqb (Payment.status payment) "PENDING" then 1 else 0)
    /\ PaymentsViews.overduePayments after
       = PaymentsViews.overduePayments before
         - (if String.eqb (Payment.status payment) "OVERDUE" then 1 else 0)
    /\ PaymentsViews.isPaid payment = false
    /\ PaymentsRoute.findUnique id db' = Some paid
    /\ PaymentsViews.isPaid paid = true
    /\ PaymentsViews.paidSince (startOfMonth now) paid = true
    /\ (forall id', id' <> id ->
          PaymentsRoute.findUnique id' db' = PaymentsRoute.findUnique id' db)
    /\ (0 <= Payment.amount paid ->
        PaymentsViews.totalRevenue before <= PaymentsViews.totalRevenue after
        /\ PaymentsViews.monthlyRevenue before
           <= PaymentsViews.monthlyRevenue after).
Proof.
  intros Hmonth Hmark. apply markPaid_inv in Hmark.
  destruct Hmark
    as (payment & data & Hfind & Hunpaid & Hm & Ha & Hs & Hat & -> & ->).
  assert (Hstatus : Payment.status (PaymentsRoute.applyUpdate data payment)
                    = "PAID") by (simpl; rewrite Hs; reflexivity).
  assert (Hpaid : Payment.paidAt (PaymentsRoute.applyUpdate data payment)
                  = Some now) by (simpl; rewrite Hat; reflexivity).
  assert (Hamount : Payment.amount (PaymentsRoute.applyUpdate data payment)
                    = Payment.amount payment)
    by (simpl; rewrite Ha; reflexivity).
  assert (Hge : (startOfMonth now <=? now) = true)
    by (apply Z.leb_le; exact Hmonth).
  pose proof Hunpaid as Hneq. apply String.eqb_neq in Hneq.
  exists payment.
  unfold PaymentsViews.getOverview. run_handler. cbv zeta.
  eexists _, _. split; [exact Hfind|].
  split; [reflexivity|]. split; [reflexivity|].
  cbn [PaymentsViews.totalRevenue PaymentsViews.monthlyRevenue
       PaymentsViews.totalPayments PaymentsViews.pendingPayments
       PaymentsViews.overduePayments PaymentsRoute.update payments].
  pose proof Hfind as Hrow. unfold PaymentsRoute.findUnique in Hrow.
  rewrite !(count_updateUnique _ _ _ _ _ _ Hrow).
  assert (HisPaid : PaymentsViews.isPaid payment = false) by exact Hneq.
  assert (HisPaid' :
    PaymentsViews.isPaid (PaymentsRoute.applyUpdate data payment) = true).
  { unfold PaymentsViews.isPaid. rewrite Hstatus. reflexivity. }
  assert (Hsince :
    PaymentsViews.paidSince (startOfMonth now) payment = false).
  { unfold PaymentsViews.paidSince. rewrite HisPaid. reflexivity. }
  assert (Hsince' :
    PaymentsViews.paidSince (startOfMonth now)
      (PaymentsRoute.applyUpdate data payment) = true).
  { unfold PaymentsViews.paidSince. rewrite HisPaid', Hpaid, Hge.
    reflexivity. }
  rewrite Hstatus.
  change (String.eqb "PAID" "PENDING") with false.
  change (String.eqb "PAID" "OVERDUE") with false.
  split; [lia|]. split; [lia|]. split; [lia|].
  split; [exact HisPaid|].
  split; [apply findUnique_payment_update; exact Hfind|].
  split; [exact HisPaid'|]. split; [exact Hsince'|].
  split; [intros id' Hne; apply findUnique_payment_update_other; exact Hne|].
  intros Hnonneg. unfold PaymentsViews.sumAmount. split.
  - destruct (filter_updateUnique_inserted PaymentsViews.isPaid Payment.id
                (PaymentsRoute.applyUpdate data) id (payments db) payment
                Hrow HisPaid HisPaid')
      as (earlier & later & -> & ->).
    apply (fold_right_inserted Payment.t Z.add Payment.amount);
      [intros; lia | intros; lia | exact Hnonneg].
  - destruct (filter_updateUnique_inserted
                (PaymentsViews.paidSince (startOfMonth now)) Payment.id
                (PaymentsRoute.applyUpdate data) id (payments db) payment
                Hrow Hsince Hsince')
      as (earlier & later & -> & ->).
    apply (fold_right_inserted Payment.t Z.add Payment.amount);
      [intros; lia | intros; lia | exact Hnonneg].
Qed.

Lemma settled_payment_counts_in_overview_witness :
  exists db' before after,
    PaymentsViews.getOverview Fixture.startOfMonth Sample.now Fixture.gymDb
    = (Fixture.gymDb, Ok before)
    /\ PaymentsViews.getOverview Fixture.startOfMonth Sample.now db'
       = (db', Ok after)
    /\ PaymentsViews.pendingPayments before = 1
    /\ PaymentsViews.pendingPayments after = 0
    /\ PaymentsViews.totalPayments after = 2.
Proof.
  exists (PaymentsRoute.update "p2"
            (PaymentsRoute.setPaidAt Sample.now (Sample.statusChange "PAID"))
            Fixture.gymDb).
  destruct (settled_payment_counts_in_overview Fixture.startOfMonth "p2"
              Sample.noPaymentFields Sample.now Fixture.gymDb
              (PaymentsRoute.update "p2"
                 (PaymentsRoute.setPaidAt Sample.now
                    (Sample.statusChange "PAID"))
                 Fixture.gymDb)
              Fixture.settled)
    as (payment & before & after & Hfind & Hbefore & Hafter & Htotal
        & Hpending & _).
  - vm_compute. discriminate.
  - reflexivity.
  - exists before, after.
    split; [exact Hbefore|]. split; [exact Hafter|].
    injection Hfind as <-. injection Hbefore as <-.
    split; [reflexivity|].
    split; [rewrite Hpending; reflexivity|].
    rewrite Htotal. reflexivity.
Defined.

(** ** The error responder *)

(** X26. Whatever error reaches [errorHandler], the status of the answer is
    a valid HTTP status (from 100 to 599) and its message is not empty; and
    outside development the answer carries neither the stack nor the name of
    the error. *)
Theorem error_response_is_well_formed (development : bool)
    (error : ErrorHandler.AppError) :
  100 <= ErrorHandler.status (ErrorHandler.errorHandler development error) < 600
  /\ ErrorHandler.r_message (ErrorHandler.errorHandler development error)
     <> EmptyString
  /\ (development = false ->
      ErrorHandler.r_stack (ErrorHandler.errorHandler development error) = None
      /\ ErrorHandler.r_error (ErrorHandler.errorHandler development error)
         = None).
Proof.
  unfold ErrorHandler.errorHandler.
  repeat match goal with
         | |- context [String.eqb (ErrorHandler.name error) ?s] =>
             destruct (String.eqb (ErrorHandler.name error) s)
         end;
    repeat match goal with
           | |- context [ErrorHandler.codeIs ?c (ErrorHandler.code error)] =>
               destruct (ErrorHandler.codeIs c (ErrorHandler.code error))
           end;
    destruct (negb (String.eqb (ErrorHandler.message error) EmptyString)
              && Js.includes (ErrorHandler.message error) "Too many requests");
    cbv beta iota zeta;
    cbn [ErrorHandler.status ErrorHandler.r_message ErrorHandler.r_stack
         ErrorHandler.r_error];
    (split;
     [ first
         [ cbn; lia
         | destruct ((field 500 (ErrorHandler.statusCode error) <? 100)
                     || (600 <=? field 500 (ErrorHandler.statusCode error)))
             eqn:E; [lia|];
           apply orb_false_iff in E; destruct E as [E1 E2];
           apply Z.ltb_ge in E1; apply Z.leb_gt in E2; lia ]
     | split;
       [ first
           [ cbn; discriminate
           | destruct (String.eqb (ErrorHandler.message error) EmptyString)
               eqn:E; [discriminate | apply String.eqb_neq; exact E] ]
       | intros ->; split; reflexivity ] ]).
Qed.

Lemma known_check (P : string -> Prop) (ok : bool) (msg : string) :
  P msg -> Forall P (Validator.check ok msg).
Proof. intros H. destruct ok; simpl; repeat constructor. exact H. Qed.

Lemma known_first (P : string -> Prop) (errors : list string) :
  Forall P errors -> P "Validation error" -> P (firstErrorMessage errors).
Proof.
  intros Hall Hdefault. destruct Hall as [|msg rest Hmsg _]; simpl;
    [exact Hdefault|].
  destruct (String.eqb msg EmptyString); assumption.
Qed.

Ltac known_message := split; [discriminate | reflexivity].

Ltac known_messages :=
  repeat match goal with
         | |- Forall _ (_ ++ _) => apply Forall_app; split
         | |- Forall _ (Validator.required _ _ _) =>
             apply known_check; known_message
         | |- Forall _ (Validator.check _ _) =>
             apply known_check; known_message
         | |- Forall _ (Validator.optional ?v _ _) =>
             destruct v; cbn [Validator.optional]
         | |- Forall _ (match ?v with Some _ => _ | None => _ end) =>
             destruct v
         | |- Forall _ [] => constructor
         | |- Forall _ [_] => constructor; [known_message | constructor]
         end.

(** A route error whose message is not empty and does not speak of too
    many requests is answered with its own status and message. *)
Lemma errorHandler_route_error (development : bool) (e : HttpError)
    (stack : option string) :
  ErrorHandler.message (ErrorHandler.ofHttpError e stack) <> EmptyString ->
  Js.includes (ErrorHandler.message (ErrorHandler.ofHttpError e stack))
    "Too many requests" = false ->
  ErrorHandler.errorHandler development (ErrorHandler.ofHttpError e stack)
  = {| ErrorHandler.status := statusCode e;
       ErrorHandler.r_message :=
         ErrorHandler.message (ErrorHandler.ofHttpError e stack);
       ErrorHandler.r_stack := if development then stack else None;
       ErrorHandler.r_error := if development then Some "Error" else None |}.
Proof.
  intros Hne Hplain. apply String.eqb_neq in Hne.
  unfold ErrorHandler.errorHandler.
  destruct e as [m|m|m]; cbn [ErrorHandler.ofHttpError ErrorHandler.customError
    ErrorHandler.name ErrorHandler.message ErrorHandler.statusCode
    ErrorHandler.code ErrorHandler.stack field statusCode] in *;
    rewrite Hplain, Hne; simpl; rewrite Hne; reflexivity.
Qed.

Lemma validateMember_known (isEmail : string -> bool) (b : MembersRoute.Body) :
  Forall (fun msg => msg <> EmptyString
                     /\ Js.includes msg "Too many requests" = false)
    (MembersRoute.validateMember isEmail b).
Proof. unfold MembersRoute.validateMember. known_messages. Qed.

Lemma validateMemberUpdate_known (isEmail : string -> bool)
    (b : MembersRoute.Body) :
  Forall (fun msg => msg <> EmptyString
                     /\ Js.includes msg "Too many requests" = false)
    (MembersRoute.validateMemberUpdate isEmail b).
Proof. unfold MembersRoute.validateMemberUpdate. known_messages. Qed.

Lemma validateMembersQuery_known (q : MembersRoute.Query) :
  Forall (fun msg => msg <> EmptyString
                     /\ Js.includes msg "Too many requests" = false)
    (MembersRoute.validateQuery q).
Proof. unfold MembersRoute.validateQuery. known_messages. Qed.

Lemma validatePayment_known (b : PaymentsRoute.Body) :
  Forall (fun msg => msg <> EmptyString
                     /\ Js.includes msg "Too many requests" = false)
    (PaymentsRoute.validatePayment b).
Proof. unfold PaymentsRoute.validatePayment. known_messages. Qed.

Lemma validatePaymentUpdate_known (b : PaymentsRoute.Body) :
  Forall (fun msg => msg <> EmptyString
                     /\ Js.includes msg "Too many requests" = false)
    (PaymentsRoute.validatePaymentUpdate b).
Proof. unfold PaymentsRoute.validatePaymentUpdate. known_messages. Qed.

Ltac thrown_validation H :=
  split; [reflexivity|];
  refine (known_first
            (fun msg => msg <> EmptyString
                        /\ Js.includes msg "Too many requests" = false)
            _ H _);
  known_message.

Ltac thrown_here := split; [reflexivity | known_message].

(** X27. When a route of the members or payments router throws, the store
    is as it was before the request, and [errorHandler] answers with the
    status of the error class (400 for a BadRequest, 404 for a NotFound, 409
    for a Conflict) and with the message of the error; the stack and the
    name of the error are sent in development only. *)
Theorem route_errors_reach_the_client (isEmail : string -> bool)
    (normalizeEmail : string -> string)
    (orderBy : string -> string -> list Member.t -> list Member.t)
    (development : bool) (stack : option string) (db db' : Db)
    (e : HttpError) :
  (exists q, MembersRoute.getMembers orderBy q db = (db', Threw e))
  \/ (exists id, MembersRoute.getMember id db = (db', Threw e))
  \/ (exists b now newId,
        MembersRoute.postMember isEmail normalizeEmail b now newId db
        = (db', Threw e))
  \/ (exists id b now,
        MembersRoute.putMember isEmail normalizeEmail id b now db
        = (db', Threw e))
  \/ (exists id, MembersRoute.deleteMember id db = (db', Threw e))
  \/ (exists id, PaymentsViews.getPayment id db = (db', Threw e))
  \/ (exists b now newId,
        PaymentsRoute.postPayment b now newId db = (db', Threw e))
  \/ (exists id b now, PaymentsRoute.putPayment id b now db = (db', Threw e))
  \/ (exists id, PaymentsRoute.deletePayment id db = (db', Threw e))
  \/ (exists id b now, PaymentsRoute.markPaid id b now db = (db', Threw e)) ->
  db' = db
  /\ ErrorHandler.errorHandler development (ErrorHandler.ofHttpError e stack)
     = {| ErrorHandler.status := statusCode e;
          ErrorHandler.r_message :=
            ErrorHandler.message (ErrorHandler.ofHttpError e stack);
          ErrorHandler.r_stack := if development then stack else None;
          ErrorHandler.r_error :=
            if development then Some "Error" else None |}.
Proof.
  intros Hthrown.
  assert (Hknown :
    db' = db
    /\ (fun msg => msg <> EmptyString
                   /\ Js.includes msg "Too many requests" = false)
         (ErrorHandler.message (ErrorHandler.ofHttpError e stack))).
  { destruct Hthrown
      as [[q H] | [[id H] | [(b & now & newId & H) | [(id & b & now & H)
         | [[id H] | [[id H] | [(b & now & newId & H) | [(id & b & now & H)
         | [[id H] | (id & b & now & H)]]]]]]]]]; revert H.
    - unfold MembersRoute.getMembers. run_handler.
      pose proof (validateMembersQuery_known q) as Hq.
      destruct (MembersRoute.validateQuery q); [discriminate|].
      intros [= <- <-]. thrown_validation Hq.
    - unfold MembersRoute.getMember. run_handler.
      destruct (String.eqb id EmptyString); [intros [= <- <-]; thrown_here|].
      destruct (MembersRoute.findUnique id db); [discriminate|].
      intros [= <- <-]. thrown_here.
    - unfold MembersRoute.postMember. run_handler.
      pose proof (validateMember_known isEmail b) as Hb.
      destruct (MembersRoute.validateMember isEmail b);
        [|intros [= <- <-]; thrown_validation Hb].
      destruct (MembersRoute.findUniqueByEmail _ db); [|discriminate].
      intros [= <- <-]. thrown_here.
    - unfold MembersRoute.putMember. run_handler.
      pose proof (validateMemberUpdate_known isEmail b) as Hb.
      destruct (MembersRoute.validateMemberUpdate isEmail b);
        [|intros [= <- <-]; thrown_validation Hb].
      destruct (String.eqb id EmptyString); [intros [= <- <-]; thrown_here|].
      destruct (MembersRoute.findUnique id db) as [existing|];
        [|intros [= <- <-]; thrown_here].
      destruct (Js.truthy _ && negb _); [|discriminate].
      destruct (MembersRoute.findUniqueByEmail _ db); [|discriminate].
      intros [= <- <-]. thrown_here.
    - unfold MembersRoute.deleteMember. run_handler.
      destruct (String.eqb id EmptyString); [intros [= <- <-]; thrown_here|].
      destruct (MembersRoute.findUnique id db); [discriminate|].
      intros [= <- <-]. thrown_here.
    - unfold PaymentsViews.getPayment. run_handler.
      destruct (String.eqb id EmptyString); [intros [= <- <-]; thrown_here|].
      destruct (PaymentsRoute.findUnique id db); [discriminate|].
      intros [= <- <-]. thrown_here.
    - unfold PaymentsRoute.postPayment. run_handler.
      pose proof (validatePayment_known b) as Hb.
      destruct (PaymentsRoute.validatePayment b);
        [|intros [= <- <-]; thrown_validation Hb].
      destruct (MembersRoute.findUnique _ db); [discriminate|].
      intros [= <- <-]. thrown_here.
    - unfold PaymentsRoute.putPayment. run_handler.
      pose proof (validatePaymentUpdate_known b) as Hb.
      destruct (PaymentsRoute.validatePaymentUpdate b);
        [|intros [= <- <-]; thrown_validation Hb].
      destruct (String.eqb id EmptyString); [intros [= <- <-]; thrown_here|].
      destruct (PaymentsRoute.findUnique id db); [discriminate|].
      intros [= <- <-]. thrown_here.
    - unfold PaymentsRoute.deletePayment. run_handler.
      destruct (String.eqb id EmptyString); [intros [= <- <-]; thrown_here|].
      destruct (PaymentsRoute.findUnique id db) as [payment|];
        [|intros [= <- <-]; thrown_here].
      destruct (negb _); [|discriminate].
      intros [= <- <-]. thrown_here.
    - unfold PaymentsRoute.markPaid. run_handler.
      destruct (String.eqb id EmptyString); [intros [= <- <-]; thrown_here|].
      destruct (PaymentsRoute.findUnique id db) as [payment|];
        [|intros [= <- <-]; thrown_here].
      destruct (String.eqb (Payment.status payment) "PAID"); [|discriminate].
      intros [= <- <-]. thrown_here. }
  destruct Hknown as [Hdb [Hne Hplain]].
  split; [exact Hdb|].
  apply errorHandler_route_error; assumption.
Qed.

Lemma route_errors_reach_the_client_witness :
  ErrorHandler.errorHandler false
    (ErrorHandler.ofHttpError
       (BadRequestError "Only pending payments can be deleted") (Some "at"))
  = {| ErrorHandler.status := 400;
       ErrorHandler.r_message := "Only pending payments can be deleted";
       ErrorHandler.r_stack := None;
       ErrorHandler.r_error := None |}.
Proof.
  apply (route_errors_reach_the_client Sample.isEmail Sample.normalizeEmail
           Sample.orderBy false (Some "at") Fixture.gymDb Fixture.gymDb
           (BadRequestError "Only pending payments can be deleted")).
  do 8 right. left. exists "p1". reflexivity.
Defined.

(** ** The role check *)

(** X28. [requireRole] lets a request pass exactly when it carries a user
    whose role is one of the listed roles: without a user the answer is 401,
    with a user of another role 403.  So a longer list of roles lets pass
    whatever a shorter one does, and whoever passes [requireSuperAdmin]
    passes [requireAdmin]. *)
Theorem role_check_is_monotone (roles roles' : list string)
    (user : option AuthMiddleware.User) :
  (AuthMiddleware.requireRole roles user = AuthMiddleware.Next
   <-> exists u, user = Some u /\ In (AuthMiddleware.role u) roles)
  /\ (AuthMiddleware.requireRole roles user <> AuthMiddleware.Next ->
      AuthMiddleware.requireRole roles user
      = match user with
        | None => AuthMiddleware.Respond 401 "Authentication required"
        | Some _ => AuthMiddleware.Respond 403 "Insufficient permissions"
        end)
  /\ (incl roles roles' ->
      AuthMiddleware.requireRole roles user = AuthMiddleware.Next ->
      AuthMiddleware.requireRole roles' user = AuthMiddleware.Next)
  /\ (AuthMiddleware.requireSuperAdmin user = AuthMiddleware.Next ->
      AuthMiddleware.requireAdmin user = AuthMiddleware.Next).
Proof.
  assert (Hpass : forall rs,
            AuthMiddleware.requireRole rs user = AuthMiddleware.Next
            <-> exists u, user = Some u /\ In (AuthMiddleware.role u) rs).
  { intros rs. unfold AuthMiddleware.requireRole.
    destruct user as [u|].
    - destruct (existsb (String.eqb (AuthMiddleware.role u)) rs) eqn:E; simpl.
      + apply existsb_exists in E. destruct E as (r & Hr & Heq).
        apply String.eqb_eq in Heq. subst r.
        split; [intros _; exists u; split; [reflexivity | exact Hr]|].
        reflexivity.
      + split; [discriminate|]. intros (u' & [= <-] & Hin).
        assert (Hex : existsb (String.eqb (AuthMiddleware.role u)) rs = true).
        { apply existsb_exists. exists (AuthMiddleware.role u).
          split; [exact Hin | apply String.eqb_refl]. }
        congruence.
    - split; [discriminate|]. intros (u & Hu & _). discriminate. }
  assert (Hmono : forall rs rs',
            incl rs rs' ->
            AuthMiddleware.requireRole rs user = AuthMiddleware.Next ->
            AuthMiddleware.requireRole rs' user = AuthMiddleware.Next).
  { intros rs rs' Hincl H. apply Hpass in H. destruct H as (u & Hu & Hin).
    apply Hpass. exists u. split; [exact Hu | apply Hincl; exact Hin]. }
  split; [apply Hpass|]. split; [|split].
  - unfold AuthMiddleware.requireRole. destruct user as [u|]; [|reflexivity].
    destruct (existsb _ roles); simpl; [intros H; contradiction | reflexivity].
  - apply Hmono.
  - unfold AuthMiddleware.requireSuperAdmin, AuthMiddleware.requireAdmin.
    apply Hmono. intros r [<-|[]]. right. left. reflexivity.
Qed.

Lemma role_check_is_monotone_witness :
  AuthMiddleware.requireAdmin
    (Some {| AuthMiddleware.id := "u1";
             AuthMiddleware.email := "owner@example.com";
             AuthMiddleware.role := "SUPER_ADMIN" |})
  = AuthMiddleware.Next.
Proof.
  destruct (role_check_is_monotone ["SUPER_ADMIN"] ["ADMIN"; "SUPER_ADMIN"]
              (Some {| AuthMiddleware.id := "u1";
                       AuthMiddleware.email := "owner@example.com";
                       AuthMiddleware.role := "SUPER_ADMIN" |}))
    as (_ & _ & _ & Hadmin).
  apply Hadmin. reflexivity.
Defined.

(** ** The filter buttons of the members page *)

(** X29. A click on one of the five filter buttons of the members page
    clears the search term, keeps the membership filter, and leaves exactly
    the clicked button highlighted.  With every membership type selected,
    the page then lists the members by status: all but the archived ones
    for All Members, and for Active, Inactive, Expiring Soon and Archived
    the members whose status is ACTIVE, INACTIVE, EXPIRING_SOON and
    ARCHIVED. *)
Theorem filter_button_lists_its_members (button : string)
    (s : MemberManagementPage.State) :
  In button MemberFilters.filterButtons ->
  let s' := MemberManagementPage.handleStatusFilterChange button s in
  MemberManagementPage.searchTerm s' = EmptyString
  /\ MemberManagementPage.membershipFilter s'
     = MemberManagementPage.membershipFilter s
  /\ (forall other, In other MemberFilters.filterButtons ->
        MemberFilters.isFilterActive (MemberManagementPage.statusFilter s')
          other = String.eqb other button)
  /\ (forall m,
        MemberManagement.matches (MemberManagementPage.searchTerm s')
          (MemberManagementPage.statusFilter s') "all" m = true
        <-> (button = "All Members" /\ Member.status m <> "ARCHIVED")
            \/ (button = "Active" /\ Member.status m = "ACTIVE")
            \/ (button = "Inactive" /\ Member.status m = "INACTIVE")
            \/ (button = "Expiring Soon" /\ Member.status m = "EXPIRING_SOON")
            \/ (button = "Archived" /\ Member.status m = "ARCHIVED")).
Proof.
  intros Hbutton s'. split; [reflexivity|]. split; [reflexivity|].
  unfold s'. clear s'. cbn [MemberManagementPage.handleStatusFilterChange
    MemberManagementPage.searchTerm MemberManagementPage.statusFilter].
  unfold MemberManagementPage.handleStatusFilterChange.
  cbn [MemberManagementPage.searchTerm MemberManagementPage.statusFilter].
  unfold MemberFilters.filterButtons in *.
  cbn [In] in Hbutton.
  destruct Hbutton as [<-|[<-|[<-|[<-|[<-|[]]]]]].
  - split.
    + intros other Hother. cbn [In] in Hother.
      destruct Hother as [<-|[<-|[<-|[<-|[<-|[]]]]]]; reflexivity.
    + intros m.
      match goal with
      | |- _ <-> ?R =>
          change (MemberManagement.matches EmptyString "all" "all" m = true
                  <-> R)
      end.
      rewrite listed_all, negb_true_iff, String.eqb_neq.
      split; [intros H; left; split; [reflexivity | exact H]|].
      intros [[_ H]|[[H _]|[[H _]|[[H _]|[H _]]]]];
        [exact H | discriminate H ..].
  - split.
    + intros other Hother. cbn [In] in Hother.
      destruct Hother as [<-|[<-|[<-|[<-|[<-|[]]]]]]; reflexivity.
    + intros m.
      match goal with
      | |- _ <-> ?R =>
          change (MemberManagement.matches EmptyString "active" "all" m = true
                  <-> R)
      end.
      rewrite listed_active, String.eqb_eq.
      split; [intros H; right; left; split; [reflexivity | exact H]|].
      intros [[H _]|[[_ H]|[[H _]|[[H _]|[H _]]]]];
        [discriminate H | exact H | discriminate H ..].
  - split.
    + intros other Hother. cbn [In] in Hother.
      destruct Hother as [<-|[<-|[<-|[<-|[<-|[]]]]]]; reflexivity.
    + intros m.
      match goal with
      | |- _ <-> ?R =>
          change (MemberManagement.matches EmptyString "inactive" "all" m = true
                  <-> R)
      end.
      rewrite listed_inactive, String.eqb_eq.
      split; [intros H; do 2 right; left; split; [reflexivity | exact H]|].
      intros [[H _]|[[H _]|[[_ H]|[[H _]|[H _]]]]];
        [discriminate H | discriminate H | exact H | discriminate H ..].
  - split.
    + intros other Hother. cbn [In] in Hother.
      destruct Hother as [<-|[<-|[<-|[<-|[<-|[]]]]]]; reflexivity.
    + intros m.
      match goal with
      | |- _ <-> ?R =>
          change (MemberManagement.matches EmptyString "expiring" "all" m = true
                  <-> R)
      end.
      rewrite listed_expiring, String.eqb_eq.
      split; [intros H; do 3 right; left; split; [reflexivity | exact H]|].
      intros [[H _]|[[H _]|[[H _]|[[_ H]|[H _]]]]];
        [discriminate H | discriminate H | discriminate H | exact H
        | discriminate H].
  - split.
    + intros other Hother. cbn [In] in Hother.
      destruct Hother as [<-|[<-|[<-|[<-|[<-|[]]]]]]; reflexivity.
    + intros m.
      match goal with
      | |- _ <-> ?R =>
          change (MemberManagement.matches EmptyString "archived" "all" m = true
                  <-> R)
      end.
      rewrite listed_archived, String.eqb_eq.
      split; [intros H; do 4 right; split; [reflexivity | exact H]|].
      intros [[H _]|[[H _]|[[H _]|[[H _]|[_ H]]]]];
        [discriminate H .. | exact H].
Qed.

Lemma filter_button_lists_its_members_witness :
  MemberFilters.isFilterActive
    (MemberManagementPage.statusFilter
       (MemberManagementPage.handleStatusFilterChange "Expiring Soon"
          {| MemberManagementPage.searchTerm := "asha";
             MemberManagementPage.statusFilter := "all";
             MemberManagementPage.membershipFilter := "all";
             MemberManagementPage.urlFilter := Some "active" |}))
    "Expiring Soon" = true
  /\ MemberManagement.matches EmptyString "expiring" "all" Fixture.other = true.
Proof.
  destruct (filter_button_lists_its_members "Expiring Soon"
              {| MemberManagementPage.searchTerm := "asha";
                 MemberManagementPage.statusFilter := "all";
                 MemberManagementPage.membershipFilter := "all";
                 MemberManagementPage.urlFilter := Some "active" |})
    as (_ & _ & Hactive & Hlisted).
  - simpl. tauto.
  - split.
    + apply (Hactive "Expiring Soon"). simpl. tauto.
    + apply (Hlisted Fixture.other). do 3 right. left.
      split; reflexivity.
Defined.

(** ** The list of payments *)

Lemma validatePaymentsQuery_nil (q : PaymentsViews.Query) :
  PaymentsViews.validateQuery q = [] ->
  1 <= MembersRoute.numberOr 1 (PaymentsViews.page q)
  /\ 1 <= MembersRoute.numberOr 10 (PaymentsViews.limit q) <= 100
  /\ match PaymentsViews.q_status q with
     | Some s => In s PaymentsRoute.statuses
     | None => True
     end
  /\ match PaymentsViews.q_paymentType q with
     | Some t => In t PaymentsRoute.paymentTypes
     | None => True
     end.
Proof.
  unfold PaymentsViews.validateQuery. intros H.
  apply app_eq_nil in H. destruct H as [Hpage H].
  apply app_eq_nil in H. destruct H as [Hlimit H].
  apply app_eq_nil in H. destruct H as [Hstatus H].
  apply app_eq_nil in H. destruct H as [Htype _].
  split; [exact (page_bounds _ _ Hpage)|].
  split; [exact (limit_bounds _ _ Hlimit)|].
  apply optional_nil in Hstatus, Htype.
  split.
  - destruct (PaymentsViews.q_status q); [apply isIn_In; exact Hstatus | exact I].
  - destruct (PaymentsViews.q_paymentType q);
      [apply isIn_In; exact Htype | exact I].
Qed.

(** One criterion of a where clause: absent, or dropped because it is empty,
    or an equality. *)
Lemma where_criterion (v : option string) (x : string) :
  match (if Js.truthy v then v else None) with
  | Some m => String.eqb x m
  | None => true
  end = true
  <-> (forall m, v = Some m -> m <> EmptyString -> x = m).
Proof.
  destruct v as [m|]; simpl.
  - destruct (String.eqb m EmptyString) eqn:E; simpl.
    + apply String.eqb_eq in E. split; [|reflexivity].
      intros _ m' [= <-] Hne. contradiction.
    + apply String.eqb_neq in E. rewrite String.eqb_eq. split.
      * intros -> m' [= <-] _. reflexivity.
      * intros H. apply (H m eq_refl E).
  - split; [intros _ m; discriminate | reflexivity].
Qed.

(** X30. A valid GET /payments lists payments of the store that all have
    the requested status, the requested type and the requested member (the
    member filter is trimmed, and dropped when it is empty); [total] counts
    exactly the payments the criteria select, and the page holds no more of
    them than the limit, which is at most 100.  The store is not changed. *)
Theorem getPayments_lists_by_criteria
    (orderBy : string -> string -> list Payment.t -> list Payment.t)
    (q : PaymentsViews.Query) (db : Db) :
  (forall key order rows, length (orderBy key order rows) = length rows) ->
  (forall key order rows p, In p (orderBy key order rows) -> In p rows) ->
  PaymentsViews.validateQuery q = [] ->
  let selected (p : Payment.t) : Prop :=
    (forall m, PaymentsViews.q_memberId q = Some m ->
       Js.trim m <> EmptyString -> Payment.memberId p = Js.trim m)
    /\ (forall s, PaymentsViews.q_status q = Some s -> Payment.status p = s)
    /\ (forall t, PaymentsViews.q_paymentType q = Some t ->
          Payment.paymentType p = t) in
  let whereClause :=
    PaymentsViews.buildWhere (option_map Js.trim (PaymentsViews.q_memberId q))
      (PaymentsViews.q_status q) (PaymentsViews.q_paymentType q) in
  exists listing,
    PaymentsViews.getPayments orderBy q db = (db, Ok listing)
    /\ (forall p, PaymentsViews.matchesWhere whereClause p = true
                  <-> selected p)
    /\ MembersRoute.p_total (PaymentsViews.l_pagination listing)
       = Z.of_nat
           (length
              (filter (PaymentsViews.matchesWhere whereClause) (payments db)))
    /\ (forall p, In p (PaymentsViews.l_payments listing) ->
          In p (payments db) /\ selected p)
    /\ Z.of_nat (length (PaymentsViews.l_payments listing))
       <= MembersRoute.p_limit (PaymentsViews.l_pagination listing)
       <= 100.
Proof.
  intros Hlength Hin Hvalid selected whereClause.
  destruct (validatePaymentsQuery_nil q Hvalid)
    as (Hpage & Hlimit & Hstatus & Htype).
  assert (Hselected : forall p, PaymentsViews.matchesWhere whereClause p = true
                                <-> selected p).
  { intros p. unfold whereClause, PaymentsViews.matchesWhere,
      PaymentsViews.buildWhere, selected.
    cbn [PaymentsViews.w_memberId PaymentsViews.w_status
         PaymentsViews.w_paymentType].
    rewrite !andb_true_iff, !where_criterion.
    assert (Hmember :
      (forall m, option_map Js.trim (PaymentsViews.q_memberId q) = Some m ->
         m <> EmptyString -> Payment.memberId p = m)
      <-> (forall m, PaymentsViews.q_memberId q = Some m ->
             Js.trim m <> EmptyString -> Payment.memberId p = Js.trim m)).
    { destruct (PaymentsViews.q_memberId q) as [m0|]; simpl.
      - split.
        + intros H m [= <-] Hne. apply H; [reflexivity | exact Hne].
        + intros H m [= <-] Hne. apply H; [reflexivity | exact Hne].
      - split; intros _ m; discriminate. }
    assert (Hs :
      (forall s, PaymentsViews.q_status q = Some s -> s <> EmptyString ->
         Payment.status p = s)
      <-> (forall s, PaymentsViews.q_status q = Some s ->
             Payment.status p = s)).
    { destruct (PaymentsViews.q_status q) as [s0|].
      - split.
        + intros H s [= <-]. apply H; [reflexivity|].
          intros ->. simpl in Hstatus. intuition discriminate.
        + intros H s Hs _. apply H. exact Hs.
      - split; intros _ s; discriminate. }
    assert (Ht :
      (forall t, PaymentsViews.q_paymentType q = Some t -> t <> EmptyString ->
         Payment.paymentType p = t)
      <-> (forall t, PaymentsViews.q_paymentType q = Some t ->
             Payment.paymentType p = t)).
    { destruct (PaymentsViews.q_paymentType q) as [t0|].
      - split.
        + intros H t [= <-]. apply H; [reflexivity|].
          intros ->. simpl in Htype. intuition discriminate.
        + intros H t Ht _. apply H. exact Ht.
      - split; intros _ t; discriminate. }
    rewrite Hmember, Hs, Ht. tauto. }
  unfold PaymentsViews.getPayments. rewrite Hvalid. run_handler.
  fold whereClause.
  eexists. split; [reflexivity|].
  cbn [PaymentsViews.l_payments PaymentsViews.l_pagination
       MembersRoute.p_total MembersRoute.p_limit].
  destruct (page_slice
              (orderBy (field "createdAt" (PaymentsViews.sortBy q))
                 (field "desc" (PaymentsViews.sortOrder q)))
              (filter (PaymentsViews.matchesWhere whereClause) (payments db))
              (MembersRoute.numberOr 1 (PaymentsViews.page q))
              (MembersRoute.numberOr 10 (PaymentsViews.limit q)))
    as (Hshort & Hsub & _ & _);
    [apply Hlength | apply Hin | exact Hpage | lia |].
  split; [exact Hselected|]. split; [reflexivity|].
  split; [|lia].
  intros p Hp. apply Hsub, filter_In in Hp. destruct Hp as [Hp Hmatch].
  split; [exact Hp | apply Hselected; exact Hmatch].
Qed.

Lemma getPayments_lists_by_criteria_witness :
  exists listing,
    PaymentsViews.getPayments Fixture.orderPayments
      {| PaymentsViews.page := None; PaymentsViews.limit := Some "5";
         PaymentsViews.q_memberId := Some " m1 ";
         PaymentsViews.q_status := Some "PAID";
         PaymentsViews.q_paymentType := None;
         PaymentsViews.sortBy := None; PaymentsViews.sortOrder := None |}
      Fixture.gymDb = (Fixture.gymDb, Ok listing)
    /\ PaymentsViews.l_payments listing = [Sample.paidPayment]
    /\ MembersRoute.p_total (PaymentsViews.l_pagination listing) = 1.
Proof.
  destruct (getPayments_lists_by_criteria Fixture.orderPayments
              {| PaymentsViews.page := None; PaymentsViews.limit := Some "5";
                 PaymentsViews.q_memberId := Some " m1 ";
                 PaymentsViews.q_status := Some "PAID";
                 PaymentsViews.q_paymentType := None;
                 PaymentsViews.sortBy := None;
                 PaymentsViews.sortOrder := None |}
              Fixture.gymDb)
    as (listing & Hrun & _);
    [intros; reflexivity | intros key order rows p H; exact H | reflexivity |].
  exists listing. split; [exact Hrun|].
  injection Hrun as <-. split; reflexivity.
Defined.
